(** * eRPC core: session teardown, endpoint construction and destruction,
      and the background worker loop

    A shallow embedding of

      - [src/rpc_impl/rpc_disconnect_handlers.cc]
          ([handle_disconnect_req_st], [handle_disconnect_resp_st]),
      - [src/rpc_impl/rpc.cc]
          (the [Rpc] constructor and destructor, [bury_session_st]),
      - [src/nexus_impl/nexus_bg_thread.cc] ([bg_thread_func]).

    The C++ code is imperative and single-threaded per endpoint; it is
    embedded as state-passing functions in a state-and-halt monad.  An
    [assert] that fails, a thrown exception, a call to [exit] and a null or
    dangling dereference each halt the computation and are kept apart, so
    that statements can tell them from a normal return.  Assertions are
    modelled as enabled (a build without NDEBUG). *)

From stdpp Require Import base option list gmap strings pretty.

Local Open Scope string_scope.

(** ** Machine integers

    [uint8_t], [uint16_t] and [size_t] values are only compared and used as
    indices in the modelled code, never added to, so they are naturals and
    no wrap-around arises. *)
Abbreviation uint8 := nat (only parsing).
Abbreviation uint16 := nat (only parsing).
Abbreviation size_t := nat (only parsing).

(** Modelled from the spec: the constant [kInvalidRpcId] is declared
    elsewhere in eRPC; the data model says "the value 0xFF is reserved as
    invalid". *)
Definition kInvalidRpcId : uint8 := 255.

(** ** Session-management packets *)

Inductive SessionMgmtPktType :=
| kConnectReq | kConnectResp | kDisconnectReq | kDisconnectResp.

(** Modelled from the spec: the error enumeration is declared elsewhere in
    eRPC. The spec names [kNoError] and [kTooManySessions]; any other byte
    found on the wire is kept as [kErrRaw]. *)
Inductive SessionMgmtErrType :=
| kNoError | kTooManySessions | kErrRaw (code : uint8).

Inductive SessionMgmtEventType :=
| kConnected | kConnectFailed | kDisconnected | kDisconnectFailed.

#[global] Instance SessionMgmtPktType_eq_dec : EqDecision SessionMgmtPktType.
Proof. solve_decision. Defined.
#[global] Instance SessionMgmtErrType_eq_dec : EqDecision SessionMgmtErrType.
Proof. solve_decision. Defined.
#[global] Instance SessionMgmtEventType_eq_dec : EqDecision SessionMgmtEventType.
Proof. solve_decision. Defined.

(** Modelled from the spec: [session_mgmt_err_type_is_valid] is defined
    elsewhere in eRPC; a valid error type is one of the enumeration's
    named values. *)
Definition session_mgmt_err_type_is_valid (e : SessionMgmtErrType) : bool :=
  match e with kErrRaw _ => false | _ => true end.

(** Modelled from the spec: [session_mgmt_pkt_type_req_to_resp] is defined
    elsewhere in eRPC; a connect (disconnect) request is answered by
    a connect (disconnect) response. *)
Definition session_mgmt_pkt_type_req_to_resp (t : SessionMgmtPktType)
  : SessionMgmtPktType :=
  match t with
  | kConnectReq => kConnectResp
  | kDisconnectReq => kDisconnectResp
  | other => other
  end.

(** Modelled from the spec: the class is declared elsewhere in eRPC.
    "SessionEndpoint: hostname, RpcId, session number, and
    transport-addressing opaque blob.  Two endpoints compare equal iff all
    four match." *)
Record SessionEndpoint := mkSessionEndpoint {
  ep_hostname : string;
  ep_rpc_id : uint8;
  ep_session_num : uint16;
  ep_routing_info : list nat
}.

#[global] Instance SessionEndpoint_eq_dec : EqDecision SessionEndpoint.
Proof. solve_decision. Defined.

(** Modelled from the spec: "a fixed-layout datagram carrying pkt_type,
    client endpoint, server endpoint, err_type". *)
Record SessionMgmtPkt := mkSessionMgmtPkt {
  pkt_type : SessionMgmtPktType;
  err_type : SessionMgmtErrType;
  client : SessionEndpoint;
  server : SessionEndpoint
}.

#[global] Instance SessionMgmtPkt_eq_dec : EqDecision SessionMgmtPkt.
Proof. solve_decision. Defined.

(** ** Message buffers, session slots, sessions *)

(** A pointer into transport-registered memory; the null pointer is [None]. *)
Abbreviation addr := nat (only parsing).

Record Buffer := mkBuffer {
  buffer_buf : option addr;
  class_size : size_t
}.

Record MsgBuffer := mkMsgBuffer {
  buffer : Buffer;
  buf : option addr;
  req_type : uint8;        (* packet header field read by get_req_type() *)
  num_pkts : size_t;
  pkts_queued : size_t
}.

#[global] Instance Buffer_eq_dec : EqDecision Buffer.
Proof. solve_decision. Defined.
#[global] Instance MsgBuffer_eq_dec : EqDecision MsgBuffer.
Proof. solve_decision. Defined.

(** Addresses of [Session] objects, of [SSlot] objects, of application
    contexts and of functions; a C++ pointer of one of these types is an
    [option] of the address, [None] being [nullptr]. *)
Abbreviation SessionPtr := nat (only parsing).
Abbreviation SSlotPtr := nat (only parsing).
Abbreviation CtxPtr := nat (only parsing).
Abbreviation FuncPtr := nat (only parsing).

Record clt_save_info_t := mkCltSaveInfo {
  cont_func : FuncPtr;
  tag : nat
}.

Record SSlot := mkSSlot {
  session : option SessionPtr;       (* back-reference to the owner *)
  rx_msgbuf : MsgBuffer;
  tx_msgbuf : option MsgBuffer;      (* MsgBuffer *, null when idle *)
  pre_resp_msgbuf : MsgBuffer;
  clt_save_info : clt_save_info_t
}.

Inductive SessionRole := kClientRole | kServerRole.

Inductive SessionState :=
| kConnectInProgress | kConnectedState | kDisconnectInProgress | kDisconnectedState.

#[global] Instance SessionRole_eq_dec : EqDecision SessionRole.
Proof. solve_decision. Defined.
#[global] Instance SessionState_eq_dec : EqDecision SessionState.
Proof. solve_decision. Defined.

Record client_info_t := mkClientInfo {
  sm_callbacks_disabled : bool
}.

Record Session := mkSession {
  role : SessionRole;
  state : SessionState;
  s_client : SessionEndpoint;
  s_server : SessionEndpoint;
  local_session_num : uint16;
  sslot_arr : list SSlot;            (* SSlot sslot_arr[kSessionReqWindow] *)
  client_info : client_info_t
}.

Definition is_client (s : Session) : bool := bool_decide (role s = kClientRole).
Definition is_server (s : Session) : bool := bool_decide (role s = kServerRole).

(** [session->state = st] *)
Definition set_state (st : SessionState) (s : Session) : Session :=
  mkSession (role s) st (s_client s) (s_server s) (local_session_num s)
            (sslot_arr s) (client_info s).

(** ** The allocator, the transport and the Nexus as the endpoint sees them *)

(** Modelled from the spec: the huge-page allocator is consumed as an
    interface; a buffer that is released goes back to the allocator, which
    is all the model keeps of it. *)
Record HugeAlloc := mkHugeAlloc {
  ha_numa_node : size_t;
  ha_freed : list Buffer
}.

(** Modelled from the spec: the allocator takes a released buffer back. *)
Definition free_buf (b : Buffer) (ha : HugeAlloc) : HugeAlloc :=
  mkHugeAlloc (ha_numa_node ha) (ha_freed ha ++ [b]).

Record Transport := mkTransport {
  tr_rpc_id : uint8;
  tr_phy_port : uint8;
  tr_hugepage_init : bool      (* init_hugepage_structures has completed *)
}.

(** Modelled from the spec: the Nexus class is declared elsewhere in eRPC;
    "the Nexus maintains a mapping RpcId to NexusHook; registration fails if
    the id already exists". A hook is identified by its RpcId. *)
Record Nexus := mkNexus {
  nx_hostname : string;
  num_bg_threads : size_t;
  reg_hooks : list uint8
}.

(** Modelled from the spec: whether a hook is registered under the id. *)
Definition rpc_id_exists (id : uint8) (nx : Nexus) : bool :=
  bool_decide (id ∈ reg_hooks nx).

(** Modelled from the spec: "Each Rpc registers a NexusHook identified by
    its RpcId". *)
Definition register_hook (id : uint8) (nx : Nexus) : Nexus :=
  mkNexus (nx_hostname nx) (num_bg_threads nx) (reg_hooks nx ++ [id]).

(** Modelled from the spec: "unregister_hook removes it". *)
Definition unregister_hook (id : uint8) (nx : Nexus) : Nexus :=
  mkNexus (nx_hostname nx) (num_bg_threads nx)
          (filter (λ h, h ≠ id) (reg_hooks nx)).

(** ** What a run leaves outside the endpoint *)

Inductive Event :=
| EvDprintf (msg : string)                       (* erpc_dprintf *)
| EvSmPktSent (pkt : SessionMgmtPkt)             (* UDP datagram sent *)
| EvSmCallback (session_num : uint16)            (* session_mgmt_handler called *)
               (ev : SessionMgmtEventType) (err : SessionMgmtErrType).

#[global] Instance Event_eq_dec : EqDecision Event.
Proof. solve_decision. Defined.

(** ** How a computation can stop short of returning *)

Inductive Exception :=
| runtime_error (what : string)
| invalid_argument (what : string)
| out_of_range.

Inductive Halt :=
| AssertionFailed (file : string) (line : nat)   (* assert(e) with e false *)
| Thrown (e : Exception)                         (* an exception leaves the function *)
| Exited (code : Z)                              (* exit(code) *)
| NullDeref (what : string)                      (* undefined behaviour: *nullptr *)
| DanglingDeref (what : string)                  (* undefined behaviour: freed or out of bounds *)
| StillRunning.                                  (* the schedule given to a loop ran out *)

Inductive Outcome (S A : Type) :=
| Ret (a : A) (s : S)
| Stop (h : Halt) (s : S).
Arguments Ret {S A} a s.
Arguments Stop {S A} h s.

Definition M (S A : Type) := S → Outcome S A.

Definition ret {S A} (a : A) : M S A := λ s, Ret a s.

Definition bind {S A B} (m : M S A) (k : A → M S B) : M S B :=
  λ s, match m s with
       | Ret a s' => k a s'
       | Stop h s' => Stop h s'
       end.

Definition halt {S A} (h : Halt) : M S A := λ s, Stop h s.
Definition get {S} : M S S := λ s, Ret s s.
Definition modify {S} (f : S → S) : M S unit := λ s, Ret tt (f s).

Declare Scope m_scope.
Delimit Scope m_scope with M.
Notation "x <- m ;; k" := (bind m (λ x, k))
  (at level 100, m at next level, right associativity) : m_scope.
Notation "m ;; k" := (bind m (λ _, k))
  (at level 100, right associativity) : m_scope.

(** [assert(b)] at [file:line]. *)
Definition assert_ {S} (file : string) (line : nat) (b : bool) : M S unit :=
  if b then ret tt else halt (AssertionFailed file line).

(** [for (x : xs) body(x)] *)
Fixpoint for_each {S A} (xs : list A) (body : A → M S unit) : M S unit :=
  match xs with
  | [] => ret tt
  | x :: rest => bind (body x) (λ _, for_each rest body)
  end.

(** ** The endpoint and the memory it works on

    The members of [Rpc] that the modelled functions read or write, the
    [Nexus] the endpoint points to, the [Session] objects its pointers refer
    to ([heap]: the session vector and the management retry queue both hold
    [Session *], so a session is shared between them), the application state
    behind the opaque [context] pointer, and what the endpoint has emitted.
    [huge_alloc] and [transport] are owning pointers: [None] when the
    endpoint holds no live object. *)
Record World (App : Type) := mkWorld {
  rpc_id : uint8;
  phy_port : uint8;
  numa_node : size_t;
  creator_os_tid : nat;
  multi_threaded : bool;
  in_event_loop : bool;
  session_vec : list (option SessionPtr);
  mgmt_retryq : list SessionPtr;
  huge_alloc : option HugeAlloc;
  transport : option Transport;
  nexus : Nexus;
  heap : gmap SessionPtr Session;
  context : App;
  output : list Event
}.
Arguments mkWorld {App}.
Arguments rpc_id {App}.
Arguments phy_port {App}.
Arguments numa_node {App}.
Arguments creator_os_tid {App}.
Arguments multi_threaded {App}.
Arguments in_event_loop {App}.
Arguments session_vec {App}.
Arguments mgmt_retryq {App}.
Arguments huge_alloc {App}.
Arguments transport {App}.
Arguments nexus {App}.
Arguments heap {App}.
Arguments context {App}.
Arguments output {App}.

Definition with_session_vec {App} (v : list (option SessionPtr)) (w : World App) :=
  mkWorld (rpc_id w) (phy_port w) (numa_node w) (creator_os_tid w)
    (multi_threaded w) (in_event_loop w) v (mgmt_retryq w) (huge_alloc w)
    (transport w) (nexus w) (heap w) (context w) (output w).

Definition with_mgmt_retryq {App} (q : list SessionPtr) (w : World App) :=
  mkWorld (rpc_id w) (phy_port w) (numa_node w) (creator_os_tid w)
    (multi_threaded w) (in_event_loop w) (session_vec w) q (huge_alloc w)
    (transport w) (nexus w) (heap w) (context w) (output w).

Definition with_huge_alloc {App} (ha : option HugeAlloc) (w : World App) :=
  mkWorld (rpc_id w) (phy_port w) (numa_node w) (creator_os_tid w)
    (multi_threaded w) (in_event_loop w) (session_vec w) (mgmt_retryq w) ha
    (transport w) (nexus w) (heap w) (context w) (output w).

Definition with_transport {App} (tr : option Transport) (w : World App) :=
  mkWorld (rpc_id w) (phy_port w) (numa_node w) (creator_os_tid w)
    (multi_threaded w) (in_event_loop w) (session_vec w) (mgmt_retryq w)
    (huge_alloc w) tr (nexus w) (heap w) (context w) (output w).

Definition with_nexus {App} (nx : Nexus) (w : World App) :=
  mkWorld (rpc_id w) (phy_port w) (numa_node w) (creator_os_tid w)
    (multi_threaded w) (in_event_loop w) (session_vec w) (mgmt_retryq w)
    (huge_alloc w) (transport w) nx (heap w) (context w) (output w).

Definition with_heap {App} (h : gmap SessionPtr Session) (w : World App) :=
  mkWorld (rpc_id w) (phy_port w) (numa_node w) (creator_os_tid w)
    (multi_threaded w) (in_event_loop w) (session_vec w) (mgmt_retryq w)
    (huge_alloc w) (transport w) (nexus w) h (context w) (output w).

Definition with_context {App} (c : App) (w : World App) :=
  mkWorld (rpc_id w) (phy_port w) (numa_node w) (creator_os_tid w)
    (multi_threaded w) (in_event_loop w) (session_vec w) (mgmt_retryq w)
    (huge_alloc w) (transport w) (nexus w) (heap w) c (output w).

Definition with_output {App} (o : list Event) (w : World App) :=
  mkWorld (rpc_id w) (phy_port w) (numa_node w) (creator_os_tid w)
    (multi_threaded w) (in_event_loop w) (session_vec w) (mgmt_retryq w)
    (huge_alloc w) (transport w) (nexus w) (heap w) (context w) o.

Definition emit {App} (e : Event) (w : World App) : World App :=
  with_output (output w ++ [e]) w.

(** The response datagram [send_resp_mut] puts on the wire for a request. *)
Definition resp_of (err : SessionMgmtErrType) (pkt : SessionMgmtPkt) : SessionMgmtPkt :=
  mkSessionMgmtPkt (session_mgmt_pkt_type_req_to_resp (pkt_type pkt)) err
                   (client pkt) (server pkt).

(** The datagrams among a list of events, in order. *)
Definition sm_pkts_sent (evs : list Event) : list SessionMgmtPkt :=
  omap (λ e, match e with EvSmPktSent p => Some p | _ => None end) evs.

(** The user callbacks among a list of events, in order. *)
Definition is_sm_callback (e : Event) : bool :=
  match e with EvSmCallback _ _ _ => true | _ => false end.

Definition sm_callbacks (evs : list Event) : list Event :=
  List.filter is_sm_callback evs.

(** How a construction ends: the object is built, or the body stopped (the
    world is the partly built object at that point), or the member
    initialiser list dereferenced a null [nexus]: undefined behaviour,
    before the body is entered and before any object exists. *)
Inductive CtorOutcome (App : Type) :=
| Constructed (w : World App)
| CtorStopped (h : Halt) (w : World App)
| CtorNullDeref (what : string).
Arguments Constructed {App} w.
Arguments CtorStopped {App} h w.
Arguments CtorNullDeref {App} what.

Section Endpoint.

(** The application: its state, and its session-management callback.  The
    callback is application code run on the creator thread; it is handed
    the callback arguments and the [context] pointer, through which it may
    observe the endpoint.  It is given the world as it is at the call and
    returns the new application state. *)
Context {App : Type}.
Variable session_mgmt_handler :
  uint16 → SessionMgmtEventType → SessionMgmtErrType → World App → App.

(** [gettid()] of the thread that runs the modelled function. *)
Variable gettid : nat.

(** [Session::kSessionReqWindow], a compile-time constant declared elsewhere
    in eRPC. *)
Variable kSessionReqWindow : size_t.

(** [kDatapathChecks], [kMaxPhyPorts], [kMaxNumaNodes]: compile-time
    constants declared elsewhere in eRPC. *)
Variable kDatapathChecks : bool.
Variable kMaxPhyPorts : size_t.
Variable kMaxNumaNodes : size_t.

Local Abbreviation W := (World App).
Local Abbreviation RpcM := (M (World App)).

Local Open Scope m_scope.

Definition assert_st (file : string) (line : nat) (b : W → bool) : RpcM unit :=
  λ w, assert_ file line (b w) w.

(** Modelled from the spec: [in_creator] is defined elsewhere in eRPC; "the
    creator thread (the thread that constructed it)". The constructor stores
    [gettid()] in [creator_os_tid]. *)
Definition in_creator (w : W) : bool := bool_decide (gettid = creator_os_tid w).

(** Modelled from the spec: the [erpc_dprintf] macro is defined elsewhere in
    eRPC; protocol errors are "logged" and fatal preconditions end "with a
    diagnostic". The message is kept without its formatted prefix. *)
Definition erpc_dprintf (msg : string) : RpcM unit :=
  modify (emit (EvDprintf msg)).

(** Modelled from the spec: [SessionMgmtPkt::send_resp_mut] is defined
    elsewhere in eRPC.  It turns the request it is called on into
    the response (same endpoints, the response packet type, the given error
    type) and sends it to the client over UDP. *)
Definition send_resp_mut (err : SessionMgmtErrType) (sm_pkt : SessionMgmtPkt)
  : RpcM unit :=
  modify (emit (EvSmPktSent (resp_of err sm_pkt))).

(** Modelled from the spec: the retry-queue helpers are defined elsewhere in
    eRPC; the spec speaks of "presence in the retry queue" and "remove from
    retry queue". *)
Definition mgmt_retryq_contains_st (session : option SessionPtr) (w : W) : bool :=
  match session with
  | Some p => bool_decide (p ∈ mgmt_retryq w)
  | None => false
  end.

(** Modelled from the spec: "remove from retry queue"; the session is in the
    queue no more afterwards. *)
Definition mgmt_retryq_remove_st (p : SessionPtr) : RpcM unit :=
  modify (λ w, with_mgmt_retryq (filter (λ q, q ≠ p) (mgmt_retryq w)) w).

(** Modelled from the spec: [free_msg_buffer] is defined elsewhere in eRPC;
    it "releases" a buffer to the huge-page allocator. *)
Definition free_msg_buffer (msg_buf : MsgBuffer) : RpcM unit :=
  λ w, match huge_alloc w with
       | Some ha => Ret tt (with_huge_alloc (Some (free_buf (buffer msg_buf) ha)) w)
       | None => Stop (DanglingDeref "huge_alloc") w
       end.

(** [session->...]: reading through a [Session *]. *)
Definition deref_session (p : SessionPtr) : RpcM Session :=
  λ w, match heap w !! p with
       | Some s => Ret s w
       | None => Stop (DanglingDeref "session") w
       end.

(** [session->state = st] *)
Definition set_session_state (p : SessionPtr) (st : SessionState) : RpcM unit :=
  modify (λ w, with_heap (alter (set_state st) p (heap w)) w).

(** [delete session] *)
Definition delete_session (p : SessionPtr) : RpcM unit :=
  modify (λ w, with_heap (delete p (heap w)) w).

(** [session_vec[i]]: unchecked. *)
Definition session_vec_index (i : nat) : RpcM (option SessionPtr) :=
  λ w, match session_vec w !! i with
       | Some s => Ret s w
       | None => Stop (DanglingDeref "session_vec") w
       end.

(** [session_vec.at(i)]: throws [std::out_of_range]. *)
Definition session_vec_at (i : nat) : RpcM (option SessionPtr) :=
  λ w, match session_vec w !! i with
       | Some s => Ret s w
       | None => Stop (Thrown out_of_range) w
       end.

(** [session_vec.at(i) = v] *)
Definition session_vec_at_put (i : nat) (v : option SessionPtr) : RpcM unit :=
  λ w, if bool_decide (i < length (session_vec w))%nat
       then Ret tt (with_session_vec (<[i := v]> (session_vec w)) w)
       else Stop (Thrown out_of_range) w.

(** [session_mgmt_handler(session_num, ev, err, context)] *)
Definition call_session_mgmt_handler (session_num : uint16)
    (ev : SessionMgmtEventType) (err : SessionMgmtErrType) : RpcM unit :=
  modify (λ w, with_context (session_mgmt_handler session_num ev err w)
                            (emit (EvSmCallback session_num ev err) w)).

(** [session->sslot_arr[i]] for [i < kSessionReqWindow]. *)
Definition sslot_at (s : Session) (i : nat) : RpcM SSlot :=
  match sslot_arr s !! i with
  | Some sslot => ret sslot
  | None => halt (DanglingDeref "sslot_arr")
  end.

(** [Rpc<TTr>::bury_session_st], rpc.cc lines 119-142.  The session object
    is not written between its reads, so it is read once. *)
Definition bury_session_st (session : option SessionPtr) : RpcM unit :=
  assert_st "rpc.cc" 121 in_creator;;
  assert_ "rpc.cc" 122 (bool_decide (session ≠ None));;
  match session with
  | None => halt (NullDeref "session")
  | Some p =>
      s <- deref_session p;;
      (* Server-mode sessions are never in the retry queue *)
      (if is_client s
       then assert_st "rpc.cc" 126 (λ w, negb (mgmt_retryq_contains_st session w))
       else ret tt);;
      (* Free session resources *)
      for_each (seq 0 kSessionReqWindow) (λ i,
        sslot <- sslot_at s i;;
        free_msg_buffer (pre_resp_msgbuf sslot));;
      session_vec_at_put (local_session_num s) None;;
      delete_session p
  end.

(** [Rpc<TTr>::handle_disconnect_req_st], rpc_disconnect_handlers.cc lines
    16-65.  The packet is passed by value, so [sm_pkt != NULL] (line 19)
    holds. *)
Definition handle_disconnect_req_st (sm_pkt : SessionMgmtPkt) : RpcM unit :=
  let F := "rpc_disconnect_handlers.cc" in
  assert_st F 18 in_creator;;
  assert_ F 20 (bool_decide (pkt_type sm_pkt = kDisconnectReq));;
  (* Check that the server fields known by the client were filled correctly *)
  assert_st F 23 (λ w, bool_decide (ep_rpc_id (server sm_pkt) = rpc_id w));;
  assert_st F 24 (λ w, bool_decide (ep_hostname (server sm_pkt) = nx_hostname (nexus w)));;
  let session_num := ep_session_num (server sm_pkt) in
  assert_st F 32 (λ w, bool_decide (session_num < length (session_vec w))%nat);;
  (* Check if the session was already disconnected *)
  slot <- session_vec_at session_num;;
  match slot with
  | None =>
      erpc_dprintf "Duplicate disconnect request. Sending response.";;
      send_resp_mut kNoError sm_pkt
  | Some p =>
      s <- deref_session p;;
      assert_ F 46 (is_server s);;
      assert_ F 47 (bool_decide (s_server s = server sm_pkt));;
      assert_ F 48 (bool_decide (s_client s = client sm_pkt));;
      (* Check that responses for all sslots have been sent *)
      for_each (seq 0 kSessionReqWindow) (λ i,
        sslot <- sslot_at s i;;
        assert_ F 53 (bool_decide (buf (rx_msgbuf sslot) = None) &&
                      bool_decide (buffer_buf (buffer (rx_msgbuf sslot)) = None));;
        match tx_msgbuf sslot with
        | Some tx => assert_ F 57 (bool_decide (pkts_queued tx = num_pkts tx))
        | None => ret tt
        end);;
      erpc_dprintf "None. Sending response.";;
      send_resp_mut kNoError sm_pkt;;
      bury_session_st (Some p)
  end.

(** [Rpc<TTr>::handle_disconnect_resp_st], rpc_disconnect_handlers.cc lines
    69-130. *)
Definition handle_disconnect_resp_st (sm_pkt : SessionMgmtPkt) : RpcM unit :=
  let F := "rpc_disconnect_handlers.cc" in
  assert_st F 71 in_creator;;
  assert_ F 73 (bool_decide (pkt_type sm_pkt = kDisconnectResp));;
  assert_ F 74 (session_mgmt_err_type_is_valid (err_type sm_pkt));;
  (* Try to locate the requester session for this response *)
  let session_num := ep_session_num (client sm_pkt) in
  assert_st F 85 (λ w, bool_decide (session_num < length (session_vec w))%nat);;
  session <- session_vec_index session_num;;
  match session with
  | None =>
      (* a duplicate disconnect response: the callback is not invoked *)
      assert_st F 92 (λ w, negb (mgmt_retryq_contains_st session w));;
      erpc_dprintf "Client session is already disconnected."
  | Some p =>
      s <- deref_session p;;
      assert_ F 103 (bool_decide (state s = kDisconnectInProgress));;
      assert_st F 104 (mgmt_retryq_contains_st session);;
      mgmt_retryq_remove_st p;;
      assert_ F 109 (bool_decide (s_server s = server sm_pkt));;
      assert_ F 110 (bool_decide (s_client s = client sm_pkt));;
      (* Disconnect requests can only succeed *)
      assert_ F 113 (bool_decide (err_type sm_pkt = kNoError));;
      set_session_state p kDisconnectedState;;
      (if negb (sm_callbacks_disabled (client_info s))
       then
         erpc_dprintf "None. Session disconnected.";;
         call_session_mgmt_handler (local_session_num s) kDisconnected kNoError
       else
         erpc_dprintf "None. Session disconnected. Not invoking disconnect callback because session was never connected successfully.");;
      bury_session_st session
  end.

(** *** Construction and destruction (rpc.cc lines 14-117) *)

(** [getuid()] of the calling process. *)
Variable getuid : nat.

(** Whether [TTr::init_hugepage_structures] throws, and with what message:
    the transport is a template parameter and stays abstract. *)
Variable hugepage_init_error : option string.

Definition throw {A} (e : Exception) : RpcM A := halt (Thrown e).

(** The body of [Rpc<TTr>::Rpc], rpc.cc lines 29-79, run on the object left
    by the member initialiser list.  [nexus_arg] is the constructor's
    [nexus] pointer argument.  The hook's [bg_req_list_arr] sanity loop
    (lines 74-76) reads what [register_hook] wrote into the hook, which is
    elsewhere in eRPC, and is left out. *)
Definition Rpc_ctor_body (nexus_arg : option Nexus) : RpcM unit :=
  (* Ensure that we're running as root *)
  (if bool_decide (getuid ≠ 0)
   then throw (runtime_error "eRPC Rpc: You need to be root to use eRPC")
   else ret tt);;
  (if nexus_arg is None
   then throw (invalid_argument "eRPC Rpc: Invalid nexus")
   else ret tt);;
  w <- get;;
  (if bool_decide (rpc_id w = kInvalidRpcId) || rpc_id_exists (rpc_id w) (nexus w)
   then throw (invalid_argument "eRPC Rpc: Invalid rpc_id")
   else ret tt);;
  (if bool_decide (kMaxPhyPorts ≤ phy_port w)%nat
   then throw (invalid_argument "eRPC Rpc: Invalid physical port")
   else ret tt);;
  (if bool_decide (kMaxNumaNodes ≤ numa_node w)%nat
   then throw (invalid_argument "eRPC Rpc: Invalid NUMA node")
   else ret tt);;
  (* transport = new TTr(rpc_id, phy_port) *)
  modify (with_transport (Some (mkTransport (rpc_id w) (phy_port w) false)));;
  (* huge_alloc = new HugeAlloc(kInitialHugeAllocSize, numa_node, ...) *)
  modify (with_huge_alloc (Some (mkHugeAlloc (numa_node w) [])));;
  (* try { transport->init_hugepage_structures(huge_alloc, rx_ring); }
     catch (std::runtime_error e) { delete huge_alloc; throw e; } *)
  match hugepage_init_error with
  | Some what =>
      modify (with_huge_alloc None);;
      throw (runtime_error what)
  | None =>
      modify (with_transport (Some (mkTransport (rpc_id w) (phy_port w) true)));;
      (* Register the hook with the Nexus *)
      modify (λ w', with_nexus (register_hook (rpc_id w') (nexus w')) w');;
      erpc_dprintf "eRPC Rpc: Created."
  end.

(** [Rpc<TTr>::Rpc], rpc.cc lines 14-79.  The member initialiser list (lines
    17-28) evaluates [nexus->num_bg_threads] and [nexus->req_func_arr]
    before the body, and with it before the body's null check of [nexus]. *)
Definition Rpc_ctor (nexus_arg : option Nexus) (context_arg : App)
    (rpc_id_arg phy_port_arg : uint8) (numa_node_arg : size_t) : CtorOutcome App :=
  match nexus_arg with
  | None => CtorNullDeref "nexus->num_bg_threads"
  | Some nx =>
      let w0 :=
        mkWorld rpc_id_arg phy_port_arg numa_node_arg
                gettid                                   (* creator_os_tid(gettid()) *)
                (bool_decide (0 < num_bg_threads nx)%nat)    (* multi_threaded *)
                false                                    (* in_event_loop *)
                [] [] None None nx ∅ context_arg [] in
      match Rpc_ctor_body nexus_arg w0 with
      | Ret _ w => Constructed w
      | Stop h w => CtorStopped h w
      end
  end.

(** [Rpc<TTr>::~Rpc], rpc.cc lines 81-117.  The loop over [session_vec]
    (lines 100-104) only marks its variable unused. *)
Definition Rpc_dtor : RpcM unit :=
  w <- get;;
  (* Rpc can only be destroyed from the creator thread *)
  if negb (in_creator w) then
    erpc_dprintf "Error. Cannot destroy from background thread.";;
    halt (Exited (-1)%Z)
  else
  (* Rpc cannot be destroyed from within the event loop *)
  if kDatapathChecks && in_event_loop w then
    erpc_dprintf "Error. Cannot destroy when inside event loop.";;
    halt (Exited (-1)%Z)
  else
    erpc_dprintf "eRPC Rpc: Destroying Rpc.";;
    modify (with_huge_alloc None);;               (* delete huge_alloc *)
    modify (with_transport None);;                (* delete transport *)
    modify (λ w', with_nexus (unregister_hook (rpc_id w') (nexus w')) w').

End Endpoint.

(** ** The background worker (nexus_bg_thread.cc) *)

Inductive BgWorkItemType := kReq | kResp.

#[global] Instance BgWorkItemType_eq_dec : EqDecision BgWorkItemType.
Proof. solve_decision. Defined.

(** Modelled from the spec: "BgWorkItem: kind, an RpcId (for diagnostics), a
    pointer to the owning Rpc, an opaque application context, and an SSlot
    reference".  The field names are those [bg_thread_func] reads. *)
Record BgWorkItem := mkBgWorkItem {
  wi_type : BgWorkItemType;
  wi_rpc_id : uint8;
  wi_rpc : nat;
  wi_context : option CtxPtr;
  wi_sslot : option SSlotPtr
}.

#[global] Instance BgWorkItem_eq_dec : EqDecision BgWorkItem.
Proof. solve_decision. Defined.

(** An entry of the request-handler table; [req_func] is a function pointer
    and [is_registered] tests it against null. *)
Record ReqFunc := mkReqFunc {
  req_func : option FuncPtr
}.

Definition is_registered (rf : ReqFunc) : bool := bool_decide (req_func rf ≠ None).

(** Modelled from the spec: [MtList<T>] is defined elsewhere in eRPC;
    "push(item): acquires the lock, appends item, increments size", "lock /
    unlock: explicit critical section for batch drain", and clearing under
    the lock "resets size to 0". *)
Record MtList (T : Type) := mkMtList {
  mt_list : list T;
  mt_size : size_t;
  mt_locked : bool
}.
Arguments mkMtList {T}.
Arguments mt_list {T}.
Arguments mt_size {T}.
Arguments mt_locked {T}.

(** Modelled from the spec: "appends item, increments size". *)
Definition unlocked_push_back {T} (x : T) (l : MtList T) : MtList T :=
  mkMtList (mt_list l ++ [x]) (S (mt_size l)) (mt_locked l).

(** Modelled from the spec: [lock] and [unlock], the "explicit critical
    section for batch drain". *)
Definition mt_lock {T} (l : MtList T) : MtList T :=
  mkMtList (mt_list l) (mt_size l) true.

Definition mt_unlock {T} (l : MtList T) : MtList T :=
  mkMtList (mt_list l) (mt_size l) false.

(** Modelled from the spec: clearing under the lock empties the list and
    "resets size to 0". *)
Definition locked_clear {T} (l : MtList T) : MtList T :=
  mkMtList [] 0 (mt_locked l).

(** Modelled from the spec: "push(item): acquires the lock, appends item,
    increments size". *)
Definition mt_push {T} (x : T) (l : MtList T) : MtList T :=
  mt_unlock (unlocked_push_back x (mt_lock l)).

(** What the worker does that other threads or the application can see, in
    order. *)
Inductive BgEvent :=
| BgDprintf (msg : string)
| BgUsleep
| BgLock
| BgLockedClear
| BgUnlock
| BgReqFunc (f : FuncPtr) (sslot : SSlotPtr) (ctx : CtxPtr)          (* req_func.req_func(sslot, context) *)
| BgBuryRxMsgbuf (sslot : SSlotPtr)                                  (* rpc->bury_sslot_rx_msgbuf(sslot) *)
| BgContFunc (f : FuncPtr) (sslot : SSlotPtr) (ctx : CtxPtr) (tag : nat).

#[global] Instance BgEvent_eq_dec : EqDecision BgEvent.
Proof. solve_decision. Defined.

(** The memory the worker and the application callbacks share: the session
    slots the work items point to and the application state behind the
    context pointers. *)
Record UserMem (App : Type) := mkUserMem {
  sslots : gmap SSlotPtr SSlot;
  app : App
}.
Arguments mkUserMem {App}.
Arguments sslots {App}.
Arguments app {App}.

(** The worker's world: the [TlsRegistry] counter shared by the process, this
    thread's thread-local tiny thread id (unset before [init]), the worker's
    work-item list, the shared memory, and the trace of what it did. *)
Record BgWorld (App : Type) := mkBgWorld {
  cur_tiny_tid : size_t;
  tiny_tid : option size_t;
  bg_req_list : MtList BgWorkItem;
  mem : UserMem App;
  trace : list BgEvent
}.
Arguments mkBgWorld {App}.
Arguments cur_tiny_tid {App}.
Arguments tiny_tid {App}.
Arguments bg_req_list {App}.
Arguments mem {App}.
Arguments trace {App}.

Definition with_bg_req_list {App} (l : MtList BgWorkItem) (w : BgWorld App) :=
  mkBgWorld (cur_tiny_tid w) (tiny_tid w) l (mem w) (trace w).

Definition with_mem {App} (m : UserMem App) (w : BgWorld App) :=
  mkBgWorld (cur_tiny_tid w) (tiny_tid w) (bg_req_list w) m (trace w).

Definition with_trace {App} (t : list BgEvent) (w : BgWorld App) :=
  mkBgWorld (cur_tiny_tid w) (tiny_tid w) (bg_req_list w) (mem w) t.

Definition bg_emit {App} (e : BgEvent) (w : BgWorld App) : BgWorld App :=
  with_trace (trace w ++ [e]) w.

(** One turn of the loop as the other threads shape it: the items producers
    pushed since the last turn, and the value the worker then reads from its
    kill switch. *)
Record Tick := mkTick {
  pushed : list BgWorkItem;
  kill : bool
}.

(** The callbacks the worker ran, in order, as (function, slot) pairs. *)
Definition invoked (t : list BgEvent) : list (FuncPtr * SSlotPtr) :=
  omap (λ e, match e with
             | BgReqFunc f s _ => Some (f, s)
             | BgContFunc f s _ _ => Some (f, s)
             | _ => None
             end) t.

(** The rx-buffer releases the worker made, in order. *)
Definition rx_released (t : list BgEvent) : list SSlotPtr :=
  omap (λ e, match e with BgBuryRxMsgbuf s => Some s | _ => None end) t.

(** How the thread that ran a thread function ends.  Modelled from the
    spec: the Nexus "spawns the configured number of background threads" on
    [bg_thread_func]; an exception that leaves a thread's function ends the
    process ([std::terminate]), the runtime printing its [what()]. *)
Inductive ThreadEnd :=
| ThreadReturned
| ProcessTerminated (diagnostic : string)
| ThreadOther (h : Halt).

(** From the outcome of a thread function to the end of its thread. *)
Definition thread_end {S} (o : Outcome S unit) : ThreadEnd :=
  match o with
  | Ret _ _ => ThreadReturned
  | Stop (Thrown (runtime_error what)) _ => ProcessTerminated what
  | Stop (Thrown (invalid_argument what)) _ => ProcessTerminated what
  | Stop (Thrown out_of_range) _ => ProcessTerminated "std::out_of_range"
  | Stop h _ => ThreadOther h
  end.

Section BgThread.

(** The application: its state and the code behind its function pointers.
    A request handler is called with the slot (as a request handle) and the
    context, a continuation with the slot (as a response handle), the context
    and the saved tag; either may read and write the shared memory. *)
Context {App : Type}.
Variable run_req_func : FuncPtr → SSlotPtr → CtxPtr → UserMem App → UserMem App.
Variable run_cont_func : FuncPtr → SSlotPtr → CtxPtr → nat → UserMem App → UserMem App.

(** [Rpc<TTr>::debug_check_bg_rx_msgbuf], a static debug check defined
    elsewhere in eRPC: whether its assertions hold of the slot. *)
Variable debug_check_bg_rx_msgbuf : SSlot → BgWorkItemType → bool.

Local Abbreviation BgM := (M (BgWorld App)).

Local Open Scope m_scope.

Definition bg_dprintf (msg : string) : BgM unit := modify (bg_emit (BgDprintf msg)).

(** Modelled from the spec: [TlsRegistry::init] is defined elsewhere in
    eRPC; it "atomically fetches and increments next_tid and stores the
    result in a thread-local cell". *)
Definition tls_registry_init : BgM unit :=
  modify (λ w, mkBgWorld (S (cur_tiny_tid w)) (Some (cur_tiny_tid w))
                         (bg_req_list w) (mem w) (trace w)).

(** Modelled from the spec: "get_tid returns the cell"; "calling get_tid
    before init is a precondition violation". *)
Definition get_tiny_tid : BgM size_t :=
  λ w, match tiny_tid w with
       | Some t => Ret t w
       | None => Stop (DanglingDeref "tiny_tid before init") w
       end.

(** [sslot->...]: reading through an [SSlot *]. *)
Definition deref_sslot (p : SSlotPtr) : BgM SSlot :=
  λ w, match sslots (mem w) !! p with
       | Some s => Ret s w
       | None => Stop (DanglingDeref "sslot") w
       end.

(** Modelled from the spec: [Rpc::bury_sslot_rx_msgbuf] is defined elsewhere
    in eRPC; it "releases the slot's rx buffer", after which the slot's rx
    buffer handle is cleared. *)
Definition clear_rx (s : SSlot) : SSlot :=
  mkSSlot (session s)
          (mkMsgBuffer (mkBuffer None (class_size (buffer (rx_msgbuf s))))
                       None (req_type (rx_msgbuf s))
                       (num_pkts (rx_msgbuf s)) (pkts_queued (rx_msgbuf s)))
          (tx_msgbuf s) (pre_resp_msgbuf s) (clt_save_info s).

(** Modelled from the spec: [Rpc::bury_sslot_rx_msgbuf], "release the slot's
    rx buffer", on the slot a pointer refers to. *)
Definition bury_sslot_rx_msgbuf (p : SSlotPtr) : BgM unit :=
  _ <- deref_sslot p;;
  modify (λ w, bg_emit (BgBuryRxMsgbuf p)
                 (with_mem (mkUserMem (alter clear_rx p (sslots (mem w)))
                                      (app (mem w))) w)).

(** [req_func.req_func(sslot, context)], the slot cast to a request handle *)
Definition call_req_func (f : FuncPtr) (p : SSlotPtr) (ctx : CtxPtr) : BgM unit :=
  modify (λ w, with_mem (run_req_func f p ctx (mem w)) (bg_emit (BgReqFunc f p ctx) w)).

(** [sslot->clt_save_info.cont_func(sslot, context, tag)], the slot cast to a
    response handle *)
Definition call_cont_func (f : FuncPtr) (p : SSlotPtr) (ctx : CtxPtr) (tg : nat)
  : BgM unit :=
  modify (λ w, with_mem (run_cont_func f p ctx tg (mem w))
                        (bg_emit (BgContFunc f p ctx tg) w)).

(** The body of the [for] loop over the list, nexus_bg_thread.cc lines
    45-81, for one work item.  [sslot->session] (line 50) is read before the
    assertion of line 53.  [dpath_dprintf] (lines 61-65) only reads. *)
Definition bg_run_work_item (req_func_arr : list ReqFunc) (bg_work_item : BgWorkItem)
  : BgM unit :=
  let F := "nexus_bg_thread.cc" in
  match wi_sslot bg_work_item with
  | None => halt (NullDeref "sslot")
  | Some p =>
      sslot <- deref_sslot p;;
      assert_ F 53 (bool_decide (wi_context bg_work_item ≠ None) &&
                    bool_decide (session sslot ≠ None));;
      (* Sanity-check RX and TX MsgBuffers *)
      assert_ "rpc.h" 0 (debug_check_bg_rx_msgbuf sslot (wi_type bg_work_item));;
      assert_ F 57 (bool_decide (tx_msgbuf sslot = None));;
      match wi_context bg_work_item with
      | None => halt (NullDeref "context")
      | Some ctx =>
          let is_req := bool_decide (wi_type bg_work_item = kReq) in
          if is_req then
            match buf (rx_msgbuf sslot) with
            | None => halt (NullDeref "rx_msgbuf.buf")
            | Some _ =>
                let rt := req_type (rx_msgbuf sslot) in
                match req_func_arr !! rt with
                | None => halt (Thrown out_of_range)
                | Some rf =>
                    assert_ F 70 (is_registered rf);;
                    match req_func rf with
                    | None => halt (NullDeref "req_func")
                    | Some f =>
                        call_req_func f p ctx;;
                        bury_sslot_rx_msgbuf p
                    end
                end
            end
          else
            call_cont_func (cont_func (clt_save_info sslot)) p ctx
                           (tag (clt_save_info sslot))
            (* The continuation must release the response (rx_msgbuf) *)
      end
  end.

(** One drain, nexus_bg_thread.cc lines 42-84: from [req_list.lock()] to
    [req_list.unlock()]. *)
Definition bg_drain (req_func_arr : list ReqFunc) : BgM unit :=
  modify (λ w, bg_emit BgLock (with_bg_req_list (mt_lock (bg_req_list w)) w));;
  w <- get;;
  assert_ "nexus_bg_thread.cc" 43 (bool_decide (0 < mt_size (bg_req_list w))%nat);;
  for_each (mt_list (bg_req_list w)) (bg_run_work_item req_func_arr);;
  modify (λ w, bg_emit BgLockedClear (with_bg_req_list (locked_clear (bg_req_list w)) w));;
  modify (λ w, bg_emit BgUnlock (with_bg_req_list (mt_unlock (bg_req_list w)) w)).

(** What producers do to the list between two turns of the loop. *)
Definition producers_push (items : list BgWorkItem) : BgM unit :=
  modify (λ w, with_bg_req_list (foldl (λ l x, mt_push x l) (bg_req_list w) items) w).

(** The [while] loop on the kill switch, lines 33-85, over a schedule
    of turns.  The loop has no bound of its own: when the schedule runs out
    the worker is still running. *)
Fixpoint bg_loop (req_func_arr : list ReqFunc) (sched : list Tick) : BgM unit :=
  match sched with
  | [] => halt StillRunning
  | t :: rest =>
      producers_push (pushed t);;
      if kill t then ret tt
      else
        w <- get;;
        if bool_decide (mt_size (bg_req_list w) = 0) then
          modify (bg_emit BgUsleep);;       (* Try again later *)
          bg_loop req_func_arr rest
        else
          bg_drain req_func_arr;;
          bg_loop req_func_arr rest
  end.

(** The diagnostic of lines 23-27. *)
Definition tid_mismatch_msg (bg_thread_index tid : size_t) : string :=
  "eRPC Nexus : Background thread ID mismatch. Nexus-assigned thread index is "
  +:+ pretty bg_thread_index +:+ ", but tiny thread ID is " +:+ pretty tid.

(** [Nexus<TTr>::bg_thread_func], nexus_bg_thread.cc lines 10-89.  The
    members of [BgThreadCtx] are the arguments: the worker's index, the
    request-handler table, and (through the schedule) the kill switch and
    the list. *)
Definition bg_thread_func (bg_thread_index : size_t) (req_func_arr : list ReqFunc)
    (sched : list Tick) : BgM unit :=
  tls_registry_init;;   (* Initialize thread-local variables for this thread *)
  tid <- get_tiny_tid;;
  if bool_decide (bg_thread_index ≠ tid) then
    halt (Thrown (runtime_error (tid_mismatch_msg bg_thread_index tid)))
  else
    bg_dprintf "eRPC Nexus: Background thread running.";;
    bg_loop req_func_arr sched;;
    bg_dprintf "eRPC Nexus: Background thread exiting.".

End BgThread.

(** ** Worlds the statements speak of *)

(** The world an outcome ends in. *)
Definition final {S A} (o : Outcome S A) : S :=
  match o with Ret _ s => s | Stop _ s => s end.


Definition free_one {App} (w : World App) (b : Buffer) : World App :=
  with_huge_alloc (free_buf b <$> huge_alloc w) w.

Definition free_all {App} (bufs : list Buffer) (w : World App) : World App :=
  foldl free_one w bufs.

Definition pre_resp_buffers (k n : nat) (s : Session) : list Buffer :=
  (λ sslot, buffer (pre_resp_msgbuf sslot)) <$> take n (drop k (sslot_arr s)).

Definition after_bury {App} (W : size_t) (p : SessionPtr) (s : Session)
    (w : World App) : World App :=
  with_heap (delete p (heap w))
    (with_session_vec (<[local_session_num s := None]> (session_vec w))
       (free_all (pre_resp_buffers 0 W s) w)).

(** The world right after [mgmt_retryq_remove_st(session)] (line 105) and
    [session->state = kDisconnected] (line 115). *)
Definition disconnected_world {App} (p : SessionPtr) (w : World App) : World App :=
  with_heap (alter (set_state kDisconnectedState) p (heap w))
    (with_mgmt_retryq (filter (λ q, q ≠ p) (mgmt_retryq w)) w).

(** The world the user callback of lines 119-121 is called in, and the world
    it leaves. *)
Definition callback_world {App} (w : World App) : World App :=
  emit (EvDprintf "None. Session disconnected.") w.

Definition after_callback {App}
    (session_mgmt_handler :
       uint16 → SessionMgmtEventType → SessionMgmtErrType → World App → App)
    (s : Session) (w : World App) : World App :=
  if sm_callbacks_disabled (client_info s)
  then emit (EvDprintf "None. Session disconnected. Not invoking disconnect callback because session was never connected successfully.") w
  else with_context
         (session_mgmt_handler (local_session_num s) kDisconnected kNoError
                               (callback_world w))
         (emit (EvSmCallback (local_session_num s) kDisconnected kNoError)
               (callback_world w)).


(** A slot with no request in flight, as lines 53-58 of
    rpc_disconnect_handlers.cc check it: the rx buffer is cleared and the tx
    buffer, if any, is fully sent. *)
Definition quiescent (sslot : SSlot) : bool :=
  bool_decide (buf (rx_msgbuf sslot) = None) &&
  bool_decide (buffer_buf (buffer (rx_msgbuf sslot)) = None) &&
  match tx_msgbuf sslot with
  | Some tx => bool_decide (pkts_queued tx = num_pkts tx)
  | None => true
  end.

(** The world in which the server buries a session: the log line and the
    response of lines 61-62 are out. *)
Definition responded_world {App} (sm_pkt : SessionMgmtPkt) (w : World App) : World App :=
  emit (EvSmPktSent (resp_of kNoError sm_pkt))
       (emit (EvDprintf "None. Sending response.") w).

(** Handling the same request [n] times in a row. *)
Definition replay {S A} (n : nat) (x : A) (handler : A → M S unit) : M S unit :=
  for_each (replicate n x) handler.

(** What [handle_disconnect_req_st] asserts of the packet and of the calling
    thread before it looks at the slot (lines 18-24). *)
Definition disconnect_req_pre {App} (gettid : nat) (sm_pkt : SessionMgmtPkt)
    (w : World App) : Prop :=
  gettid = creator_os_tid w ∧
  pkt_type sm_pkt = kDisconnectReq ∧
  ep_rpc_id (server sm_pkt) = rpc_id w ∧
  ep_hostname (server sm_pkt) = nx_hostname (nexus w).

(** The application callbacks among a worker's events, in order, each as the
    kind of work item it serves with the slot and the context it is handed. *)
Definition calls (t : list BgEvent) : list (BgWorkItemType * SSlotPtr * CtxPtr) :=
  omap (λ e, match e with
             | BgReqFunc _ p ctx => Some (kReq, p, ctx)
             | BgContFunc _ p ctx _ => Some (kResp, p, ctx)
             | _ => None
             end) t.

(** The call a work item asks for. *)
Definition item_call (item : BgWorkItem)
  : option (BgWorkItemType * SSlotPtr * CtxPtr) :=
  match wi_sslot item, wi_context item with
  | Some p, Some ctx => Some (wi_type item, p, ctx)
  | _, _ => None
  end.

(** The list operations among a worker's events, in order. *)
Definition list_ops (t : list BgEvent) : list BgEvent :=
  List.filter (λ e, match e with
                    | BgLock | BgLockedClear | BgUnlock => true
                    | _ => false
                    end) t.

(** ** Example worlds

    A client endpoint with one session in [kDisconnectInProgress] in slot 1
    of its session vector, the matching server endpoint with its session in
    slot 0, and a background worker with one request and one continuation in
    its list.  The window has two slots.  The application counts the calls
    it receives. *)

Definition ex_client_ep : SessionEndpoint := mkSessionEndpoint "client-host" 1 1 [10; 11].
Definition ex_server_ep : SessionEndpoint := mkSessionEndpoint "server-host" 2 0 [20; 21].

Definition ex_null_msgbuf : MsgBuffer := mkMsgBuffer (mkBuffer None 0) None 0 0 0.
Definition ex_msgbuf (a : addr) : MsgBuffer :=
  mkMsgBuffer (mkBuffer (Some a) 64) (Some a) 1 1 1.

Definition ex_idle_sslot (owner : SessionPtr) (a : addr) : SSlot :=
  mkSSlot (Some owner) ex_null_msgbuf None (ex_msgbuf a) (mkCltSaveInfo 9 77).

Definition ex_client_session (disabled : bool) : Session :=
  mkSession kClientRole kDisconnectInProgress ex_client_ep ex_server_ep 1
            [ex_idle_sslot 100 500; ex_idle_sslot 100 501] (mkClientInfo disabled).

Definition ex_server_session : Session :=
  mkSession kServerRole kConnectedState ex_client_ep ex_server_ep 0
            [ex_idle_sslot 200 600; ex_idle_sslot 200 601] (mkClientInfo false).

Definition ex_client_world (disabled : bool) : World nat :=
  mkWorld 1 0 0 7 false false [None; Some 100] [100]
          (Some (mkHugeAlloc 0 [])) (Some (mkTransport 1 0 true))
          (mkNexus "client-host" 0 [1]) {[ 100 := ex_client_session disabled ]} 0 [].

Definition ex_server_world : World nat :=
  mkWorld 2 0 0 7 false false [Some 200; None] []
          (Some (mkHugeAlloc 0 [])) (Some (mkTransport 2 0 true))
          (mkNexus "server-host" 0 [2]) {[ 200 := ex_server_session ]} 0 [].

Definition ex_disconnect_resp : SessionMgmtPkt :=
  mkSessionMgmtPkt kDisconnectResp kNoError ex_client_ep ex_server_ep.

(** A second response for a session that is gone: slot 0 of the client. *)
Definition ex_dup_disconnect_resp : SessionMgmtPkt :=
  mkSessionMgmtPkt kDisconnectResp kNoError
                   (mkSessionEndpoint "client-host" 1 0 [10; 11]) ex_server_ep.

Definition ex_disconnect_req : SessionMgmtPkt :=
  mkSessionMgmtPkt kDisconnectReq kNoError ex_client_ep ex_server_ep.

(** A request for a session that is gone: slot 1 of the server. *)
Definition ex_dup_disconnect_req : SessionMgmtPkt :=
  mkSessionMgmtPkt kDisconnectReq kNoError ex_client_ep
                   (mkSessionEndpoint "server-host" 2 1 [20; 21]).

Definition ex_sm_handler
  : uint16 → SessionMgmtEventType → SessionMgmtErrType → World nat → nat :=
  λ _ _ _ w, S (context w).

Definition ex_client_world_after : World nat :=
  final (handle_disconnect_resp_st ex_sm_handler 7 2 ex_disconnect_resp
                                   (ex_client_world false)).

(** The worker's side. *)
Definition ex_busy_sslot : SSlot :=
  mkSSlot (Some 100) (ex_msgbuf 700) None (ex_msgbuf 500) (mkCltSaveInfo 9 77).

Definition ex_req_item : BgWorkItem := mkBgWorkItem kReq 1 1 (Some 3) (Some 10).
Definition ex_cont_item : BgWorkItem := mkBgWorkItem kResp 1 1 (Some 3) (Some 11).

Definition ex_req_func_arr : list ReqFunc := [mkReqFunc None; mkReqFunc (Some 42)].

Definition ex_run_req_func : FuncPtr → SSlotPtr → CtxPtr → UserMem nat → UserMem nat :=
  λ _ _ _ m, mkUserMem (sslots m) (S (app m)).

(** A continuation that, as it must, releases the response itself. *)
Definition ex_run_cont_func
  : FuncPtr → SSlotPtr → CtxPtr → nat → UserMem nat → UserMem nat :=
  λ _ p _ tg m,
    mkUserMem (alter (λ s, mkSSlot (session s) ex_null_msgbuf (tx_msgbuf s)
                                   (pre_resp_msgbuf s) (clt_save_info s)) p (sslots m))
              (app m + tg).

Definition ex_debug_check : SSlot → BgWorkItemType → bool :=
  λ s _, bool_decide (buf (rx_msgbuf s) ≠ None).

Definition ex_bg_world : BgWorld nat :=
  mkBgWorld 2 None (mkMtList [ex_req_item; ex_cont_item] 2 false)
            (mkUserMem {[ 10 := ex_busy_sslot; 11 := ex_busy_sslot ]} 0) [].

Definition ex_bg_world_after : BgWorld nat :=
  final (bg_drain ex_run_req_func ex_run_cont_func ex_debug_check ex_req_func_arr
                  ex_bg_world).

(** ** Draining the session-management inbox (rpc.cc lines 144-186) *)

(** The endpoint together with the inbox of its Nexus hook
    ([nexus_hook.sm_pkt_list]) and the packets it has given back with
    [free], in order.  The inbox holds pointers; a packet of the model
    stands for its pointer and is written as it was received. *)
Record SmState (App : Type) := mkSmState {
  sm_world : World App;
  sm_pkt_list : MtList SessionMgmtPkt;
  sm_freed : list SessionMgmtPkt
}.
Arguments mkSmState {App}.
Arguments sm_world {App}.
Arguments sm_pkt_list {App}.
Arguments sm_freed {App}.

(** Modelled from the spec: [session_mgmt_pkt_type_is_req] is defined
    elsewhere in eRPC; "pkt_type ∈ {connectReq, connectResp, disconnectReq,
    disconnectResp}", of which the two requests. *)
Definition session_mgmt_pkt_type_is_req (t : SessionMgmtPktType) : bool :=
  match t with
  | kConnectReq | kDisconnectReq => true
  | kConnectResp | kDisconnectResp => false
  end.

(** A method of the endpoint run inside the larger state. *)
Definition on_world {App A} (m : M (World App) A) : M (SmState App) A :=
  λ st, match m (sm_world st) with
        | Ret a w => Ret a (mkSmState w (sm_pkt_list st) (sm_freed st))
        | Stop h w => Stop h (mkSmState w (sm_pkt_list st) (sm_freed st))
        end.

(** [free(sm_pkt)] *)
Definition free_sm_pkt {App} (sm_pkt : SessionMgmtPkt) (st : SmState App) : SmState App :=
  mkSmState (sm_world st) (sm_pkt_list st) (sm_freed st ++ [sm_pkt]).

Definition with_sm_pkt_list {App} (l : MtList SessionMgmtPkt) (st : SmState App)
  : SmState App :=
  mkSmState (sm_world st) l (sm_freed st).

Section SessionManagement.

Context {App : Type}.
Variable session_mgmt_handler :
  uint16 → SessionMgmtEventType → SessionMgmtErrType → World App → App.
Variable gettid : nat.
Variable kSessionReqWindow : size_t.

(** The connect handlers, defined elsewhere in eRPC (rpc_connect_handlers):
    methods of the endpoint, taken as they are. *)
Variable handle_connect_req_st : SessionMgmtPkt → M (World App) unit.
Variable handle_connect_resp_st : SessionMgmtPkt → M (World App) unit.

Local Open Scope m_scope.

(** Lines 153-159: the sender of a packet cannot be this Rpc. *)
Definition sm_check_sender (sm_pkt : SessionMgmtPkt) : M (World App) unit :=
  if session_mgmt_pkt_type_is_req (pkt_type sm_pkt) then
    assert_st "rpc.cc" 154
      (λ w, negb (bool_decide (ep_hostname (client sm_pkt) = nx_hostname (nexus w)) &&
                  bool_decide (ep_rpc_id (client sm_pkt) = rpc_id w)))
  else
    assert_st "rpc.cc" 157
      (λ w, negb (bool_decide (ep_hostname (server sm_pkt) = nx_hostname (nexus w)) &&
                  bool_decide (ep_rpc_id (server sm_pkt) = rpc_id w))).

(** Lines 161-177: the [switch] on the packet type.  The type has the four
    cases only, so the [default] branch is not reached. *)
Definition sm_dispatch (sm_pkt : SessionMgmtPkt) : M (World App) unit :=
  match pkt_type sm_pkt with
  | kConnectReq => handle_connect_req_st sm_pkt
  | kConnectResp => handle_connect_resp_st sm_pkt
  | kDisconnectReq => handle_disconnect_req_st gettid kSessionReqWindow sm_pkt
  | kDisconnectResp =>
      handle_disconnect_resp_st session_mgmt_handler gettid kSessionReqWindow sm_pkt
  end.

(** What the loop does to the endpoint for one packet: the check of the
    sender, then the handler. *)
Definition sm_handle_pkt (sm_pkt : SessionMgmtPkt) : M (World App) unit :=
  sm_check_sender sm_pkt;; sm_dispatch sm_pkt.

(** [Rpc<TTr>::handle_session_management_st], rpc.cc lines 144-186. *)
Definition handle_session_management_st : M (SmState App) unit :=
  on_world (assert_st "rpc.cc" 146 (in_creator gettid));;
  st <- get;;
  assert_ "rpc.cc" 147 (bool_decide (0 < mt_size (sm_pkt_list st))%nat);;
  modify (λ st, with_sm_pkt_list (mt_lock (sm_pkt_list st)) st);;
  (* Handle all session management requests *)
  for_each (mt_list (sm_pkt_list st)) (λ sm_pkt,
    on_world (sm_check_sender sm_pkt);;
    on_world (sm_dispatch sm_pkt);;
    (* Free packet memory that was allocated by the Nexus *)
    modify (free_sm_pkt sm_pkt));;
  (* Clear the session management packet list *)
  modify (λ st, with_sm_pkt_list (locked_clear (sm_pkt_list st)) st);;
  modify (λ st, with_sm_pkt_list (mt_unlock (sm_pkt_list st)) st).

End SessionManagement.

(** ** The session table the handlers rely on *)

(** What the disconnect handlers rely on and keep: the allocator is there;
    a non-empty entry of the session vector points to a live session that
    knows its own index and has its [kSessionReqWindow] slots; and the
    retry queue holds live client sessions. *)
Definition endpoint_wf {App} (K : size_t) (w : World App) : Prop :=
  is_Some (huge_alloc w) ∧
  (∀ i p, session_vec w !! i = Some (Some p) →
     ∃ s, heap w !! p = Some s ∧ local_session_num s = i ∧
          (K ≤ length (sslot_arr s))%nat) ∧
  (∀ p, p ∈ mgmt_retryq w → ∃ s, heap w !! p = Some s ∧ is_client s = true).

(** The fields of the endpoint that burying a session never writes. *)
Definition same_endpoint {App} (w w' : World App) : Prop :=
  rpc_id w' = rpc_id w ∧ creator_os_tid w' = creator_os_tid w ∧
  nexus w' = nexus w ∧ transport w' = transport w ∧
  mgmt_retryq w' = mgmt_retryq w ∧ context w' = context w ∧
  output w' = output w.

(** ** More example worlds

    The server after the disconnect request; the client's inbox with the
    disconnect response and a retransmission of it, and with a packet that
    names the client itself as its sender; a request handler that frees the
    slot it is given; and a worker that has just been spawned, with the
    turns of its loop. *)

Definition ex_server_world_after : World nat :=
  final (handle_disconnect_req_st 7 2 ex_disconnect_req ex_server_world).

Definition ex_connect_handler : SessionMgmtPkt → M (World nat) unit := λ _, ret tt.

Definition ex_sm_state : SmState nat :=
  mkSmState (ex_client_world false)
            (mkMtList [ex_disconnect_resp; ex_disconnect_resp] 2 false) [].

Definition ex_sm_state_self : SmState nat :=
  mkSmState (ex_client_world false)
            (mkMtList [ex_disconnect_resp; ex_disconnect_req] 2 false) [].

Definition ex_sm_state_self_after : SmState nat :=
  final (handle_session_management_st ex_sm_handler 7 2 ex_connect_handler
                                      ex_connect_handler ex_sm_state_self).

Definition ex_run_req_func_free
  : FuncPtr → SSlotPtr → CtxPtr → UserMem nat → UserMem nat :=
  λ _ p _ m, mkUserMem (delete p (sslots m)) (app m).

Definition ex_bg_world_freed : BgWorld nat :=
  final (bg_run_work_item ex_run_req_func_free ex_run_cont_func ex_debug_check
                          ex_req_func_arr ex_req_item ex_bg_world).

Definition ex_bg_world_spawned : BgWorld nat :=
  mkBgWorld 2 None (mkMtList [] 0 false) (mem ex_bg_world) [].

Definition ex_sched : list Tick :=
  [mkTick [ex_req_item; ex_cont_item] false; mkTick [] false; mkTick [ex_req_item] true].

Definition ex_bg_world_exit : BgWorld nat :=
  final (bg_thread_func ex_run_req_func ex_run_cont_func ex_debug_check 2
                        ex_req_func_arr ex_sched ex_bg_world_spawned).

Definition ex_bg_world_stopped : BgWorld nat :=
  final (bg_drain ex_run_req_func ex_run_cont_func ex_debug_check ex_req_func_arr
                  ex_bg_world_spawned).


(** The two endpoints without their allocator: the burial of a session
    stops at the first buffer it releases. *)
Definition ex_client_world_no_alloc : World nat :=
  with_huge_alloc None (ex_client_world false).

Definition ex_server_world_no_alloc : World nat :=
  with_huge_alloc None ex_server_world.

(** * Proofs *)

Local Close Scope string_scope.

(** ** The monad *)

Lemma bind_Ret_inv {S A B} (m : M S A) (k : A → M S B) s b s' :
  bind m k s = Ret b s' → ∃ a s1, m s = Ret a s1 ∧ k a s1 = Ret b s'.
Proof. unfold bind. destruct (m s) as [a s1|h s1]; [eauto | discriminate]. Qed.

Lemma bind_assert_true {S B} file line b (k : unit → M S B) s :
  b = true → bind (assert_ file line b) k s = k tt s.
Proof. by intros ->. Qed.

Lemma bind_assert_T {S B} file line (k : unit → M S B) s :
  bind (assert_ file line true) k s = k tt s.
Proof. reflexivity. Qed.

Lemma bind_assert_F {S B} file line (k : unit → M S B) s :
  bind (assert_ file line false) k s = Stop (AssertionFailed file line) s.
Proof. reflexivity. Qed.

Lemma bind_modify {S B} (f : S → S) (k : unit → M S B) s :
  bind (modify f) k s = k tt (f s).
Proof. reflexivity. Qed.

(** One assertion of a run kept in hypothesis [H]: either it fails, and the
    run is that failure, or it holds and the run goes on. *)
Ltac step_assert H :=
  try match type of H with
  | context [bind (assert_st ?f ?l ?b) ?k ?w] =>
      change (bind (assert_st f l b) k w) with (bind (assert_ f l (b w)) k w) in H;
      cbv beta in H
  end;
  match type of H with
  | context [bind (assert_ ?f ?l ?b) ?k ?w] =>
      let Hb := fresh "Hb" in
      destruct b eqn:Hb;
      [ rewrite (bind_assert_T f l k w) in H
      | rewrite (bind_assert_F f l k w) in H ]
  end.
Section EndpointProofs.
Context {App : Type}.
Variable session_mgmt_handler :
  uint16 → SessionMgmtEventType → SessionMgmtErrType → World App → App.
Variable gettid : nat.
Variable kSessionReqWindow : size_t.

Local Open Scope m_scope.

Lemma free_all_fields (bufs : list Buffer) (w : World App) :
  session_vec (free_all bufs w) = session_vec w ∧
  mgmt_retryq (free_all bufs w) = mgmt_retryq w ∧
  heap (free_all bufs w) = heap w ∧
  context (free_all bufs w) = context w ∧
  output (free_all bufs w) = output w ∧
  nexus (free_all bufs w) = nexus w ∧
  rpc_id (free_all bufs w) = rpc_id w ∧
  creator_os_tid (free_all bufs w) = creator_os_tid w ∧
  transport (free_all bufs w) = transport w.
Proof.
  revert w. induction bufs as [|b bufs IH]; intros w; simpl; [done|].
  destruct (IH (free_one w b)) as (-> & -> & -> & -> & -> & -> & -> & -> & ->).
  done.
Qed.

Lemma free_all_huge_alloc (bufs : list Buffer) (w : World App) :
  huge_alloc (free_all bufs w)
  = (λ ha, mkHugeAlloc (ha_numa_node ha) (ha_freed ha ++ bufs)) <$> huge_alloc w.
Proof.
  revert w. induction bufs as [|b bufs IH]; intros w; simpl.
  - destruct (huge_alloc w) as [[]|]; simpl; [|done]. by rewrite app_nil_r.
  - rewrite IH. simpl. destruct (huge_alloc w) as [[]|]; simpl; [|done].
    unfold free_buf; simpl. by rewrite <- app_assoc.
Qed.

Lemma free_loop_Ret (s : Session) (n k : nat) (w w' : World App) :
  for_each (seq k n)
    (λ i, sslot <- sslot_at s i;; free_msg_buffer (pre_resp_msgbuf sslot)) w = Ret tt w'
  ↔ (0 < n → k + n ≤ length (sslot_arr s) ∧ is_Some (huge_alloc w)) ∧
    w' = free_all (pre_resp_buffers k n s) w.
Proof.
  revert k w. induction n as [|n IH]; intros k w.
  - simpl. unfold ret, pre_resp_buffers. simpl. split.
    + intros [= <-]. split; [lia|done].
    + intros [_ ->]. done.
  - simpl. unfold bind at 1. unfold sslot_at at 1. unfold pre_resp_buffers.
    destruct (sslot_arr s !! k) as [sslot|] eqn:Hk.
    + rewrite (drop_S _ _ _ Hk). simpl.
      unfold bind at 1, ret at 1, free_msg_buffer at 1.
      destruct (huge_alloc w) as [ha|] eqn:Hha.
      * rewrite IH. unfold free_one. rewrite Hha. simpl.
        fold (pre_resp_buffers (S k) n s).
        apply lookup_lt_Some in Hk.
        split.
        -- intros [Hn ->]. split; [|done]. intros _. split; [|eauto].
           destruct n; [lia|]. destruct Hn as [Hn _]; lia.
        -- intros [Hn ->]. split; [|done]. intros Hpos. split; [lia|].
           simpl. eauto.
      * split; [discriminate|]. intros [Hn _]. destruct Hn as [_ [? ?]]; [lia|discriminate].
    + unfold halt, bind. split; [discriminate|]. intros [Hn _].
      apply lookup_ge_None in Hk. lia.
Qed.

Lemma free_loop_final (s : Session) (n k : nat) (w : World App) :
  output (final (for_each (seq k n)
    (λ i, sslot <- sslot_at s i;; free_msg_buffer (pre_resp_msgbuf sslot)) w)) = output w.
Proof.
  revert k w. induction n as [|n IH]; intros k w; simpl; [done|].
  unfold bind at 1, sslot_at at 1.
  destruct (sslot_arr s !! k) as [sslot|]; simpl; [|done].
  unfold bind at 1, ret at 1, free_msg_buffer at 1.
  destruct (huge_alloc w) as [ha|]; simpl; [|done].
  by rewrite IH.
Qed.

Lemma bury_session_st_Ret (p : SessionPtr) (w w' : World App) :
  bury_session_st gettid kSessionReqWindow (Some p) w = Ret tt w'
  ↔ ∃ s, heap w !! p = Some s ∧
         gettid = creator_os_tid w ∧
         (is_client s = true → p ∉ mgmt_retryq w) ∧
         (0 < kSessionReqWindow →
            kSessionReqWindow ≤ length (sslot_arr s) ∧ is_Some (huge_alloc w)) ∧
         local_session_num s < length (session_vec w) ∧
         w' = after_bury kSessionReqWindow p s w.
Proof.
  unfold bury_session_st.
  unfold bind at 1, assert_st at 1, in_creator, assert_ at 1.
  case_bool_decide as Htid;
    [|split; [discriminate|intros (? & ? & ? & _); congruence]].
  unfold ret at 1. cbn beta iota.
  rewrite bind_assert_true by (by apply bool_decide_eq_true_2).
  unfold bind at 1, deref_session.
  destruct (heap w !! p) as [s|] eqn:Hs;
    [|split; [discriminate|intros (? & ? & ? & _); congruence]].
  (* the retry-queue guard of line 126 *)
  assert ((if is_client s
           then assert_st "rpc.cc" 126
                  (λ w0 : World App, negb (mgmt_retryq_contains_st (Some p) w0))
           else ret tt) w
          = if is_client s && bool_decide (p ∈ mgmt_retryq w)
            then Stop (AssertionFailed "rpc.cc" 126) w else Ret tt w) as Hguard.
  { unfold assert_st, assert_, mgmt_retryq_contains_st.
    destruct (is_client s); [|done]. by destruct (bool_decide (p ∈ mgmt_retryq w)). }
  unfold bind at 1. rewrite Hguard. clear Hguard.
  destruct (is_client s && bool_decide (p ∈ mgmt_retryq w)) eqn:Hcl.
  { split; [discriminate|]. intros (s' & ? & _ & Hnot & _). simplify_eq.
    apply andb_true_iff in Hcl as [Hc Hin]. apply bool_decide_eq_true in Hin.
    by destruct (Hnot Hc). }
  assert (is_client s = true → p ∉ mgmt_retryq w) as Hnotin.
  { intros Hc. rewrite Hc in Hcl. simpl in Hcl. by apply bool_decide_eq_false in Hcl. }
  destruct (free_all_fields (pre_resp_buffers 0 kSessionReqWindow s) w)
    as (Hsv & _ & Hh & _).
  unfold bind at 1.
  destruct (for_each _ _ w) as [[] w1|h w1] eqn:Hloop.
  - apply free_loop_Ret in Hloop as [Hlen ->].
    unfold bind, session_vec_at_put. rewrite Hsv.
    destruct (bool_decide (local_session_num s < _)) eqn:Hlt;
      [apply bool_decide_eq_true in Hlt|apply bool_decide_eq_false in Hlt].
    + unfold delete_session, modify, after_bury.
      change (heap (with_session_vec ?v ?x)) with (heap x). rewrite Hh.
      split.
      * intros [= <-]. exists s. repeat apply conj; done.
      * intros (s' & ? & _ & _ & _ & _ & ->). simplify_eq. done.
    + split; [discriminate|]. intros (s' & ? & _ & _ & _ & ? & _). simplify_eq. lia.
  - split; [discriminate|]. intros (s' & ? & _ & _ & Hw & _ & _). simplify_eq.
    assert (for_each (seq 0 kSessionReqWindow)
       (λ i, sslot <- sslot_at s' i;; free_msg_buffer (pre_resp_msgbuf sslot)) w
       = Ret tt (free_all (pre_resp_buffers 0 kSessionReqWindow s') w)) as Hok.
    { apply free_loop_Ret. split; [|done]. intros Hpos. destruct (Hw Hpos). split; [lia|done]. }
    congruence.
Qed.


Lemma sm_callbacks_app (xs ys : list Event) :
  sm_callbacks (xs ++ ys) = sm_callbacks xs ++ sm_callbacks ys.
Proof. unfold sm_callbacks. apply List.filter_app. Qed.

Lemma sm_callbacks_dprintf (xs : list Event) msg :
  sm_callbacks (xs ++ [EvDprintf msg]) = sm_callbacks xs.
Proof. rewrite sm_callbacks_app. simpl. apply app_nil_r. Qed.

Lemma handle_disconnect_resp_st_outcome (sm_pkt : SessionMgmtPkt) (w : World App) :
  let o := handle_disconnect_resp_st session_mgmt_handler gettid kSessionReqWindow sm_pkt w in
  (∃ p s, session_vec w !! ep_session_num (client sm_pkt) = Some (Some p) ∧
          heap w !! p = Some s ∧
          gettid = creator_os_tid w ∧
          pkt_type sm_pkt = kDisconnectResp ∧
          state s = kDisconnectInProgress ∧
          p ∈ mgmt_retryq w ∧
          s_server s = server sm_pkt ∧ s_client s = client sm_pkt ∧
          err_type sm_pkt = kNoError ∧
          o = bury_session_st gettid kSessionReqWindow (Some p)
                (after_callback session_mgmt_handler s (disconnected_world p w)))
  ∨ ((session_vec w !! ep_session_num (client sm_pkt) = Some None ∨
      ∃ h w1, o = Stop h w1) ∧
     sm_callbacks (output (final o)) = sm_callbacks (output w)).
Proof.
  intros o. remember o as o' eqn:Ho. unfold o in Ho. clear o.
  unfold handle_disconnect_resp_st in Ho. cbv zeta in Ho.
  step_assert Ho; [|subst; right; split; [right; eauto|done]].
  step_assert Ho; [|subst; right; split; [right; eauto|done]].
  step_assert Ho; [|subst; right; split; [right; eauto|done]].
  step_assert Ho; [|subst; right; split; [right; eauto|done]].
  unfold bind at 1, session_vec_index in Ho.
  destruct (session_vec w !! ep_session_num (client sm_pkt)) as [[p|]|] eqn:Hslot;
    [| |subst; right; split; [right; eauto|done]].
  - unfold bind at 1, deref_session in Ho.
    destruct (heap w !! p) as [s|] eqn:Hs; [|subst; right; split; [right; eauto|done]].
    step_assert Ho; [|subst; right; split; [right; eauto|done]].
    step_assert Ho; [|subst; right; split; [right; eauto|done]].
    unfold mgmt_retryq_remove_st in Ho. rewrite bind_modify in Ho.
    step_assert Ho; [|subst; right; split; [right; eauto|done]].
    step_assert Ho; [|subst; right; split; [right; eauto|done]].
    step_assert Ho; [|subst; right; split; [right; eauto|done]].
    unfold set_session_state in Ho. rewrite bind_modify in Ho.
    left. exists p, s.
    unfold in_creator, mgmt_retryq_contains_st in *.
    repeat match goal with H : bool_decide _ = true |- _ => apply bool_decide_eq_true in H end.
    split_and!; try done.
    rewrite Ho. unfold after_callback, disconnected_world.
    unfold bind at 1.
    destruct (sm_callbacks_disabled (client_info s)); simpl; reflexivity.
  - right. split; [by left|].
    unfold mgmt_retryq_contains_st in Ho. simpl in Ho. subst o'. simpl.
    apply sm_callbacks_dprintf.
Qed.

Lemma bind_assert_st_true {B} file line (b : World App → bool)
    (k : unit → M (World App) B) w :
  b w = true → bind (assert_st file line b) k w = k tt w.
Proof. unfold assert_st. apply bind_assert_true. Qed.

Lemma bury_session_st_final (sp : option SessionPtr) (w : World App) :
  output (final (bury_session_st gettid kSessionReqWindow sp w)) = output w.
Proof.
  remember (bury_session_st gettid kSessionReqWindow sp w) as o eqn:Ho.
  unfold bury_session_st in Ho.
  step_assert Ho; [|by subst].
  step_assert Ho; [|by subst].
  destruct sp as [p|]; [|by subst].
  unfold bind at 1, deref_session in Ho.
  destruct (heap w !! p) as [s|]; [|by subst].
  assert (∀ w1 : World App, output w1 = output w →
     output (final ((for_each (seq 0 kSessionReqWindow)
          (λ i, sslot <- sslot_at s i;; free_msg_buffer (pre_resp_msgbuf sslot));;
        session_vec_at_put (local_session_num s) None;; delete_session p) w1))
     = output w) as Hrest.
  { intros w1 Hw1. unfold bind at 1.
    destruct (for_each _ _ w1) as [[] w2|h w2] eqn:Hloop.
    - apply free_loop_Ret in Hloop as [_ ->].
      destruct (free_all_fields (pre_resp_buffers 0 kSessionReqWindow s) w1)
        as (_ & _ & _ & _ & Hout & _).
      unfold bind, session_vec_at_put.
      destruct (bool_decide (local_session_num s < _)); simpl; congruence.
    - pose proof (free_loop_final s kSessionReqWindow 0 w1) as Hf.
      rewrite Hloop in Hf. simpl in *. congruence. }
  destruct (is_client s).
  - step_assert Ho; [|by subst]. subst o. by apply Hrest.
  - unfold ret at 1 in Ho. unfold bind at 1 in Ho. subst o. by apply Hrest.
Qed.

(** C9: a disconnect response for a session number whose slot is empty is a
    duplicate: the handler returns, no session-management callback is
    invoked, and nothing of the endpoint, of the sessions or of the
    application changes; the only trace of the packet is a log line. *)
Theorem handle_disconnect_resp_st_duplicate (sm_pkt : SessionMgmtPkt) (w : World App) :
  session_vec w !! ep_session_num (client sm_pkt) = Some None →
  gettid = creator_os_tid w →
  pkt_type sm_pkt = kDisconnectResp →
  session_mgmt_err_type_is_valid (err_type sm_pkt) = true →
  ∃ w',
    handle_disconnect_resp_st session_mgmt_handler gettid kSessionReqWindow sm_pkt w
      = Ret tt w' ∧
    sm_callbacks (output w') = sm_callbacks (output w) ∧
    sm_pkts_sent (output w') = sm_pkts_sent (output w) ∧
    context w' = context w ∧
    session_vec w' = session_vec w ∧
    mgmt_retryq w' = mgmt_retryq w ∧
    heap w' = heap w ∧
    huge_alloc w' = huge_alloc w ∧
    transport w' = transport w ∧
    nexus w' = nexus w ∧
    w' = with_output (output w ++ [EvDprintf "Client session is already disconnected."]) w.
Proof.
  intros Hslot Htid Hty Hvalid.
  eexists. split.
  - unfold handle_disconnect_resp_st. cbv zeta.
    rewrite bind_assert_st_true by (unfold in_creator; by apply bool_decide_eq_true_2).
    rewrite bind_assert_true by (by apply bool_decide_eq_true_2).
    rewrite bind_assert_true by done.
    rewrite bind_assert_st_true
      by (apply bool_decide_eq_true_2; eapply lookup_lt_Some; eauto).
    unfold bind at 1, session_vec_index. rewrite Hslot.
    rewrite bind_assert_st_true by done.
    reflexivity.
  - simpl. split_and!; try done.
    + apply sm_callbacks_dprintf.
    + unfold sm_pkts_sent. rewrite omap_app. simpl. apply app_nil_r.
Qed.

Lemma after_callback_fields (s : Session) (w : World App) :
  let w1 := after_callback session_mgmt_handler s w in
  session_vec w1 = session_vec w ∧ mgmt_retryq w1 = mgmt_retryq w ∧
  heap w1 = heap w ∧ huge_alloc w1 = huge_alloc w ∧
  creator_os_tid w1 = creator_os_tid w ∧
  sm_callbacks (output w1)
  = sm_callbacks (output w) ++
    (if sm_callbacks_disabled (client_info s) then []
     else [EvSmCallback (local_session_num s) kDisconnected kNoError]) ∧
  sm_pkts_sent (output w1) = sm_pkts_sent (output w).
Proof.
  unfold after_callback, callback_world.
  destruct (sm_callbacks_disabled (client_info s)); simpl; split_and!; try done.
  - rewrite sm_callbacks_dprintf. by rewrite app_nil_r.
  - unfold sm_pkts_sent. rewrite omap_app. simpl. apply app_nil_r.
  - rewrite sm_callbacks_app. simpl. by rewrite sm_callbacks_dprintf.
  - unfold sm_pkts_sent. rewrite !omap_app. simpl. by rewrite !app_nil_r.
Qed.

(** What a normal return from a non-empty slot tells. *)
Lemma handle_disconnect_resp_st_Ret_inv
    (sm_pkt : SessionMgmtPkt) (w w' : World App) (p : SessionPtr) :
  session_vec w !! ep_session_num (client sm_pkt) = Some (Some p) →
  handle_disconnect_resp_st session_mgmt_handler gettid kSessionReqWindow sm_pkt w
    = Ret tt w' →
  ∃ s w_b,
    heap w !! p = Some s ∧
    (* what the handler requires *)
    state s = kDisconnectInProgress ∧
    p ∈ mgmt_retryq w ∧
    err_type sm_pkt = kNoError ∧
    (* out of the retry queue *)
    mgmt_retryq w' = filter (λ q, q ≠ p) (mgmt_retryq w) ∧
    (p ∉ mgmt_retryq w') ∧
    (* disconnected, then buried *)
    heap w_b !! p = Some (set_state kDisconnectedState s) ∧
    bury_session_st gettid kSessionReqWindow (Some p) w_b = Ret tt w' ∧
    (* the callback, if and only if callbacks are not disabled *)
    sm_callbacks (output w')
    = sm_callbacks (output w) ++
      (if sm_callbacks_disabled (client_info s) then []
       else [EvSmCallback (local_session_num s) kDisconnected kNoError]) ∧
    (* buried *)
    session_vec w' = <[local_session_num s := None]> (session_vec w) ∧
    session_vec w' !! local_session_num s = Some None ∧
    (local_session_num s = ep_session_num (client sm_pkt) →
       session_vec w' !! ep_session_num (client sm_pkt) = Some None) ∧
    heap w' = delete p (heap w) ∧
    heap w' !! p = None.
Proof.
  intros Hslot Hrun.
  destruct (handle_disconnect_resp_st_outcome sm_pkt w)
    as [(p' & s & Hslot' & Hs & Htid & Hty & Hst & Hq & Hsrv & Hclt & Herr & Ho)
       |[[Hnone|(h & w1 & Hstop)] _]]; [|congruence..].
  assert (p' = p) as -> by congruence.
  rewrite Hrun in Ho. symmetry in Ho.
  exists s, (after_callback session_mgmt_handler s (disconnected_world p w)).
  destruct (after_callback_fields s (disconnected_world p w))
    as (Hsv & Hrq & Hh & Hha & Hct & Hcb & Hsent).
  assert (heap (after_callback session_mgmt_handler s (disconnected_world p w)) !! p
          = Some (set_state kDisconnectedState s)) as Hsb.
  { rewrite Hh. unfold disconnected_world. simpl. rewrite lookup_alter_eq, Hs. done. }
  pose proof Ho as Hbury.
  apply bury_session_st_Ret in Ho as (s2 & Hs2 & _ & _ & _ & Hlt & ->).
  rewrite Hsb in Hs2. injection Hs2 as <-.
  destruct (free_all_fields (pre_resp_buffers 0 kSessionReqWindow (set_state kDisconnectedState s))
              (after_callback session_mgmt_handler s (disconnected_world p w)))
    as (Fsv & Fq & Fh & Fc & Fo & _).
  unfold after_bury in *. simpl in *.
  rewrite ?Fsv, ?Fq, ?Fh, ?Fo, ?Hsv, ?Hrq, ?Hh, ?Hcb in *.
  unfold disconnected_world in *. simpl in *.
  repeat apply conj; try done.
  - intros Hin. apply list_elem_of_filter in Hin as [Hne _]. done.
  - by apply list_lookup_insert_eq.
  - intros <-. by apply list_lookup_insert_eq.
  - by rewrite delete_alter_eq.
  - by rewrite lookup_delete_eq.
Qed.

(** The disconnect-response handler returns whenever what it asserts
    holds. *)
Lemma handle_disconnect_resp_st_returns
    (sm_pkt : SessionMgmtPkt) (w : World App) (p : SessionPtr) (s : Session) :
  session_vec w !! ep_session_num (client sm_pkt) = Some (Some p) →
  heap w !! p = Some s →
  gettid = creator_os_tid w →
  pkt_type sm_pkt = kDisconnectResp →
  err_type sm_pkt = kNoError →
  state s = kDisconnectInProgress →
  p ∈ mgmt_retryq w →
  s_server s = server sm_pkt →
  s_client s = client sm_pkt →
  (0 < kSessionReqWindow →
     kSessionReqWindow ≤ length (sslot_arr s) ∧ is_Some (huge_alloc w)) →
  local_session_num s < length (session_vec w) →
  handle_disconnect_resp_st session_mgmt_handler gettid kSessionReqWindow sm_pkt w
  = Ret tt (after_bury kSessionReqWindow p (set_state kDisconnectedState s)
              (after_callback session_mgmt_handler s (disconnected_world p w))).
Proof.
  intros Hslot Hs Htid Hty Herr Hst Hq Hsrv Hclt Hwin Hlt.
  destruct (handle_disconnect_resp_st_outcome sm_pkt w)
    as [(p' & s' & Hslot' & Hs' & _ & _ & _ & _ & _ & _ & _ & Ho)|[Hbad _]].
  - assert (p' = p) as -> by congruence. assert (s' = s) as -> by congruence.
    rewrite Ho. apply bury_session_st_Ret.
    destruct (after_callback_fields s (disconnected_world p w))
      as (Hsv & Hrq & Hh & Hha & Hct & _).
    exists (set_state kDisconnectedState s).
    rewrite Hsv, Hrq, Hh, Hha, Hct. unfold disconnected_world. simpl.
    repeat apply conj; try done.
    + by rewrite lookup_alter_eq, Hs.
    + intros _ Hin. apply list_elem_of_filter in Hin as [Hne _]. done.
  - exfalso. destruct Hbad as [Hnone|(h & w1 & Hstop)]; [congruence|].
    revert Hstop. unfold handle_disconnect_resp_st. cbv zeta.
    rewrite bind_assert_st_true by (unfold in_creator; by apply bool_decide_eq_true_2).
    rewrite bind_assert_true by (by apply bool_decide_eq_true_2).
    rewrite bind_assert_true by (by rewrite Herr).
    rewrite bind_assert_st_true
      by (apply bool_decide_eq_true_2; eapply lookup_lt_Some; eauto).
    unfold bind at 1, session_vec_index. rewrite Hslot.
    unfold bind at 1, deref_session. rewrite Hs.
    rewrite bind_assert_true by (by apply bool_decide_eq_true_2).
    rewrite bind_assert_st_true by (by apply bool_decide_eq_true_2).
    unfold mgmt_retryq_remove_st. rewrite bind_modify.
    rewrite bind_assert_true by (by apply bool_decide_eq_true_2).
    rewrite bind_assert_true by (by apply bool_decide_eq_true_2).
    rewrite bind_assert_true by (by apply bool_decide_eq_true_2).
    unfold set_session_state. rewrite bind_modify.
    intros Hstop.
    assert (∀ w1 : World App,
      session_vec w1 = session_vec w → huge_alloc w1 = huge_alloc w →
      creator_os_tid w1 = creator_os_tid w →
      mgmt_retryq w1 = filter (λ q, q ≠ p) (mgmt_retryq w) →
      heap w1 = alter (set_state kDisconnectedState) p (heap w) →
      ∃ w2, bury_session_st gettid kSessionReqWindow (Some p) w1 = Ret tt w2) as Hb.
    { intros w2 E1 E2 E3 E4 E5. eexists. apply bury_session_st_Ret.
      exists (set_state kDisconnectedState s). rewrite E1, E2, E3, E4, E5.
      repeat apply conj; try done.
      - by rewrite lookup_alter_eq, Hs.
      - intros _ Hin. apply list_elem_of_filter in Hin as [Hne _]. done. }
    unfold bind at 1 in Hstop.
    destruct (sm_callbacks_disabled (client_info s)); simpl in Hstop.
    + edestruct Hb as [w2 Hw2]; [..|rewrite Hw2 in Hstop; discriminate]; done.
    + edestruct Hb as [w2 Hw2]; [..|rewrite Hw2 in Hstop; discriminate]; done.
Qed.

(** What a burial that stops has done: at most released buffers. *)
Lemma free_loop_final_fields (s : Session) (n k : nat) (w : World App) o :
  for_each (seq k n)
    (λ i, sslot <- sslot_at s i;; free_msg_buffer (pre_resp_msgbuf sslot)) w = o →
  session_vec (final o) = session_vec w ∧ heap (final o) = heap w ∧
  mgmt_retryq (final o) = mgmt_retryq w ∧ output (final o) = output w.
Proof.
  revert k w. induction n as [|n IH]; intros k w Ho; simpl in Ho; [by subst o|].
  unfold bind at 1, sslot_at at 1 in Ho.
  destruct (sslot_arr s !! k) as [sslot|]; simpl in Ho; [|by subst o].
  unfold bind at 1, ret at 1, free_msg_buffer at 1 in Ho.
  destruct (huge_alloc w) as [ha|]; simpl in Ho; [|by subst o].
  apply IH in Ho. exact Ho.
Qed.

Lemma bury_session_st_Stop (sp : option SessionPtr) (w w1 : World App) (h : Halt) :
  bury_session_st gettid kSessionReqWindow sp w = Stop h w1 →
  session_vec w1 = session_vec w ∧ heap w1 = heap w ∧
  mgmt_retryq w1 = mgmt_retryq w ∧ output w1 = output w.
Proof.
  intros Ho. unfold bury_session_st in Ho.
  step_assert Ho; [|by injection Ho as <- <-].
  step_assert Ho; [|by injection Ho as <- <-].
  destruct sp as [p|]; [|by injection Ho as <- <-].
  unfold bind at 1, deref_session in Ho.
  destruct (heap w !! p) as [s|]; [|by injection Ho as <- <-].
  assert ((for_each (seq 0 kSessionReqWindow)
        (λ i, sslot <- sslot_at s i;; free_msg_buffer (pre_resp_msgbuf sslot));;
      session_vec_at_put (local_session_num s) None;; delete_session p) w
     = Stop h w1 →
     session_vec w1 = session_vec w ∧ heap w1 = heap w ∧
     mgmt_retryq w1 = mgmt_retryq w ∧ output w1 = output w) as Hrest.
  { clear Ho. intros Ho. unfold bind at 1 in Ho.
    pose proof (free_loop_final_fields s kSessionReqWindow 0 w _ eq_refl) as Hf.
    destruct (for_each _ _ w) as [[] w2|h2 w2] eqn:Hloop; simpl in Hf.
    - unfold bind, session_vec_at_put in Ho.
      destruct (bool_decide (local_session_num s < _)); [discriminate|].
      by injection Ho as <- <-.
    - by injection Ho as <- <-. }
  destruct (is_client s).
  - step_assert Ho; [|by injection Ho as <- <-]. by apply Hrest.
  - unfold ret at 1 in Ho. unfold bind at 1 in Ho. by apply Hrest.
Qed.

(** With what it asserts of the packet and of the session in hand, the run
    of the response handler is the burial of the session, started in the
    world the callback left. *)
Lemma handle_disconnect_resp_st_run
    (sm_pkt : SessionMgmtPkt) (w : World App) (p : SessionPtr) (s : Session) :
  session_vec w !! ep_session_num (client sm_pkt) = Some (Some p) →
  heap w !! p = Some s →
  gettid = creator_os_tid w →
  pkt_type sm_pkt = kDisconnectResp →
  err_type sm_pkt = kNoError →
  state s = kDisconnectInProgress →
  p ∈ mgmt_retryq w →
  s_server s = server sm_pkt →
  s_client s = client sm_pkt →
  handle_disconnect_resp_st session_mgmt_handler gettid kSessionReqWindow sm_pkt w
  = bury_session_st gettid kSessionReqWindow (Some p)
      (after_callback session_mgmt_handler s (disconnected_world p w)).
Proof.
  intros Hslot Hs Htid Hty Herr Hst Hq Hsrv Hclt.
  unfold handle_disconnect_resp_st. cbv zeta.
  rewrite bind_assert_st_true by (unfold in_creator; by apply bool_decide_eq_true_2).
  rewrite bind_assert_true by (by apply bool_decide_eq_true_2).
  rewrite bind_assert_true by (by rewrite Herr).
  rewrite bind_assert_st_true
    by (apply bool_decide_eq_true_2; eapply lookup_lt_Some; eauto).
  unfold bind at 1, session_vec_index. rewrite Hslot.
  unfold bind at 1, deref_session. rewrite Hs.
  rewrite bind_assert_true by (by apply bool_decide_eq_true_2).
  rewrite bind_assert_st_true by (by apply bool_decide_eq_true_2).
  unfold mgmt_retryq_remove_st. rewrite bind_modify.
  rewrite bind_assert_true by (by apply bool_decide_eq_true_2).
  rewrite bind_assert_true by (by apply bool_decide_eq_true_2).
  rewrite bind_assert_true by (by apply bool_decide_eq_true_2).
  unfold set_session_state. rewrite bind_modify.
  unfold after_callback, disconnected_world. unfold bind at 1.
  destruct (sm_callbacks_disabled (client_info s)); simpl; reflexivity.
Qed.

(** C1: the first disconnect response for a session (its slot is not empty).
    If the handler returns, then the session was in state
    [kDisconnectInProgress], it was in the management retry queue and the
    packet carried [kNoError]; the session has left the retry queue; its
    state was set to disconnected; the user callback was invoked, with the
    disconnected event, exactly when [sm_callbacks_disabled] is false; and
    the session is buried: its slot of the session vector is empty and the
    session object is gone.  The world [w_b] in which the session is buried
    is the one the run goes through: the world the callback left, after the
    removal from the retry queue and the write of the state, and the run is
    the burial started there.  Conversely the handler does return when
    these requirements and the other conditions it asserts hold.

    The order of the steps does not depend on how the burial ends.  With
    what the handler asserts of the packet and of the session, the run is
    the burial started in [w_b]; the callback is handed a world in which
    the session is out of the retry queue, in state disconnected and still
    in its slot; and when the burial stops, the session is found in state
    disconnected, out of the retry queue and in its slot, with the callback
    already invoked. *)
Theorem handle_disconnect_resp_st_first
    (sm_pkt : SessionMgmtPkt) (w : World App) (p : SessionPtr) :
  session_vec w !! ep_session_num (client sm_pkt) = Some (Some p) →
  (∀ w',
     handle_disconnect_resp_st session_mgmt_handler gettid kSessionReqWindow sm_pkt w
       = Ret tt w' →
     ∃ s w_b,
       heap w !! p = Some s ∧
       (* what the handler requires *)
       state s = kDisconnectInProgress ∧
       p ∈ mgmt_retryq w ∧
       err_type sm_pkt = kNoError ∧
       (* out of the retry queue *)
       mgmt_retryq w' = filter (λ q, q ≠ p) (mgmt_retryq w) ∧
       (p ∉ mgmt_retryq w') ∧
       (* disconnected, then buried *)
       heap w_b !! p = Some (set_state kDisconnectedState s) ∧
       bury_session_st gettid kSessionReqWindow (Some p) w_b = Ret tt w' ∧
       (* the callback, if and only if callbacks are not disabled *)
       sm_callbacks (output w')
       = sm_callbacks (output w) ++
         (if sm_callbacks_disabled (client_info s) then []
          else [EvSmCallback (local_session_num s) kDisconnected kNoError]) ∧
       (* buried *)
       session_vec w' = <[local_session_num s := None]> (session_vec w) ∧
       session_vec w' !! local_session_num s = Some None ∧
       (local_session_num s = ep_session_num (client sm_pkt) →
          session_vec w' !! ep_session_num (client sm_pkt) = Some None) ∧
       heap w' = delete p (heap w) ∧
       heap w' !! p = None ∧
       (* [w_b] is the world of the run at the burial *)
       w_b = after_callback session_mgmt_handler s (disconnected_world p w) ∧
       state <$> heap w_b !! p = Some kDisconnectedState ∧
       handle_disconnect_resp_st session_mgmt_handler gettid kSessionReqWindow sm_pkt w
       = bury_session_st gettid kSessionReqWindow (Some p) w_b) ∧
  (∀ s,
     heap w !! p = Some s →
     gettid = creator_os_tid w →
     pkt_type sm_pkt = kDisconnectResp →
     state s = kDisconnectInProgress →
     p ∈ mgmt_retryq w →
     err_type sm_pkt = kNoError →
     s_server s = server sm_pkt →
     s_client s = client sm_pkt →
     (0 < kSessionReqWindow →
        kSessionReqWindow ≤ length (sslot_arr s) ∧ is_Some (huge_alloc w)) →
     local_session_num s < length (session_vec w) →
     ∃ w',
       handle_disconnect_resp_st session_mgmt_handler gettid kSessionReqWindow sm_pkt w
         = Ret tt w') ∧
  (∀ s,
     heap w !! p = Some s →
     gettid = creator_os_tid w →
     pkt_type sm_pkt = kDisconnectResp →
     state s = kDisconnectInProgress →
     p ∈ mgmt_retryq w →
     err_type sm_pkt = kNoError →
     s_server s = server sm_pkt →
     s_client s = client sm_pkt →
     let cb := if sm_callbacks_disabled (client_info s) then []
               else [EvSmCallback (local_session_num s) kDisconnected kNoError] in
     let w_d := disconnected_world p w in
     let w_b := after_callback session_mgmt_handler s w_d in
     (* the run is the burial in the world the callback left *)
     handle_disconnect_resp_st session_mgmt_handler gettid kSessionReqWindow sm_pkt w
     = bury_session_st gettid kSessionReqWindow (Some p) w_b ∧
     (* removed from the retry queue and disconnected before the callback *)
     mgmt_retryq w_d = filter (λ q, q ≠ p) (mgmt_retryq w) ∧
     (p ∉ mgmt_retryq w_d) ∧
     state <$> heap w_d !! p = Some kDisconnectedState ∧
     session_vec w_d = session_vec w ∧
     sm_callbacks (output w_d) = sm_callbacks (output w) ∧
     (* the callback before the burial *)
     sm_callbacks (output w_b) = sm_callbacks (output w) ++ cb ∧
     state <$> heap w_b !! p = Some kDisconnectedState ∧
     (p ∉ mgmt_retryq w_b) ∧
     session_vec w_b = session_vec w ∧
     (* a burial that stops leaves all of this to be seen *)
     (∀ h w1,
        handle_disconnect_resp_st session_mgmt_handler gettid kSessionReqWindow sm_pkt w
          = Stop h w1 →
        state <$> heap w1 !! p = Some kDisconnectedState ∧
        (p ∉ mgmt_retryq w1) ∧
        session_vec w1 = session_vec w ∧
        sm_callbacks (output w1) = sm_callbacks (output w) ++ cb)).
Proof.
  intros Hslot.
  assert (∀ s, heap w !! p = Some s →
            let w_d := disconnected_world p w in
            let w_b := after_callback session_mgmt_handler s w_d in
            mgmt_retryq w_d = filter (λ q, q ≠ p) (mgmt_retryq w) ∧
            (p ∉ mgmt_retryq w_d) ∧
            state <$> heap w_d !! p = Some kDisconnectedState ∧
            session_vec w_d = session_vec w ∧
            sm_callbacks (output w_d) = sm_callbacks (output w) ∧
            sm_callbacks (output w_b)
            = sm_callbacks (output w) ++
              (if sm_callbacks_disabled (client_info s) then []
               else [EvSmCallback (local_session_num s) kDisconnected kNoError]) ∧
            state <$> heap w_b !! p = Some kDisconnectedState ∧
            (p ∉ mgmt_retryq w_b) ∧
            session_vec w_b = session_vec w) as Hworlds.
  { intros s Hs w_d w_b.
    destruct (after_callback_fields s w_d) as (Hsv & Hrq & Hh & _ & _ & Hcb & _).
    fold w_b in Hsv, Hrq, Hh, Hcb.
    assert (p ∉ mgmt_retryq w_d) as Hout.
    { unfold w_d, disconnected_world. simpl. intros Hin.
      apply list_elem_of_filter in Hin as [Hne _]. done. }
    assert (state <$> heap w_d !! p = Some kDisconnectedState) as Hstate.
    { unfold w_d, disconnected_world. simpl. by rewrite lookup_alter_eq, Hs. }
    rewrite Hsv, Hrq, Hh, Hcb. done. }
  split; [|split].
  - intros w' Hrun.
    destruct (handle_disconnect_resp_st_Ret_inv sm_pkt w w' p Hslot Hrun)
      as (s & w_b0 & Hs & Hst & Hq & Herr & Hrq' & Hnin & _ & _ & Hcb & Hsv' & Hsl
            & Hsl' & Hh' & Hnone).
    destruct (handle_disconnect_resp_st_outcome sm_pkt w)
      as [(p' & s' & Hslot' & Hs' & Htid & Hty & _ & _ & Hsrv & Hclt & _ & Ho)
         |[[Hnone'|(h & w1 & Hstop)] _]]; [|congruence..].
    assert (p' = p) as -> by congruence. assert (s' = s) as -> by congruence.
    destruct (Hworlds s Hs) as (_ & _ & _ & _ & _ & _ & Hstate & _ & _).
    exists s, (after_callback session_mgmt_handler s (disconnected_world p w)).
    destruct (after_callback_fields s (disconnected_world p w)) as (_ & _ & Hh & _).
    repeat apply conj; try done.
    + rewrite Hh. unfold disconnected_world. simpl. by rewrite lookup_alter_eq, Hs.
    + by rewrite <- Ho.
  - intros s Hs Htid Hty Hst Hq Herr Hsrv Hclt Hwin Hlt.
    eexists. by eapply handle_disconnect_resp_st_returns.
  - intros s Hs Htid Hty Hst Hq Herr Hsrv Hclt cb w_d w_b.
    destruct (Hworlds s Hs) as (H1 & H2 & H3 & H4 & H5 & H6 & H7 & H8 & H9).
    fold w_d in H1, H2, H3, H4, H5, H6, H7, H8, H9.
    fold w_b in H6, H7, H8, H9.
    pose proof (handle_disconnect_resp_st_run sm_pkt w p s Hslot Hs Htid Hty Herr
                  Hst Hq Hsrv Hclt) as Hrun.
    fold w_d w_b in Hrun.
    split; [exact Hrun|].
    do 9 (split; [assumption|]).
    intros h w1 Hstop. rewrite Hrun in Hstop.
    apply bury_session_st_Stop in Hstop as (Esv & Eh & Eq & Eo).
    rewrite Esv, Eh, Eq, Eo. done.
Qed.

(** C10: whenever the user callback is invoked by the disconnect-response
    handler (the run, however it ends, has one callback more than before),
    it is invoked in a world [w_cb] in which the session is in state
    disconnected, is out of the management retry queue and is still in its
    slot of the session vector; the handler's outcome is that of burying the
    session in the world the callback leaves. *)
Theorem handle_disconnect_resp_st_callback_moment
    (sm_pkt : SessionMgmtPkt) (w : World App) :
  let o := handle_disconnect_resp_st session_mgmt_handler gettid kSessionReqWindow
             sm_pkt w in
  sm_callbacks (output (final o)) ≠ sm_callbacks (output w) →
  ∃ p s w_cb,
    session_vec w !! ep_session_num (client sm_pkt) = Some (Some p) ∧
    heap w !! p = Some s ∧
    (* the callback runs in [w_cb], and the burial follows it *)
    w_cb = callback_world (disconnected_world p w) ∧
    o = bury_session_st gettid kSessionReqWindow (Some p)
          (with_context
             (session_mgmt_handler (local_session_num s) kDisconnected kNoError w_cb)
             (emit (EvSmCallback (local_session_num s) kDisconnected kNoError) w_cb)) ∧
    sm_callbacks (output (final o))
    = sm_callbacks (output w) ++
      [EvSmCallback (local_session_num s) kDisconnected kNoError] ∧
    (* what holds at that moment *)
    state <$> heap w_cb !! p = Some kDisconnectedState ∧
    (p ∉ mgmt_retryq w_cb) ∧
    session_vec w_cb !! ep_session_num (client sm_pkt) = Some (Some p) ∧
    sm_callbacks (output w_cb) = sm_callbacks (output w).
Proof.
  intros o Hcb.
  destruct (handle_disconnect_resp_st_outcome sm_pkt w)
    as [(p & s & Hslot & Hs & Htid & Hty & Hst & Hq & Hsrv & Hclt & Herr & Ho)
       |[_ Hsame]]; [|done].
  fold o in Ho.
  pose proof (after_callback_fields s (disconnected_world p w)) as Hf.
  cbv zeta in Hf. destruct Hf as (_ & _ & _ & _ & _ & Hcbs & _).
  assert (sm_callbacks (output (final o))
          = sm_callbacks (output w) ++
            (if sm_callbacks_disabled (client_info s) then []
             else [EvSmCallback (local_session_num s) kDisconnected kNoError])) as Hfin.
  { rewrite Ho, bury_session_st_final. exact Hcbs. }
  unfold after_callback in Ho.
  destruct (sm_callbacks_disabled (client_info s)).
  { rewrite app_nil_r in Hfin. done. }
  exists p, s, (callback_world (disconnected_world p w)).
  repeat apply conj; try done.
  - unfold callback_world, disconnected_world. simpl.
    by rewrite lookup_alter_eq, Hs.
  - unfold callback_world, disconnected_world. simpl.
    intros Hin. apply list_elem_of_filter in Hin as [Hne _]. done.
  - unfold callback_world. simpl. apply sm_callbacks_dprintf.
Qed.

(** *** The server side *)

Lemma sm_pkts_sent_app (xs ys : list Event) :
  sm_pkts_sent (xs ++ ys) = sm_pkts_sent xs ++ sm_pkts_sent ys.
Proof. apply omap_app. Qed.

(** The loop of lines 51-59 changes nothing: it returns when every slot of
    the window is quiescent and stops at an assertion otherwise. *)
Lemma quiescent_loop (s : Session) (n k : nat) (w : World App) o :
  for_each (seq k n) (λ i,
      sslot <- sslot_at s i;;
      assert_ "rpc_disconnect_handlers.cc" 53
        (bool_decide (buf (rx_msgbuf sslot) = None) &&
         bool_decide (buffer_buf (buffer (rx_msgbuf sslot)) = None));;
      match tx_msgbuf sslot with
      | Some tx => assert_ "rpc_disconnect_handlers.cc" 57
                     (bool_decide (pkts_queued tx = num_pkts tx))
      | None => ret tt
      end) w = o →
  ((∀ i, k ≤ i < k + n →
      ∃ sslot, sslot_arr s !! i = Some sslot ∧ quiescent sslot = true) ∧
   o = Ret tt w)
  ∨ (¬ (∀ i, k ≤ i < k + n →
          ∃ sslot, sslot_arr s !! i = Some sslot ∧ quiescent sslot = true) ∧
     ∃ h, o = Stop h w).
Proof.
  revert k o. induction n as [|n IH]; intros k o Ho; simpl in Ho.
  - left. split; [intros i ?; lia|done].
  - unfold bind at 1, sslot_at at 1 in Ho.
    destruct (sslot_arr s !! k) as [sslot|] eqn:Hk; simpl in Ho.
    + unfold bind at 1, ret at 1 in Ho.
      destruct (quiescent sslot) eqn:Hq.
      * unfold quiescent in Hq.
        apply andb_true_iff in Hq as [Hrx Htx]. rewrite Hrx in Ho.
        rewrite bind_assert_T in Ho.
        assert (match tx_msgbuf sslot with
                | Some tx => assert_ "rpc_disconnect_handlers.cc" 57
                               (bool_decide (pkts_queued tx = num_pkts tx))
                | None => ret tt
                end w = Ret tt w) as Htx'.
        { destruct (tx_msgbuf sslot); [by rewrite Htx|done]. }
        rewrite Htx' in Ho.
        destruct (IH (S k) o Ho) as [[Hall Hrun]|[Hnot [h Hrun]]].
        -- left. split; [|exact Hrun]. intros i Hi.
           destruct (decide (i = k)) as [->|].
           ++ exists sslot. split; [done|]. unfold quiescent. by rewrite Hrx, Htx.
           ++ apply Hall. lia.
        -- right. split; [|by eauto]. intros Hall. apply Hnot. intros i Hi. apply Hall. lia.
      * right. split.
        { intros Hall. destruct (Hall k) as (sl & Hsl & Hslq); [lia|]. congruence. }
        unfold quiescent in Hq.
        destruct (bool_decide (buf (rx_msgbuf sslot) = None) &&
                  bool_decide (buffer_buf (buffer (rx_msgbuf sslot)) = None)) eqn:Hrx.
        -- rewrite bind_assert_T in Ho. simpl in Hq.
           destruct (tx_msgbuf sslot); [|discriminate]. rewrite Hq in Ho. simpl in Ho. eauto.
        -- rewrite bind_assert_F in Ho. simpl in Ho. eauto.
    + right. split; [|by eauto].
      intros Hall. destruct (Hall k) as (sl & Hsl & _); [lia|]. congruence.
Qed.

Lemma handle_disconnect_req_st_outcome (sm_pkt : SessionMgmtPkt) (w : World App) :
  let o := handle_disconnect_req_st gettid kSessionReqWindow sm_pkt w in
  let all_quiescent s :=
    ∀ i, i < kSessionReqWindow →
      ∃ sslot, sslot_arr s !! i = Some sslot ∧ quiescent sslot = true in
  (* a duplicate *)
  (disconnect_req_pre gettid sm_pkt w ∧
   session_vec w !! ep_session_num (server sm_pkt) = Some None ∧
   o = Ret tt (emit (EvSmPktSent (resp_of kNoError sm_pkt))
                 (emit (EvDprintf "Duplicate disconnect request. Sending response.") w)))
  (* the first request for a live session *)
  ∨ (∃ p s, disconnect_req_pre gettid sm_pkt w ∧
            session_vec w !! ep_session_num (server sm_pkt) = Some (Some p) ∧
            heap w !! p = Some s ∧
            role s = kServerRole ∧
            s_server s = server sm_pkt ∧ s_client s = client sm_pkt ∧
            all_quiescent s ∧
            o = bury_session_st gettid kSessionReqWindow (Some p)
                  (responded_world sm_pkt w))
  (* an assertion fails, an exception is thrown or a pointer dangles *)
  ∨ (¬ (disconnect_req_pre gettid sm_pkt w ∧
        (session_vec w !! ep_session_num (server sm_pkt) = Some None ∨
         ∃ p s, session_vec w !! ep_session_num (server sm_pkt) = Some (Some p) ∧
                heap w !! p = Some s ∧ role s = kServerRole ∧
                s_server s = server sm_pkt ∧ s_client s = client sm_pkt ∧
                all_quiescent s)) ∧
     ∃ h, o = Stop h w).
Proof.
  intros o allq. remember o as o' eqn:Ho. unfold o in Ho. clear o.
  unfold handle_disconnect_req_st in Ho. cbv zeta in Ho.
  unfold disconnect_req_pre.
  step_assert Ho;
    [apply bool_decide_eq_true in Hb
    |apply bool_decide_eq_false in Hb; right; right; split; [|by eauto];
     intros ((? & ? & ? & ?) & _); done].
  step_assert Ho;
    [apply bool_decide_eq_true in Hb0
    |apply bool_decide_eq_false in Hb0; right; right; split; [|by eauto];
     intros ((? & ? & ? & ?) & _); done].
  step_assert Ho;
    [apply bool_decide_eq_true in Hb1
    |apply bool_decide_eq_false in Hb1; right; right; split; [|by eauto];
     intros ((? & ? & ? & ?) & _); done].
  step_assert Ho;
    [apply bool_decide_eq_true in Hb2
    |apply bool_decide_eq_false in Hb2; right; right; split; [|by eauto];
     intros ((? & ? & ? & ?) & _); done].
  step_assert Ho;
    [apply bool_decide_eq_true in Hb3
    |apply bool_decide_eq_false in Hb3; right; right; split; [|by eauto];
     intros (_ & [Hn|(? & ? & Hn & _)]); apply lookup_lt_Some in Hn; done].
  unfold bind at 1, session_vec_at in Ho.
  destruct (session_vec w !! ep_session_num (server sm_pkt)) as [[p|]|] eqn:Hslot.
  - unfold bind at 1, deref_session in Ho.
    destruct (heap w !! p) as [s|] eqn:Hs;
      [|right; right; split; [|by eauto];
        intros (_ & [?|(? & ? & ? & ? & _)]); congruence].
    step_assert Ho;
      [apply bool_decide_eq_true in Hb4
      |apply bool_decide_eq_false in Hb4; right; right; split; [|by eauto];
       intros (_ & [?|(? & ? & ? & ? & ? & _)]); congruence].
    step_assert Ho;
      [apply bool_decide_eq_true in Hb5
      |apply bool_decide_eq_false in Hb5; right; right; split; [|by eauto];
       intros (_ & [?|(? & ? & ? & ? & ? & ? & _)]); congruence].
    step_assert Ho;
      [apply bool_decide_eq_true in Hb6
      |apply bool_decide_eq_false in Hb6; right; right; split; [|by eauto];
       intros (_ & [?|(? & ? & ? & ? & ? & ? & ? & _)]); congruence].
    unfold bind at 1 in Ho.
    destruct (quiescent_loop s kSessionReqWindow 0 w _ eq_refl)
      as [[Hall Hrun]|[Hnot [h Hrun]]]; rewrite Hrun in Ho.
    + right; left. exists p, s. repeat apply conj; try done.
      * intros i Hi. apply Hall. lia.
    + right; right. split; [|by eauto].
      intros (_ & [?|(p' & s' & ? & ? & ? & ? & ? & Hq)]); [congruence|].
      apply Hnot. intros i Hi. assert (s' = s) as <- by congruence. apply Hq. lia.
  - left. repeat apply conj; try done.
  - apply lookup_ge_None in Hslot. lia.
Qed.

Lemma handle_disconnect_req_st_dup_step (sm_pkt : SessionMgmtPkt) (w : World App) :
  session_vec w !! ep_session_num (server sm_pkt) = Some None →
  disconnect_req_pre gettid sm_pkt w →
  handle_disconnect_req_st gettid kSessionReqWindow sm_pkt w
  = Ret tt (emit (EvSmPktSent (resp_of kNoError sm_pkt))
              (emit (EvDprintf "Duplicate disconnect request. Sending response.") w)).
Proof.
  intros Hslot Hpre.
  destruct (handle_disconnect_req_st_outcome sm_pkt w)
    as [(_ & _ & Ho)|[(p & s & _ & Hslot' & _)|[Hnot _]]].
  - exact Ho.
  - congruence.
  - destruct Hnot. split; [done|by left].
Qed.

Lemma handle_disconnect_req_st_sent (sm_pkt : SessionMgmtPkt) (w w' : World App) :
  handle_disconnect_req_st gettid kSessionReqWindow sm_pkt w = Ret tt w' →
  sm_pkts_sent (output w') = sm_pkts_sent (output w) ++ [resp_of kNoError sm_pkt].
Proof.
  intros Hrun.
  destruct (handle_disconnect_req_st_outcome sm_pkt w)
    as [(_ & _ & Ho)|[(p & s & _ & _ & _ & _ & _ & _ & _ & Ho)|[_ [h Ho]]]];
    rewrite Hrun in Ho.
  - injection Ho as ->. simpl. rewrite !sm_pkts_sent_app. simpl. by rewrite app_nil_r.
  - pose proof (bury_session_st_final (Some p) (responded_world sm_pkt w)) as Hf.
    rewrite <- Ho in Hf. simpl in Hf. rewrite Hf.
    rewrite !sm_pkts_sent_app. simpl. by rewrite app_nil_r.
  - discriminate.
Qed.

(** C2: a disconnect request for a session number whose slot is empty is a
    duplicate.  Handling it any number of times in a row returns each time,
    sends each time the same [kNoError] response, and leaves the session
    vector, the sessions, the retry queue, the allocator and the application
    as they were; and the response is, field for field, the one the handler
    sends whenever it handles this request, the first time included. *)
Theorem handle_disconnect_req_st_duplicate (sm_pkt : SessionMgmtPkt) (w : World App) :
  session_vec w !! ep_session_num (server sm_pkt) = Some None →
  gettid = creator_os_tid w →
  pkt_type sm_pkt = kDisconnectReq →
  ep_rpc_id (server sm_pkt) = rpc_id w →
  ep_hostname (server sm_pkt) = nx_hostname (nexus w) →
  (∀ n, ∃ w_n,
     replay n sm_pkt (handle_disconnect_req_st gettid kSessionReqWindow) w = Ret tt w_n ∧
     sm_pkts_sent (output w_n)
     = sm_pkts_sent (output w) ++ replicate n (resp_of kNoError sm_pkt) ∧
     session_vec w_n = session_vec w ∧
     heap w_n = heap w ∧
     mgmt_retryq w_n = mgmt_retryq w ∧
     huge_alloc w_n = huge_alloc w ∧
     context w_n = context w ∧
     sm_callbacks (output w_n) = sm_callbacks (output w)) ∧
  resp_of kNoError sm_pkt
  = mkSessionMgmtPkt kDisconnectResp kNoError (client sm_pkt) (server sm_pkt) ∧
  (∀ w0 w0' : World App,
     handle_disconnect_req_st gettid kSessionReqWindow sm_pkt w0 = Ret tt w0' →
     sm_pkts_sent (output w0')
     = sm_pkts_sent (output w0) ++ [resp_of kNoError sm_pkt]).
Proof.
  intros Hslot Htid Hty Hid Hhost. repeat apply conj.
  - intros n. revert w Hslot Htid Hid Hhost.
    induction n as [|n IH]; intros w Hslot Htid Hid Hhost.
    + exists w. simpl. rewrite app_nil_r. done.
    + unfold replay. simpl. unfold bind.
      rewrite handle_disconnect_req_st_dup_step by done.
      set (w1 := emit (EvSmPktSent (resp_of kNoError sm_pkt))
                   (emit (EvDprintf "Duplicate disconnect request. Sending response.") w)).
      destruct (IH w1) as (w_n & Hrun & Hsent & Hsv & Hh & Hq & Hha & Hc & Hcb); try done.
      exists w_n.
      change (for_each (replicate n sm_pkt) ?h w1) with (replay n sm_pkt h w1).
      repeat apply conj; try done.
      * rewrite Hsent. unfold w1. simpl. rewrite !sm_pkts_sent_app. simpl.
        rewrite app_nil_r. by rewrite <- app_assoc.
      * rewrite Hcb. unfold w1. simpl. rewrite !sm_callbacks_app. simpl.
        by rewrite !app_nil_r.
  - unfold resp_of. by rewrite Hty.
  - apply handle_disconnect_req_st_sent.
Qed.

(** C3: the first disconnect request for a live, quiescent server session
    whose endpoints match the packet.  The handler sends one [kNoError]
    response and then buries the session: its run is the burial started in
    the world in which the response is out and the session is still in
    place, however the burial ends, so that when the burial stops the
    response has been sent and the session is still there.  When the
    allocator is there and the session knows its entry, the handler
    returns: the preallocated response buffers of the W slots have gone back
    to the allocator, slot by slot, the session's entry of the session
    vector is empty, and the session object is gone. *)
Theorem handle_disconnect_req_st_first
    (sm_pkt : SessionMgmtPkt) (w : World App) (p : SessionPtr) (s : Session) :
  session_vec w !! ep_session_num (server sm_pkt) = Some (Some p) →
  heap w !! p = Some s →
  gettid = creator_os_tid w →
  pkt_type sm_pkt = kDisconnectReq →
  ep_rpc_id (server sm_pkt) = rpc_id w →
  ep_hostname (server sm_pkt) = nx_hostname (nexus w) →
  role s = kServerRole →
  s_server s = server sm_pkt →
  s_client s = client sm_pkt →
  (∀ i, i < kSessionReqWindow →
     ∃ sslot, sslot_arr s !! i = Some sslot ∧ quiescent sslot = true) →
  let resp :=
    mkSessionMgmtPkt kDisconnectResp kNoError (client sm_pkt) (server sm_pkt) in
  let w_r := responded_world sm_pkt w in
  (* the response, then the burial, however the burial ends *)
  handle_disconnect_req_st gettid kSessionReqWindow sm_pkt w
  = bury_session_st gettid kSessionReqWindow (Some p) w_r ∧
  sm_pkts_sent (output w_r) = sm_pkts_sent (output w) ++ [resp] ∧
  heap w_r !! p = Some s ∧
  session_vec w_r = session_vec w ∧
  huge_alloc w_r = huge_alloc w ∧
  (∀ h w1,
     handle_disconnect_req_st gettid kSessionReqWindow sm_pkt w = Stop h w1 →
     sm_pkts_sent (output w1) = sm_pkts_sent (output w) ++ [resp] ∧
     heap w1 !! p = Some s ∧
     session_vec w1 = session_vec w) ∧
  (∀ ha,
     huge_alloc w = Some ha →
     local_session_num s < length (session_vec w) →
     ∃ w',
       handle_disconnect_req_st gettid kSessionReqWindow sm_pkt w = Ret tt w' ∧
       (* the response, then the burial *)
       bury_session_st gettid kSessionReqWindow (Some p) (responded_world sm_pkt w)
         = Ret tt w' ∧
       heap (responded_world sm_pkt w) !! p = Some s ∧
       session_vec (responded_world sm_pkt w) = session_vec w ∧
       sm_pkts_sent (output w')
       = sm_pkts_sent (output w) ++
         [mkSessionMgmtPkt kDisconnectResp kNoError (client sm_pkt) (server sm_pkt)] ∧
       (* the W preallocated response buffers are released *)
       huge_alloc w'
       = Some (mkHugeAlloc (ha_numa_node ha)
                 (ha_freed ha ++
                  ((λ sslot, buffer (pre_resp_msgbuf sslot))
                     <$> take kSessionReqWindow (sslot_arr s)))) ∧
       length (take kSessionReqWindow (sslot_arr s)) = kSessionReqWindow ∧
       (* the entry is empty and the session destroyed *)
       session_vec w' = <[local_session_num s := None]> (session_vec w) ∧
       session_vec w' !! local_session_num s = Some None ∧
       (local_session_num s = ep_session_num (server sm_pkt) →
          session_vec w' !! ep_session_num (server sm_pkt) = Some None) ∧
       heap w' = delete p (heap w) ∧
       heap w' !! p = None).
Proof.
  intros Hslot Hs Htid Hty Hid Hhost Hrole Hsrv Hclt Hq resp w_r.
  assert (handle_disconnect_req_st gettid kSessionReqWindow sm_pkt w
          = bury_session_st gettid kSessionReqWindow (Some p) w_r) as Hrun.
  { destruct (handle_disconnect_req_st_outcome sm_pkt w)
      as [(_ & Hnone & _)|[(p' & s' & _ & Hslot' & Hs' & _ & _ & _ & _ & Ho)|[Hnot _]]].
    - congruence.
    - assert (p' = p) as -> by congruence. exact Ho.
    - destruct Hnot. split; [done|]. right. exists p, s. done. }
  assert (sm_pkts_sent (output w_r) = sm_pkts_sent (output w) ++ [resp]) as Hsent.
  { unfold w_r, responded_world. simpl.
    rewrite !sm_pkts_sent_app. simpl. rewrite app_nil_r.
    unfold resp, resp_of. by rewrite Hty. }
  split; [exact Hrun|]. split; [exact Hsent|].
  split; [exact Hs|]. split; [reflexivity|]. split; [reflexivity|]. split.
  { intros h w1 Hstop. rewrite Hrun in Hstop.
    apply bury_session_st_Stop in Hstop as (Esv & Eh & _ & Eo).
    rewrite Esv, Eh, Eo. done. }
  intros ha Hha Hlt.
  assert (kSessionReqWindow ≤ length (sslot_arr s)) as Hlen.
  { destruct kSessionReqWindow as [|n]; [lia|].
    destruct (Hq n) as (sl & Hsl & _); [lia|]. apply lookup_lt_Some in Hsl. lia. }
  assert (bury_session_st gettid kSessionReqWindow (Some p) (responded_world sm_pkt w)
          = Ret tt (after_bury kSessionReqWindow p s (responded_world sm_pkt w))) as Hbury.
  { apply bury_session_st_Ret. exists s. unfold responded_world; simpl.
    repeat apply conj; try done; try (intros _; split; [done|by rewrite Hha]).
    unfold is_client. rewrite Hrole. intros Hc. by apply bool_decide_eq_true in Hc. }
  exists (after_bury kSessionReqWindow p s (responded_world sm_pkt w)).
  destruct (free_all_fields (pre_resp_buffers 0 kSessionReqWindow s)
              (responded_world sm_pkt w)) as (Fsv & Fq & Fh & Fc & Fo & _).
  repeat apply conj; try done.
  - rewrite Hrun. exact Hbury.
  - unfold after_bury. simpl. rewrite Fo. exact Hsent.
  - unfold after_bury. simpl. rewrite free_all_huge_alloc.
    unfold responded_world. simpl. rewrite Hha. simpl.
    unfold pre_resp_buffers. by rewrite drop_0.
  - rewrite length_take. lia.
  - unfold after_bury. simpl. by apply list_lookup_insert_eq.
  - intros <-. unfold after_bury. simpl. by apply list_lookup_insert_eq.
  - unfold after_bury. simpl. by rewrite lookup_delete_eq.
Qed.

(** *** Construction and destruction *)

Variable kDatapathChecks : bool.
Variable kMaxPhyPorts : size_t.
Variable kMaxNumaNodes : size_t.
Variable getuid : nat.
Variable hugepage_init_error : option string.

(** C4, at a null [nexus]: the constructor does not throw.  The member
    initialiser list dereferences [nexus] before the body is entered, so the
    body's null check and its [invalid_argument] are never reached; this
    holds for every value of the other arguments. *)
Theorem Rpc_ctor_null_nexus (context_arg : App) (rpc_id_arg phy_port_arg : uint8)
    (numa_node_arg : size_t) :
  Rpc_ctor (App := App) gettid kMaxPhyPorts kMaxNumaNodes getuid hugepage_init_error
           None context_arg rpc_id_arg phy_port_arg numa_node_arg
  = CtorNullDeref "nexus->num_bg_threads"
  ∧ ∀ e w, Rpc_ctor (App := App) gettid kMaxPhyPorts kMaxNumaNodes getuid
             hugepage_init_error None context_arg rpc_id_arg phy_port_arg numa_node_arg
           ≠ CtorStopped (Thrown e) w.
Proof. split; [reflexivity|]. intros e w. discriminate. Qed.

(** X1: with a [nexus] that is not null the constructor validates its
    arguments: it throws, with nothing allocated and no hook registered,
    when the caller is not root, the RpcId is the reserved one or is already
    registered, or the port or the NUMA node is out of bounds; it builds the
    endpoint, with transport, allocator and hook, when all of these hold and
    the transport's initialisation does not throw; and it builds it only
    then. *)
Lemma Rpc_ctor_validates (nx : Nexus) (context_arg : App)
    (rpc_id_arg phy_port_arg : uint8) (numa_node_arg : size_t) :
  let o := Rpc_ctor (App := App) gettid kMaxPhyPorts kMaxNumaNodes getuid
             hugepage_init_error (Some nx) context_arg rpc_id_arg phy_port_arg
             numa_node_arg in
  let valid := getuid = 0 ∧ rpc_id_arg ≠ kInvalidRpcId ∧ (rpc_id_arg ∉ reg_hooks nx) ∧
               phy_port_arg < kMaxPhyPorts ∧ numa_node_arg < kMaxNumaNodes in
  (¬ valid → ∃ e w, o = CtorStopped (Thrown e) w ∧
                     transport w = None ∧ huge_alloc w = None ∧ nexus w = nx) ∧
  (valid → hugepage_init_error = None →
     ∃ w, o = Constructed w ∧ is_Some (transport w) ∧ is_Some (huge_alloc w) ∧
          nexus w = register_hook rpc_id_arg nx ∧ creator_os_tid w = gettid) ∧
  (∀ w, o = Constructed w → valid).
Proof.
  intros o valid.
  assert (∀ e (w : World App),
            (valid → False) → transport w = None → huge_alloc w = None → nexus w = nx →
            o = CtorStopped (Thrown e) w →
            (¬ valid → ∃ e' w', o = CtorStopped (Thrown e') w' ∧
                 transport w' = None ∧ huge_alloc w' = None ∧ nexus w' = nx) ∧
            (valid → hugepage_init_error = None →
               ∃ w', o = Constructed w' ∧ is_Some (transport w') ∧
                     is_Some (huge_alloc w') ∧
                     nexus w' = register_hook rpc_id_arg nx ∧ creator_os_tid w' = gettid) ∧
            (∀ w', o = Constructed w' → valid)) as Hthrows.
  { intros e w HP ? ? ? ->. repeat apply conj.
    - intros _. exists e, w. done.
    - intros HP'. destruct (HP HP').
    - intros ? [=]. }
  assert (Ho : o = Rpc_ctor (App := App) gettid kMaxPhyPorts kMaxNumaNodes getuid
             hugepage_init_error (Some nx) context_arg rpc_id_arg phy_port_arg
             numa_node_arg) by reflexivity.
  clearbody o. subst valid.
  unfold Rpc_ctor, Rpc_ctor_body, throw in Ho.
  unfold bind at 1 in Ho. case_bool_decide as Huid; simpl in Ho.
  { eapply Hthrows; [| | | |exact Ho]; try done. intros (? & _). done. }
  assert (getuid = 0) by (destruct (decide (getuid = 0)); done).
  unfold bind at 1, ret at 1 in Ho. unfold bind at 1, ret at 1 in Ho.
  unfold bind at 1, get in Ho. simpl in Ho.
  unfold bind at 1, rpc_id_exists in Ho.
  case_bool_decide as Hinv; simpl in Ho.
  { eapply Hthrows; [| | | |exact Ho]; try done. intros (? & ? & _). done. }
  case_bool_decide as Hex; simpl in Ho.
  { eapply Hthrows; [| | | |exact Ho]; try done. intros (? & ? & ? & _). done. }
  unfold bind at 1 in Ho.
  case_bool_decide as Hport; simpl in Ho.
  { eapply Hthrows; [| | | |exact Ho]; try done. intros (? & ? & ? & ? & _). lia. }
  unfold bind at 1 in Ho.
  case_bool_decide as Hnuma; simpl in Ho.
  { eapply Hthrows; [| | | |exact Ho]; try done. intros (? & ? & ? & ? & ?). lia. }
  assert (getuid = 0 ∧ rpc_id_arg ≠ kInvalidRpcId ∧ (rpc_id_arg ∉ reg_hooks nx) ∧
          phy_port_arg < kMaxPhyPorts ∧ numa_node_arg < kMaxNumaNodes) as Hvalid.
  { repeat apply conj; (done || lia). }
  destruct hugepage_init_error as [what|]; simpl in Ho; subst o.
  - repeat apply conj; [done | intros _ [=] | intros ? [=]; done].
  - repeat apply conj; [done | | done].
    intros _ _. eexists. repeat apply conj; [reflexivity|simpl; eauto..].
Qed.

(** C6: the destructor run by a thread other than the creator ends the
    process with [exit(-1)] after the wrong-thread diagnostic, and the
    allocator, the transport and the hook registration are as before; run by
    the creator inside the event loop with datapath checks on it ends the
    process likewise; run by the creator otherwise it goes through: the
    allocator and the transport are deleted and the hook is unregistered. *)
Theorem Rpc_dtor_thread_check (w : World App) :
  (gettid ≠ creator_os_tid w →
     ∃ w', Rpc_dtor gettid kDatapathChecks w = Stop (Exited (-1)) w' ∧
           output w' = output w ++
                       [EvDprintf "Error. Cannot destroy from background thread."] ∧
           huge_alloc w' = huge_alloc w ∧
           transport w' = transport w ∧
           nexus w' = nexus w ∧
           session_vec w' = session_vec w ∧
           heap w' = heap w) ∧
  (gettid = creator_os_tid w → kDatapathChecks && in_event_loop w = true →
     ∃ w', Rpc_dtor gettid kDatapathChecks w = Stop (Exited (-1)) w' ∧
           output w' = output w ++
                       [EvDprintf "Error. Cannot destroy when inside event loop."] ∧
           huge_alloc w' = huge_alloc w ∧
           transport w' = transport w ∧
           nexus w' = nexus w) ∧
  (gettid = creator_os_tid w → kDatapathChecks && in_event_loop w = false →
     ∃ w', Rpc_dtor gettid kDatapathChecks w = Ret tt w' ∧
           huge_alloc w' = None ∧
           transport w' = None ∧
           nexus w' = unregister_hook (rpc_id w) (nexus w) ∧
           rpc_id w ∉ reg_hooks (nexus w')).
Proof.
  repeat apply conj.
  - intros Hne. unfold Rpc_dtor. unfold bind at 1, get, in_creator.
    rewrite bool_decide_eq_false_2 by done. simpl.
    eexists. repeat apply conj; reflexivity.
  - intros Heq Hloop. unfold Rpc_dtor. unfold bind at 1, get, in_creator.
    rewrite bool_decide_eq_true_2 by done. simpl. rewrite Hloop.
    eexists. repeat apply conj; reflexivity.
  - intros Heq Hloop. unfold Rpc_dtor. unfold bind at 1, get, in_creator.
    rewrite bool_decide_eq_true_2 by done. simpl. rewrite Hloop.
    eexists. repeat apply conj; try reflexivity.
    simpl. intros Hin. apply list_elem_of_filter in Hin as [Hne _]. done.
Qed.

End EndpointProofs.

(** ** The background worker *)

Section BgProofs.
Context {App : Type}.
Variable run_req_func : FuncPtr → SSlotPtr → CtxPtr → UserMem App → UserMem App.
Variable run_cont_func : FuncPtr → SSlotPtr → CtxPtr → nat → UserMem App → UserMem App.
Variable debug_check_bg_rx_msgbuf : SSlot → BgWorkItemType → bool.

Local Open Scope m_scope.

Lemma calls_app (xs ys : list BgEvent) : calls (xs ++ ys) = calls xs ++ calls ys.
Proof. apply omap_app. Qed.

Lemma list_ops_app (xs ys : list BgEvent) : list_ops (xs ++ ys) = list_ops xs ++ list_ops ys.
Proof. apply List.filter_app. Qed.

Lemma rx_released_app (xs ys : list BgEvent) :
  rx_released (xs ++ ys) = rx_released xs ++ rx_released ys.
Proof. apply omap_app. Qed.

(** C5: the worker's thread function compares the tiny thread id that
    [TlsRegistry::init] has just assigned (the registry's counter) with the
    index the Nexus gave the worker.  When they differ a [runtime_error]
    that names both leaves the thread function, which ends the process, and
    no work item has been touched: the list, the shared memory and the trace
    are as they were.  When they are equal the worker logs and enters its
    loop. *)
Theorem bg_thread_func_tid_check (bg_thread_index : size_t)
    (req_func_arr : list ReqFunc) (sched : list Tick) (w : BgWorld App) :
  let tid := cur_tiny_tid w in
  let w1 := mkBgWorld (S tid) (Some tid) (bg_req_list w) (mem w) (trace w) in
  let run := bg_thread_func run_req_func run_cont_func debug_check_bg_rx_msgbuf
               bg_thread_index req_func_arr sched w in
  (bg_thread_index ≠ tid →
     run = Stop (Thrown (runtime_error (tid_mismatch_msg bg_thread_index tid))) w1 ∧
     thread_end run = ProcessTerminated (tid_mismatch_msg bg_thread_index tid) ∧
     trace (final run) = trace w ∧
     mem (final run) = mem w ∧
     bg_req_list (final run) = bg_req_list w) ∧
  (bg_thread_index = tid →
     run = (bg_dprintf "eRPC Nexus: Background thread running.";;
            bg_loop run_req_func run_cont_func debug_check_bg_rx_msgbuf
                    req_func_arr sched;;
            bg_dprintf "eRPC Nexus: Background thread exiting.") w1).
Proof.
  intros tid w1 run.
  assert (run =
    (if bool_decide (bg_thread_index ≠ tid) then
       halt (Thrown (runtime_error (tid_mismatch_msg bg_thread_index tid)))
     else
       bg_dprintf "eRPC Nexus: Background thread running.";;
       bg_loop run_req_func run_cont_func debug_check_bg_rx_msgbuf req_func_arr sched;;
       bg_dprintf "eRPC Nexus: Background thread exiting.") w1) as Hrun by reflexivity.
  clearbody run. subst run.
  split; intros Htid.
  - rewrite bool_decide_eq_true_2 by done. done.
  - rewrite bool_decide_eq_false_2 by (intros ?; done). done.
Qed.

(** How the handling of one work item can end: it stops before any callback
    is called, with the world as it was; or it is a request, whose handler
    is called and followed by the release of the slot's rx buffer; or it is
    a continuation, whose saved function is called and followed by
    nothing. *)
Lemma bg_run_work_item_outcome (req_func_arr : list ReqFunc) (item : BgWorkItem)
    (w : BgWorld App) :
  let o := bg_run_work_item run_req_func run_cont_func debug_check_bg_rx_msgbuf
             req_func_arr item w in
  (∃ h, o = Stop h w)
  ∨ (∃ p sslot ctx f,
       wi_sslot item = Some p ∧ sslots (mem w) !! p = Some sslot ∧
       wi_context item = Some ctx ∧ wi_type item = kReq ∧
       o = bury_sslot_rx_msgbuf p
             (with_mem (run_req_func f p ctx (mem w)) (bg_emit (BgReqFunc f p ctx) w)))
  ∨ (∃ p sslot ctx,
       wi_sslot item = Some p ∧ sslots (mem w) !! p = Some sslot ∧
       wi_context item = Some ctx ∧ wi_type item = kResp ∧
       o = Ret tt (with_mem (run_cont_func (cont_func (clt_save_info sslot)) p ctx
                                           (tag (clt_save_info sslot)) (mem w))
                            (bg_emit (BgContFunc (cont_func (clt_save_info sslot)) p ctx
                                                 (tag (clt_save_info sslot))) w))).
Proof.
  intros o. assert (Ho : o = bg_run_work_item run_req_func run_cont_func
                               debug_check_bg_rx_msgbuf req_func_arr item w) by reflexivity.
  clearbody o. unfold bg_run_work_item in Ho. cbv zeta in Ho.
  destruct (wi_sslot item) as [p|] eqn:Hp; [|left; by eauto].
  unfold bind at 1, deref_sslot in Ho.
  destruct (sslots (mem w) !! p) as [sslot|] eqn:Hsslot; [|left; by eauto].
  step_assert Ho; [|left; by eauto].
  step_assert Ho; [|left; by eauto].
  step_assert Ho; [|left; by eauto].
  destruct (wi_context item) as [ctx|] eqn:Hctx; [|left; by eauto].
  case_bool_decide as Hty.
  - destruct (buf (rx_msgbuf sslot)); [|left; by eauto].
    destruct (req_func_arr !! req_type (rx_msgbuf sslot)) as [rf|]; [|left; by eauto].
    step_assert Ho; [|left; by eauto].
    destruct (req_func rf) as [f|]; [|left; by eauto].
    right; left. exists p, sslot, ctx, f. done.
  - right; right. exists p, sslot, ctx. repeat apply conj; try done.
    by destruct (wi_type item).
Qed.

Lemma bury_sslot_rx_msgbuf_outcome (p : SSlotPtr) (w : BgWorld App) :
  let o := bury_sslot_rx_msgbuf (App := App) p w in
  (sslots (mem w) !! p = None ∧ ∃ h, o = Stop h w)
  ∨ (∃ sslot, sslots (mem w) !! p = Some sslot ∧
       o = Ret tt (bg_emit (BgBuryRxMsgbuf p)
                     (with_mem (mkUserMem (alter clear_rx p (sslots (mem w)))
                                          (app (mem w))) w))).
Proof.
  intros o. subst o. unfold bury_sslot_rx_msgbuf, bind, deref_sslot.
  destruct (sslots (mem w) !! p) as [sslot|]; [right|left]; by eauto.
Qed.

(** C7: what the core does around the application's callback, by the kind
    of the work item.  For a request it calls the registered handler and,
    as the very next thing, releases the slot's rx buffer: whenever the
    handler leaves the slot in place, the two events are adjacent in the
    trace and the slot's rx buffer handle is null afterwards.  For a
    continuation it calls the saved function with the saved tag and does
    nothing more: the shared memory is exactly what the continuation left
    and no rx buffer is released by the core. *)
Theorem bg_run_work_item_by_kind (req_func_arr : list ReqFunc) (item : BgWorkItem)
    (w : BgWorld App) (p : SSlotPtr) (sslot : SSlot) (ctx : CtxPtr) :
  wi_sslot item = Some p →
  sslots (mem w) !! p = Some sslot →
  wi_context item = Some ctx →
  session sslot ≠ None →
  debug_check_bg_rx_msgbuf sslot (wi_type item) = true →
  tx_msgbuf sslot = None →
  let run := bg_run_work_item run_req_func run_cont_func debug_check_bg_rx_msgbuf
               req_func_arr item w in
  (wi_type item = kReq →
     ∀ a rf f,
       buf (rx_msgbuf sslot) = Some a →
       req_func_arr !! req_type (rx_msgbuf sslot) = Some rf →
       req_func rf = Some f →
       let m1 := run_req_func f p ctx (mem w) in
       run = bury_sslot_rx_msgbuf p (with_mem m1 (bg_emit (BgReqFunc f p ctx) w)) ∧
       ∀ sslot1, sslots m1 !! p = Some sslot1 →
         ∃ w', run = Ret tt w' ∧
               trace w' = trace w ++ [BgReqFunc f p ctx; BgBuryRxMsgbuf p] ∧
               mem w' = mkUserMem (<[p := clear_rx sslot1]> (sslots m1)) (app m1) ∧
               (rx_msgbuf <$> sslots (mem w') !! p)
               = Some (rx_msgbuf (clear_rx sslot1)) ∧
               buf (rx_msgbuf (clear_rx sslot1)) = None ∧
               buffer_buf (buffer (rx_msgbuf (clear_rx sslot1))) = None) ∧
  (wi_type item = kResp →
     let f := cont_func (clt_save_info sslot) in
     let tg := tag (clt_save_info sslot) in
     ∃ w', run = Ret tt w' ∧
           trace w' = trace w ++ [BgContFunc f p ctx tg] ∧
           mem w' = run_cont_func f p ctx tg (mem w) ∧
           rx_released (trace w') = rx_released (trace w)).
Proof.
  intros Hp Hsslot Hctx Hsess Hdbg Htx run.
  assert (run =
    (let is_req := bool_decide (wi_type item = kReq) in
     if is_req then
       match buf (rx_msgbuf sslot) with
       | None => halt (NullDeref "rx_msgbuf.buf")
       | Some _ =>
           match req_func_arr !! req_type (rx_msgbuf sslot) with
           | None => halt (Thrown out_of_range)
           | Some rf =>
               assert_ "nexus_bg_thread.cc" 70 (is_registered rf);;
               match req_func rf with
               | None => halt (NullDeref "req_func")
               | Some f => call_req_func run_req_func f p ctx;; bury_sslot_rx_msgbuf p
               end
           end
       end
     else call_cont_func run_cont_func (cont_func (clt_save_info sslot)) p ctx
                         (tag (clt_save_info sslot))) w) as Hrun.
  { subst run. unfold bg_run_work_item. cbv zeta. rewrite Hp.
    unfold bind at 1, deref_sslot. rewrite Hsslot.
    rewrite bool_decide_eq_true_2 by (by rewrite Hctx).
    rewrite bool_decide_eq_true_2 by done. rewrite bind_assert_T.
    rewrite Hdbg, bind_assert_T.
    rewrite bool_decide_eq_true_2 by done. rewrite bind_assert_T.
    by rewrite Hctx. }
  clearbody run. subst run. cbv zeta. split.
  - intros Hty a rf f Hbuf Hrf Hf.
    rewrite bool_decide_eq_true_2 by done. rewrite Hbuf, Hrf.
    unfold is_registered. rewrite bool_decide_eq_true_2 by (by rewrite Hf).
    rewrite bind_assert_T, Hf. unfold call_req_func. rewrite bind_modify.
    split; [done|]. intros sslot1 Hs1.
    unfold bury_sslot_rx_msgbuf, bind, deref_sslot. simpl. rewrite Hs1.
    eexists. split; [reflexivity|]. simpl.
    repeat apply conj.
    + by rewrite <- app_assoc.
    + f_equal. apply map_eq. intros i. rewrite lookup_alter.
      case_decide.
      * subst i. by rewrite lookup_insert_eq, Hs1.
      * by rewrite lookup_insert_ne.
    + by rewrite lookup_alter_eq, Hs1.
    + done.
    + done.
  - intros Hty. rewrite bool_decide_eq_false_2 by (by rewrite Hty).
    eexists. split; [reflexivity|]. simpl. repeat apply conj; try done.
    rewrite rx_released_app. simpl. by rewrite app_nil_r.
Qed.

Lemma bg_run_work_item_Ret (req_func_arr : list ReqFunc) (item : BgWorkItem)
    (w w' : BgWorld App) :
  bg_run_work_item run_req_func run_cont_func debug_check_bg_rx_msgbuf
    req_func_arr item w = Ret tt w' →
  ∃ evs c, item_call item = Some c ∧
           trace w' = trace w ++ evs ∧
           calls evs = [c] ∧
           list_ops evs = [] ∧
           bg_req_list w' = bg_req_list w.
Proof.
  intros Hrun.
  destruct (bg_run_work_item_outcome req_func_arr item w)
    as [[h Ho]|[(p & sslot & ctx & f & Hp & Hs & Hctx & Hty & Ho)
               |(p & sslot & ctx & Hp & Hs & Hctx & Hty & Ho)]];
    rewrite Hrun in Ho; [discriminate| |].
  - destruct (bury_sslot_rx_msgbuf_outcome p
                (with_mem (run_req_func f p ctx (mem w)) (bg_emit (BgReqFunc f p ctx) w)))
      as [[_ [h Hb]]|(sslot1 & _ & Hb)]; rewrite <- Ho in Hb; [discriminate|].
    injection Hb as ->.
    exists [BgReqFunc f p ctx; BgBuryRxMsgbuf p], (kReq, p, ctx).
    unfold item_call. rewrite Hp, Hctx, Hty. simpl.
    repeat apply conj; try done. by rewrite <- app_assoc.
  - injection Ho as ->.
    exists [BgContFunc (cont_func (clt_save_info sslot)) p ctx (tag (clt_save_info sslot))],
           (kResp, p, ctx).
    unfold item_call. rewrite Hp, Hctx, Hty. done.
Qed.

Lemma for_each_work_items_Ret (req_func_arr : list ReqFunc) (items : list BgWorkItem)
    (w w' : BgWorld App) :
  for_each items
    (bg_run_work_item run_req_func run_cont_func debug_check_bg_rx_msgbuf req_func_arr) w
  = Ret tt w' →
  ∃ evs, trace w' = trace w ++ evs ∧
         Some <$> calls evs = item_call <$> items ∧
         list_ops evs = [] ∧
         bg_req_list w' = bg_req_list w.
Proof.
  revert w. induction items as [|item items IH]; intros w Hrun; simpl in Hrun.
  - injection Hrun as <-. exists []. by rewrite app_nil_r.
  - apply bind_Ret_inv in Hrun as ([] & w1 & Hitem & Hrest).
    apply bg_run_work_item_Ret in Hitem as (evs1 & c & Hc & Ht1 & Hc1 & Hl1 & Hq1).
    apply IH in Hrest as (evs2 & Ht2 & Hc2 & Hl2 & Hq2).
    exists (evs1 ++ evs2). repeat apply conj.
    + by rewrite Ht2, Ht1, <- app_assoc.
    + rewrite calls_app, fmap_app, Hc1, Hc2. simpl. by rewrite Hc.
    + by rewrite list_ops_app, Hl1, Hl2.
    + by rewrite Hq2, Hq1.
Qed.

Lemma producers_push_list (items : list BgWorkItem) (l : MtList BgWorkItem) :
  mt_list (foldl (λ l x, mt_push x l) l items) = mt_list l ++ items ∧
  mt_size (foldl (λ l x, mt_push x l) l items) = mt_size l + length items.
Proof.
  revert l. induction items as [|x items IH]; intros l; simpl.
  - by rewrite app_nil_r, Nat.add_0_r.
  - destruct (IH (mt_push x l)) as [-> ->]. simpl.
    split; [by rewrite <- app_assoc|lia].
Qed.

(** C8: one drain that runs to its end.  The worker takes the lock, calls
    one callback per item of the list, in the order of the list, which is
    the order of the pushes; it calls nothing else and does not touch the
    list meanwhile; then it clears the list and only then releases the
    lock. *)
Theorem bg_drain_in_push_order (req_func_arr : list ReqFunc) (w w' : BgWorld App) :
  bg_drain run_req_func run_cont_func debug_check_bg_rx_msgbuf req_func_arr w
    = Ret tt w' →
  (∃ evs,
     trace w' = trace w ++ [BgLock] ++ evs ++ [BgLockedClear; BgUnlock] ∧
     (* each item once, in list order *)
     Some <$> calls evs = item_call <$> mt_list (bg_req_list w) ∧
     length (calls evs) = length (mt_list (bg_req_list w)) ∧
     list_ops evs = [] ∧
     (* cleared, then unlocked *)
     bg_req_list w' = mkMtList [] 0 false) ∧
  (* the list holds the items in push order *)
  (∀ (items : list BgWorkItem) (w0 : BgWorld App),
     mt_list (bg_req_list (final (producers_push items w0)))
     = mt_list (bg_req_list w0) ++ items).
Proof.
  intros Hrun. split.
  - unfold bg_drain in Hrun. rewrite bind_modify in Hrun.
    unfold bind at 1, get in Hrun.
    step_assert Hrun; [|discriminate].
    apply bind_Ret_inv in Hrun as ([] & w1 & Hitems & Hrest).
    apply for_each_work_items_Ret in Hitems as (evs & Ht & Hc & Hl & Hq).
    simpl in *. rewrite !bind_modify in Hrest. injection Hrest as <-.
    exists evs. simpl. rewrite Ht, Hq. simpl.
    repeat apply conj; try done.
    + by rewrite <- !app_assoc.
    + apply (f_equal length) in Hc. by rewrite !length_fmap in Hc.
  - intros items w0. unfold producers_push, modify. simpl.
    apply producers_push_list.
Qed.

End BgProofs.

(** * The handlers beyond one call *)

Section EndpointInvariants.
Context {App : Type}.
Variable session_mgmt_handler :
  uint16 → SessionMgmtEventType → SessionMgmtErrType → World App → App.
Variable gettid : nat.
Variable kSessionReqWindow : size_t.

Local Open Scope m_scope.

Lemma same_endpoint_free_all (bufs : list Buffer) (w : World App) :
  same_endpoint w (free_all bufs w).
Proof.
  destruct (free_all_fields bufs w) as (? & ? & ? & ? & ? & ? & ? & ? & ?).
  by repeat split.
Qed.

(** The release loop of lines 130-137, however it ends, has only released
    buffers. *)
Lemma free_loop_any (s : Session) (n k : nat) (w : World App) :
  ∃ m, m ≤ n ∧
    final (for_each (seq k n)
      (λ i, sslot <- sslot_at s i;; free_msg_buffer (pre_resp_msgbuf sslot)) w)
    = free_all (pre_resp_buffers k m s) w.
Proof.
  revert k w. induction n as [|n IH]; intros k w; simpl.
  - exists 0. split; [lia|]. by unfold pre_resp_buffers.
  - unfold bind at 1, sslot_at at 1.
    destruct (sslot_arr s !! k) as [sslot|] eqn:Hk; simpl.
    2:{ exists 0. split; [lia|]. by unfold pre_resp_buffers. }
    unfold bind at 1, ret at 1, free_msg_buffer at 1.
    destruct (huge_alloc w) as [ha|] eqn:Hha; simpl.
    2:{ exists 0. split; [lia|]. by unfold pre_resp_buffers. }
    destruct (IH (S k) (with_huge_alloc (Some (free_buf (buffer (pre_resp_msgbuf sslot)) ha)) w))
      as (m & Hm & ->).
    exists (S m). split; [lia|].
    unfold pre_resp_buffers. rewrite (drop_S _ _ _ Hk). simpl.
    unfold free_one. by rewrite Hha.
Qed.

(** How [bury_session_st] can end: it returns, having released the
    session's buffers, emptied its entry and deleted it; or it stops, and
    then it has at most released buffers. *)
Lemma bury_session_st_cases (sp : option SessionPtr) (w : World App) :
  let o := bury_session_st gettid kSessionReqWindow sp w in
  (∃ p s, sp = Some p ∧ heap w !! p = Some s ∧
          o = Ret tt (after_bury kSessionReqWindow p s w))
  ∨ (∃ h m, o = Stop h (free_all m w)).
Proof.
  intros o.
  destruct o as [[] w'|h w'] eqn:Ho; subst o.
  - destruct sp as [p|].
    + apply bury_session_st_Ret in Ho as (s & Hs & _ & _ & _ & _ & ->).
      left. by exists p, s.
    + unfold bury_session_st in Ho.
      step_assert Ho; [|discriminate]. by rewrite bind_assert_F in Ho.
  - right. unfold bury_session_st in Ho.
    step_assert Ho; [|injection Ho as <- <-; by eexists; exists []].
    step_assert Ho; [|injection Ho as <- <-; by eexists; exists []].
    destruct sp as [p|]; [|injection Ho as <- <-; by eexists; exists []].
    unfold bind at 1, deref_session in Ho.
    destruct (heap w !! p) as [s|]; [|injection Ho as <- <-; by eexists; exists []].
    assert ((for_each (seq 0 kSessionReqWindow)
          (λ i, sslot <- sslot_at s i;; free_msg_buffer (pre_resp_msgbuf sslot));;
        session_vec_at_put (local_session_num s) None;; delete_session p) w
       = Stop h w' → ∃ h' m, Stop (A := unit) h w' = Stop h' (free_all m w)) as Hrest.
    { clear Ho. intros Ho. unfold bind at 1 in Ho.
      destruct (free_loop_any s kSessionReqWindow 0 w) as (m & _ & Hm).
      destruct (for_each _ _ w) as [[] w2|h2 w2] eqn:Hloop; simpl in Hm; subst w2.
      - unfold bind, session_vec_at_put in Ho.
        destruct (bool_decide (local_session_num s < _)); [discriminate|].
        injection Ho as <- <-. eauto.
      - injection Ho as <- <-. eauto. }
    destruct (is_client s).
    + step_assert Ho; [|injection Ho as <- <-; by eexists; exists []]. by apply Hrest.
    + unfold ret at 1 in Ho. unfold bind at 1 in Ho. by apply Hrest.
Qed.

Lemma endpoint_wf_ext (w w1 : World App) :
  endpoint_wf kSessionReqWindow w →
  is_Some (huge_alloc w1) →
  session_vec w1 = session_vec w →
  heap w1 = heap w →
  (∀ q, q ∈ mgmt_retryq w1 → q ∈ mgmt_retryq w) →
  endpoint_wf kSessionReqWindow w1.
Proof.
  intros (_ & Hslots & Hq) Hha Hsv Hh Hsub. split; [done|]. split.
  - intros i p. rewrite Hsv, Hh. apply Hslots.
  - intros p Hp. rewrite Hh. apply Hq. by apply Hsub.
Qed.

(** Burying the session of an entry keeps the table well formed: the entry
    is the only one that points to the session. *)
Lemma endpoint_wf_bury (w w1 : World App) (p : SessionPtr) (s' : Session) :
  endpoint_wf kSessionReqWindow w →
  session_vec w !! local_session_num s' = Some (Some p) →
  session_vec w1 = session_vec w →
  (∀ q, q ≠ p → heap w1 !! q = heap w !! q) →
  (∀ q, q ∈ mgmt_retryq w1 → q ∈ mgmt_retryq w ∧ q ≠ p) →
  is_Some (huge_alloc w1) →
  endpoint_wf kSessionReqWindow (after_bury kSessionReqWindow p s' w1).
Proof.
  intros (_ & Hslots & Hq) Hp Hsv Hh Hsub Hha.
  destruct (free_all_fields (pre_resp_buffers 0 kSessionReqWindow s') w1)
    as (Hfsv & Hfq & Hfh & _).
  pose proof (free_all_huge_alloc (pre_resp_buffers 0 kSessionReqWindow s') w1) as Hfha.
  unfold endpoint_wf, after_bury, with_heap, with_session_vec.
  cbn [session_vec heap huge_alloc mgmt_retryq].
  rewrite ?Hfsv, ?Hfq, ?Hfh, ?Hfha, Hsv.
  split; [|split].
  - destruct Hha as [ha ->]. simpl. eauto.
  - intros i q Hi.
    apply list_lookup_insert_Some in Hi as [(_ & ? & _)|[Hne Hi]]; [done|].
    destruct (Hslots _ _ Hi) as (sq & Hsq & Hnum & Hlen).
    assert (q ≠ p) as Hqp.
    { intros ->. destruct (Hslots _ _ Hp) as (sp & Hsp & Hnum' & _).
      congruence. }
    exists sq. by rewrite lookup_delete_ne, Hh.
  - intros q Hin. destruct (Hsub _ Hin) as [Hin' Hqp].
    rewrite lookup_delete_ne, Hh by done. by apply Hq.
Qed.

Lemma quiescent_loop_safe (s : Session) (n k : nat) (w : World App) o :
  for_each (seq k n) (λ i,
      sslot <- sslot_at s i;;
      assert_ "rpc_disconnect_handlers.cc" 53
        (bool_decide (buf (rx_msgbuf sslot) = None) &&
         bool_decide (buffer_buf (buffer (rx_msgbuf sslot)) = None));;
      match tx_msgbuf sslot with
      | Some tx => assert_ "rpc_disconnect_handlers.cc" 57
                     (bool_decide (pkts_queued tx = num_pkts tx))
      | None => ret tt
      end) w = o →
  k + n ≤ length (sslot_arr s) →
  o = Ret tt w ∨ ∃ line, o = Stop (AssertionFailed "rpc_disconnect_handlers.cc" line) w.
Proof.
  revert k o. induction n as [|n IH]; intros k o Ho Hlen; simpl in Ho; [by left|].
  unfold bind at 1, sslot_at at 1 in Ho.
  destruct (sslot_arr s !! k) as [sslot|] eqn:Hk; simpl in Ho.
  2:{ apply lookup_ge_None in Hk. lia. }
  unfold bind at 1, ret at 1 in Ho.
  destruct (bool_decide (buf (rx_msgbuf sslot) = None) &&
            bool_decide (buffer_buf (buffer (rx_msgbuf sslot)) = None));
    [rewrite bind_assert_T in Ho|rewrite bind_assert_F in Ho; by eauto].
  destruct (tx_msgbuf sslot) as [tx|].
  - destruct (bool_decide (pkts_queued tx = num_pkts tx)); simpl in Ho; [|by eauto].
    apply (IH (S k)); [done|lia].
  - simpl in Ho. apply (IH (S k)); [done|lia].
Qed.

Lemma handle_disconnect_resp_st_dup_step (sm_pkt : SessionMgmtPkt) (w : World App) :
  session_vec w !! ep_session_num (client sm_pkt) = Some None →
  gettid = creator_os_tid w →
  pkt_type sm_pkt = kDisconnectResp →
  session_mgmt_err_type_is_valid (err_type sm_pkt) = true →
  handle_disconnect_resp_st session_mgmt_handler gettid kSessionReqWindow sm_pkt w
  = Ret tt (emit (EvDprintf "Client session is already disconnected.") w).
Proof.
  intros Hslot Htid Hty Hvalid.
  unfold handle_disconnect_resp_st. cbv zeta.
  rewrite bind_assert_st_true by (unfold in_creator; by apply bool_decide_eq_true_2).
  rewrite bind_assert_true by (by apply bool_decide_eq_true_2).
  rewrite bind_assert_true by done.
  rewrite bind_assert_st_true
    by (apply bool_decide_eq_true_2; eapply lookup_lt_Some; eauto).
  unfold bind at 1, session_vec_index. rewrite Hslot.
  rewrite bind_assert_st_true by done.
  reflexivity.
Qed.

(** What a run of the response handler that returns has checked, and the
    world it returns. *)
Lemma handle_disconnect_resp_st_Ret_cases (sm_pkt : SessionMgmtPkt) (w w1 : World App) :
  handle_disconnect_resp_st session_mgmt_handler gettid kSessionReqWindow sm_pkt w
    = Ret tt w1 →
  gettid = creator_os_tid w ∧
  pkt_type sm_pkt = kDisconnectResp ∧
  session_mgmt_err_type_is_valid (err_type sm_pkt) = true ∧
  ((session_vec w !! ep_session_num (client sm_pkt) = Some None ∧
    w1 = emit (EvDprintf "Client session is already disconnected.") w)
   ∨ (∃ p s, session_vec w !! ep_session_num (client sm_pkt) = Some (Some p) ∧
             heap w !! p = Some s ∧
             w1 = after_bury kSessionReqWindow p (set_state kDisconnectedState s)
                    (after_callback session_mgmt_handler s (disconnected_world p w)))).
Proof.
  intros Hrun. pose proof Hrun as Ho.
  unfold handle_disconnect_resp_st in Ho. cbv zeta in Ho.
  step_assert Ho; [|discriminate].
  step_assert Ho; [|discriminate].
  step_assert Ho; [|discriminate].
  clear Ho.
  apply bool_decide_eq_true in Hb, Hb0.
  repeat apply conj; try done.
  destruct (handle_disconnect_resp_st_outcome session_mgmt_handler gettid
              kSessionReqWindow sm_pkt w)
    as [(p & s & Hslot & Hs & _ & _ & _ & _ & _ & _ & _ & Ho)|[[Hslot|(h & w' & Ho)] _]].
  - right. exists p, s. repeat apply conj; try done.
    rewrite Hrun in Ho. symmetry in Ho.
    apply bury_session_st_Ret in Ho as (s' & Hs' & _ & _ & _ & _ & ->).
    destruct (after_callback_fields session_mgmt_handler s (disconnected_world p w))
      as (_ & _ & Hch & _).
    rewrite Hch in Hs'. simpl in Hs'. rewrite lookup_alter_eq, Hs in Hs'.
    by injection Hs' as <-.
  - left. split; [done|].
    rewrite handle_disconnect_resp_st_dup_step in Hrun by done. by injection Hrun.
  - rewrite Hrun in Ho. discriminate.
Qed.

Lemma replay_disconnect_resp_dup (sm_pkt : SessionMgmtPkt) (n : nat) (w : World App) :
  session_vec w !! ep_session_num (client sm_pkt) = Some None →
  gettid = creator_os_tid w →
  pkt_type sm_pkt = kDisconnectResp →
  session_mgmt_err_type_is_valid (err_type sm_pkt) = true →
  replay n sm_pkt
    (handle_disconnect_resp_st session_mgmt_handler gettid kSessionReqWindow) w
  = Ret tt (with_output
              (output w ++
               replicate n (EvDprintf "Client session is already disconnected.")) w).
Proof.
  revert w. induction n as [|n IH]; intros w Hslot Htid Hty Hvalid.
  - unfold replay. simpl. rewrite app_nil_r. by destruct w.
  - unfold replay. simpl. unfold bind.
    rewrite handle_disconnect_resp_st_dup_step by done.
    change (for_each (replicate n sm_pkt) ?h ?x) with (replay n sm_pkt h x).
    rewrite IH by done. simpl. by rewrite <- app_assoc.
Qed.

(** What a run of the request handler that returns has checked, and the
    world it returns. *)
Lemma handle_disconnect_req_st_Ret_cases (sm_pkt : SessionMgmtPkt) (w w1 : World App) :
  handle_disconnect_req_st gettid kSessionReqWindow sm_pkt w = Ret tt w1 →
  disconnect_req_pre gettid sm_pkt w ∧
  ((session_vec w !! ep_session_num (server sm_pkt) = Some None ∧
    w1 = emit (EvSmPktSent (resp_of kNoError sm_pkt))
           (emit (EvDprintf "Duplicate disconnect request. Sending response.") w))
   ∨ (∃ p s, session_vec w !! ep_session_num (server sm_pkt) = Some (Some p) ∧
             heap w !! p = Some s ∧
             w1 = after_bury kSessionReqWindow p s (responded_world sm_pkt w))).
Proof.
  intros Hrun.
  destruct (handle_disconnect_req_st_outcome gettid kSessionReqWindow sm_pkt w)
    as [(Hpre & Hslot & Ho)|[(p & s & Hpre & Hslot & Hs & _ & _ & _ & _ & Ho)|[_ [h Ho]]]];
    rewrite Hrun in Ho.
  - split; [done|]. left. split; [done|]. by injection Ho.
  - split; [done|]. right. exists p, s. repeat apply conj; try done.
    symmetry in Ho. apply bury_session_st_Ret in Ho as (s' & Hs' & _ & _ & _ & _ & ->).
    simpl in Hs'. congruence.
  - discriminate.
Qed.

Lemma replay_disconnect_req_dup (sm_pkt : SessionMgmtPkt) (n : nat) (w : World App) :
  session_vec w !! ep_session_num (server sm_pkt) = Some None →
  disconnect_req_pre gettid sm_pkt w →
  ∃ w_n,
    replay n sm_pkt (handle_disconnect_req_st gettid kSessionReqWindow) w = Ret tt w_n ∧
    sm_pkts_sent (output w_n)
    = sm_pkts_sent (output w) ++ replicate n (resp_of kNoError sm_pkt) ∧
    sm_callbacks (output w_n) = sm_callbacks (output w) ∧
    session_vec w_n = session_vec w ∧ heap w_n = heap w ∧
    mgmt_retryq w_n = mgmt_retryq w ∧ huge_alloc w_n = huge_alloc w ∧
    context w_n = context w.
Proof.
  revert w. induction n as [|n IH]; intros w Hslot Hpre.
  - exists w. simpl. by rewrite app_nil_r.
  - unfold replay. simpl. unfold bind.
    rewrite handle_disconnect_req_st_dup_step by done.
    set (w1 := emit (EvSmPktSent (resp_of kNoError sm_pkt))
                 (emit (EvDprintf "Duplicate disconnect request. Sending response.") w)).
    destruct (IH w1) as (w_n & Hrun & Hsent & Hcb & Hsv & Hh & Hq & Hha & Hc); try done.
    exists w_n.
    change (for_each (replicate n sm_pkt) ?h w1) with (replay n sm_pkt h w1).
    repeat apply conj; try done.
    + rewrite Hsent. unfold w1. simpl. rewrite !sm_pkts_sent_app. simpl.
      rewrite app_nil_r. by rewrite <- app_assoc.
    + rewrite Hcb. unfold w1. simpl. rewrite !sm_callbacks_app. simpl.
      by rewrite !app_nil_r.
Qed.

Lemma sm_callbacks_replicate_dprintf (xs : list Event) (n : nat) msg :
  sm_callbacks (xs ++ replicate n (EvDprintf msg)) = sm_callbacks xs.
Proof.
  rewrite sm_callbacks_app.
  assert (sm_callbacks (replicate n (EvDprintf msg)) = []) as ->; [|apply app_nil_r].
  induction n as [|n IH]; [done|exact IH].
Qed.

(** The events of one run of the response handler, however it ends: log
    lines and at most one callback. *)
Lemma handle_disconnect_resp_st_events (sm_pkt : SessionMgmtPkt) (w : World App) :
  let o := handle_disconnect_resp_st session_mgmt_handler gettid kSessionReqWindow
             sm_pkt w in
  ∃ evs, output (final o) = output w ++ evs ∧
         sm_pkts_sent evs = [] ∧ length (sm_callbacks evs) ≤ 1.
Proof.
  intros o.
  assert (Ho : o = handle_disconnect_resp_st session_mgmt_handler gettid
                     kSessionReqWindow sm_pkt w) by reflexivity.
  clearbody o.
  unfold handle_disconnect_resp_st in Ho. cbv zeta in Ho.
  step_assert Ho; [|rewrite Ho; exists []; simpl; rewrite app_nil_r; repeat split; lia].
  step_assert Ho; [|rewrite Ho; exists []; simpl; rewrite app_nil_r; repeat split; lia].
  step_assert Ho; [|rewrite Ho; exists []; simpl; rewrite app_nil_r; repeat split; lia].
  step_assert Ho; [|rewrite Ho; exists []; simpl; rewrite app_nil_r; repeat split; lia].
  unfold bind at 1, session_vec_index in Ho.
  destruct (session_vec w !! ep_session_num (client sm_pkt)) as [[p|]|] eqn:Hslot;
    [| |rewrite Ho; exists []; simpl; rewrite app_nil_r; repeat split; lia].
  - unfold bind at 1, deref_session in Ho.
    destruct (heap w !! p) as [s|] eqn:Hs;
      [|rewrite Ho; exists []; simpl; rewrite app_nil_r; repeat split; lia].
    step_assert Ho; [|rewrite Ho; exists []; simpl; rewrite app_nil_r; repeat split; lia].
    step_assert Ho; [|rewrite Ho; exists []; simpl; rewrite app_nil_r; repeat split; lia].
    unfold mgmt_retryq_remove_st in Ho. rewrite bind_modify in Ho.
    step_assert Ho; [|rewrite Ho; exists []; simpl; rewrite app_nil_r; repeat split; lia].
    step_assert Ho; [|rewrite Ho; exists []; simpl; rewrite app_nil_r; repeat split; lia].
    step_assert Ho; [|rewrite Ho; exists []; simpl; rewrite app_nil_r; repeat split; lia].
    unfold set_session_state in Ho. rewrite bind_modify in Ho.
    assert (o = bury_session_st gettid kSessionReqWindow (Some p)
                  (after_callback session_mgmt_handler s (disconnected_world p w)))
      as Ho'.
    { rewrite Ho. unfold after_callback, disconnected_world. unfold bind at 1.
      destruct (sm_callbacks_disabled (client_info s)); simpl; reflexivity. }
    rewrite Ho', bury_session_st_final.
    unfold after_callback, callback_world.
    destruct (sm_callbacks_disabled (client_info s)); simpl.
    + eexists [_]. repeat apply conj; [reflexivity|done|simpl; lia].
    + eexists [_; _]. rewrite <- app_assoc. repeat apply conj; [reflexivity|done|simpl; lia].
  - unfold mgmt_retryq_contains_st in Ho. simpl in Ho. rewrite Ho. simpl.
    eexists [_]. repeat apply conj; [reflexivity|done|simpl; lia].
Qed.

(** X2: what [bury_session_st] leaves alone.  However it ends, it writes
    neither the retry queue, nor the application's state, nor the output
    (it logs nothing, sends nothing and calls nothing), nor the endpoint's
    identity, transport or Nexus.  When it stops, the session vector and
    the sessions are as they were.  When it returns, the session vector has
    its length, every other entry and every other session are as they were,
    and the allocator has received exactly the session's
    [kSessionReqWindow] preallocated response buffers, in slot order. *)
Theorem bury_session_st_frame (sp : option SessionPtr) (w : World App) :
  let o := bury_session_st gettid kSessionReqWindow sp w in
  same_endpoint w (final o) ∧
  (∀ h w1, o = Stop h w1 → session_vec w1 = session_vec w ∧ heap w1 = heap w) ∧
  (∀ w', o = Ret tt w' →
     ∃ p s, sp = Some p ∧ heap w !! p = Some s ∧
       length (session_vec w') = length (session_vec w) ∧
       (∀ i, i ≠ local_session_num s → session_vec w' !! i = session_vec w !! i) ∧
       (∀ q, q ≠ p → heap w' !! q = heap w !! q) ∧
       huge_alloc w'
       = (λ ha, mkHugeAlloc (ha_numa_node ha)
                  (ha_freed ha ++ pre_resp_buffers 0 kSessionReqWindow s))
         <$> huge_alloc w).
Proof.
  intros o.
  destruct (bury_session_st_cases sp w) as [(p & s & -> & Hs & Ho)|(h & m & Ho)];
    fold o in Ho; rewrite Ho; simpl.
  - split; [|split].
    + unfold after_bury. apply (same_endpoint_free_all _ w).
    + intros h' w1 Hx. discriminate Hx.
    + intros w' [= <-]. exists p, s.
      destruct (free_all_fields (pre_resp_buffers 0 kSessionReqWindow s) w)
        as (Hsv & _ & Hh & _).
      unfold after_bury, with_heap, with_session_vec.
      cbn [session_vec heap huge_alloc]. rewrite ?Hsv, ?Hh.
      repeat apply conj; try done.
      * by rewrite length_insert.
      * intros i Hi. by rewrite list_lookup_insert_ne.
      * intros q Hq. by rewrite lookup_delete_ne.
      * apply free_all_huge_alloc.
  - split; [|split].
    + apply same_endpoint_free_all.
    + intros h' w1 [= <- <-].
      destruct (free_all_fields m w) as (Hsv & _ & Hh & _). done.
    + intros w' Hx. discriminate Hx.
Qed.

(** X3: how [bury_session_st] fails on a live session, in the creator
    thread.  A client session that is still in the retry queue stops at the
    assertion of line 126 with nothing changed.  A session whose
    [local_session_num] is not an index of the session vector makes
    [session_vec.at] throw [std::out_of_range] (line 140), and by then the
    preallocated response buffers have all been given back to the
    allocator while the session object has not been deleted.  A null
    session stops at the assertion of line 122. *)
Theorem bury_session_st_failure_modes (p : SessionPtr) (s : Session) (w : World App) :
  heap w !! p = Some s →
  gettid = creator_os_tid w →
  (is_client s = true → p ∈ mgmt_retryq w →
     bury_session_st gettid kSessionReqWindow (Some p) w
     = Stop (AssertionFailed "rpc.cc" 126) w) ∧
  ((is_client s = true → p ∉ mgmt_retryq w) →
   kSessionReqWindow ≤ length (sslot_arr s) →
   is_Some (huge_alloc w) →
   length (session_vec w) ≤ local_session_num s →
     let w1 := free_all (pre_resp_buffers 0 kSessionReqWindow s) w in
     bury_session_st gettid kSessionReqWindow (Some p) w = Stop (Thrown out_of_range) w1 ∧
     heap w1 !! p = Some s ∧
     session_vec w1 = session_vec w ∧
     huge_alloc w1
     = (λ ha, mkHugeAlloc (ha_numa_node ha)
                (ha_freed ha ++ pre_resp_buffers 0 kSessionReqWindow s))
       <$> huge_alloc w) ∧
  bury_session_st gettid kSessionReqWindow None w = Stop (AssertionFailed "rpc.cc" 122) w.
Proof.
  intros Hs Htid.
  assert (in_creator gettid w = true) as Hcr by (by apply bool_decide_eq_true_2).
  repeat apply conj.
  - intros Hcl Hin. unfold bury_session_st.
    rewrite bind_assert_st_true by done.
    rewrite bind_assert_true by (by apply bool_decide_eq_true_2).
    unfold bind at 1, deref_session. rewrite Hs, Hcl.
    unfold bind, assert_st, assert_, mgmt_retryq_contains_st.
    by rewrite bool_decide_eq_true_2.
  - intros Hq Hlen Hha Hlsn w1.
    destruct (free_all_fields (pre_resp_buffers 0 kSessionReqWindow s) w)
      as (Hsv & _ & Hh & _).
    repeat apply conj.
    + unfold bury_session_st.
      rewrite bind_assert_st_true by done.
      rewrite bind_assert_true by (by apply bool_decide_eq_true_2).
      unfold bind at 1, deref_session. rewrite Hs.
      assert ((if is_client s
               then assert_st "rpc.cc" 126
                      (λ w0 : World App, negb (mgmt_retryq_contains_st (Some p) w0))
               else ret tt) w = Ret tt w) as Hguard.
      { unfold assert_st, assert_, mgmt_retryq_contains_st.
        destruct (is_client s); [|done].
        by rewrite bool_decide_eq_false_2 by (by apply Hq). }
      unfold bind at 1. rewrite Hguard.
      unfold bind at 1.
      rewrite (proj2 (free_loop_Ret s kSessionReqWindow 0 w w1)) by done.
      unfold bind, session_vec_at_put. fold w1.
      subst w1. rewrite Hsv. by rewrite bool_decide_eq_false_2 by lia.
    + subst w1. by rewrite Hh.
    + done.
    + apply free_all_huge_alloc.
  - unfold bury_session_st. rewrite bind_assert_st_true by done.
    by rewrite bind_assert_F.
Qed.

(** X4: the response handler on a well-formed session table.  However it
    ends, the table is well formed afterwards; and when it stops, it stops
    at one of its own assertions: no session pointer dangles, nothing is
    thrown, and no assertion of [bury_session_st] fails. *)
Theorem handle_disconnect_resp_st_keeps_table (sm_pkt : SessionMgmtPkt) (w : World App) :
  endpoint_wf kSessionReqWindow w →
  let o := handle_disconnect_resp_st session_mgmt_handler gettid kSessionReqWindow
             sm_pkt w in
  endpoint_wf kSessionReqWindow (final o) ∧
  (∀ h w1, o = Stop h w1 →
     ∃ line, h = AssertionFailed "rpc_disconnect_handlers.cc" line).
Proof.
  intros Hwf o.
  assert (Ho0 : o = handle_disconnect_resp_st session_mgmt_handler gettid
                      kSessionReqWindow sm_pkt w) by reflexivity.
  assert (Ho : o = handle_disconnect_resp_st session_mgmt_handler gettid
                     kSessionReqWindow sm_pkt w) by reflexivity.
  clearbody o.
  unfold handle_disconnect_resp_st in Ho. cbv zeta in Ho.
  step_assert Ho; [|rewrite Ho; split; [done|intros ? ? [= <- <-]; by eauto]].
  step_assert Ho; [|rewrite Ho; split; [done|intros ? ? [= <- <-]; by eauto]].
  step_assert Ho; [|rewrite Ho; split; [done|intros ? ? [= <- <-]; by eauto]].
  step_assert Ho; [|rewrite Ho; split; [done|intros ? ? [= <- <-]; by eauto]].
  apply bool_decide_eq_true in Hb, Hb0, Hb2.
  unfold bind at 1, session_vec_index in Ho.
  destruct (session_vec w !! ep_session_num (client sm_pkt)) as [[p|]|] eqn:Hslot.
  - destruct Hwf as (Hha & Hslots & Hq).
    destruct (Hslots _ _ Hslot) as (s & Hs & Hnum & Hlen).
    unfold bind at 1, deref_session in Ho. rewrite Hs in Ho.
    step_assert Ho; [|rewrite Ho; split; [done|intros ? ? [= <- <-]; by eauto]].
    step_assert Ho; [|rewrite Ho; split; [done|intros ? ? [= <- <-]; by eauto]].
    unfold mgmt_retryq_remove_st in Ho. rewrite bind_modify in Ho.
    assert (endpoint_wf kSessionReqWindow
              (with_mgmt_retryq (filter (λ q, q ≠ p) (mgmt_retryq w)) w)) as Hwf1.
    { apply (endpoint_wf_ext w); try done.
      intros q Hin. simpl in Hin. by apply list_elem_of_filter in Hin as [_ ?]. }
    step_assert Ho; [|rewrite Ho; split; [done|intros ? ? [= <- <-]; by eauto]].
    step_assert Ho; [|rewrite Ho; split; [done|intros ? ? [= <- <-]; by eauto]].
    step_assert Ho; [|rewrite Ho; split; [done|intros ? ? [= <- <-]; by eauto]].
    clear Ho.
    unfold mgmt_retryq_contains_st in Hb4.
    apply bool_decide_eq_true in Hb3, Hb4, Hb5, Hb6, Hb7.
    rewrite (handle_disconnect_resp_st_returns _ _ _ sm_pkt w p s) in Ho0; try done.
    2:{ rewrite Hnum. by apply lookup_lt_Some in Hslot. }
    subst o. split; [|intros h w1 Hx; discriminate Hx].
    simpl.
    destruct (after_callback_fields session_mgmt_handler s (disconnected_world p w))
      as (Hcsv & Hcq & Hch & Hcha & _).
    apply (endpoint_wf_bury w).
    + done.
    + simpl. by rewrite Hnum.
    + by rewrite Hcsv.
    + intros q Hqp. rewrite Hch. simpl. by rewrite lookup_alter_ne.
    + intros q. rewrite Hcq. simpl. intros Hin.
      by apply list_elem_of_filter in Hin as [? ?].
    + by rewrite Hcha.
  - unfold mgmt_retryq_contains_st in Ho. simpl in Ho. clear Ho0. subst o. simpl.
    split; [|intros h w1 Hx; discriminate Hx].
    destruct Hwf as (Hha & Hslots & Hq). by apply (endpoint_wf_ext w).
  - apply lookup_ge_None in Hslot. lia.
Qed.

(** X5: the request handler on a well-formed session table.  However it
    ends, the table is well formed afterwards; and when it stops, it stops
    at one of its own assertions with nothing changed, the response not
    sent: [session_vec.at] does not throw, no session pointer dangles, and
    no assertion of [bury_session_st] fails. *)
Theorem handle_disconnect_req_st_keeps_table (sm_pkt : SessionMgmtPkt) (w : World App) :
  endpoint_wf kSessionReqWindow w →
  let o := handle_disconnect_req_st gettid kSessionReqWindow sm_pkt w in
  endpoint_wf kSessionReqWindow (final o) ∧
  (∀ h w1, o = Stop h w1 →
     w1 = w ∧ ∃ line, h = AssertionFailed "rpc_disconnect_handlers.cc" line).
Proof.
  intros Hwf o.
  assert (Ho : o = handle_disconnect_req_st gettid kSessionReqWindow sm_pkt w)
    by reflexivity.
  clearbody o.
  unfold handle_disconnect_req_st in Ho. cbv zeta in Ho.
  step_assert Ho; [|rewrite Ho; split; [done|intros ? ? [= <- <-]; by eauto]].
  step_assert Ho; [|rewrite Ho; split; [done|intros ? ? [= <- <-]; by eauto]].
  step_assert Ho; [|rewrite Ho; split; [done|intros ? ? [= <- <-]; by eauto]].
  step_assert Ho; [|rewrite Ho; split; [done|intros ? ? [= <- <-]; by eauto]].
  step_assert Ho; [|rewrite Ho; split; [done|intros ? ? [= <- <-]; by eauto]].
  apply bool_decide_eq_true in Hb, Hb3.
  unfold bind at 1, session_vec_at in Ho.
  destruct (session_vec w !! ep_session_num (server sm_pkt)) as [[p|]|] eqn:Hslot.
  - pose proof Hwf as (Hha & Hslots & Hq).
    destruct (Hslots _ _ Hslot) as (s & Hs & Hnum & Hlen).
    unfold bind at 1, deref_session in Ho. rewrite Hs in Ho.
    step_assert Ho; [|rewrite Ho; split; [done|intros ? ? [= <- <-]; by eauto]].
    step_assert Ho; [|rewrite Ho; split; [done|intros ? ? [= <- <-]; by eauto]].
    step_assert Ho; [|rewrite Ho; split; [done|intros ? ? [= <- <-]; by eauto]].
    unfold bind at 1 in Ho.
    destruct (quiescent_loop_safe s kSessionReqWindow 0 w _ eq_refl Hlen)
      as [Hrun|[line Hrun]];
      rewrite Hrun in Ho.
    2:{ rewrite Ho; split; [done|intros ? ? [= <- <-]; by eauto]. }
    unfold erpc_dprintf, send_resp_mut in Ho. rewrite !bind_modify in Ho.
    fold (responded_world sm_pkt w) in Ho.
    assert (is_client s = false) as Hcl.
    { unfold is_server, is_client in *. apply bool_decide_eq_true in Hb4.
      apply bool_decide_eq_false_2. congruence. }
    assert (bury_session_st gettid kSessionReqWindow (Some p) (responded_world sm_pkt w)
            = Ret tt (after_bury kSessionReqWindow p s (responded_world sm_pkt w)))
      as Hbury.
    { apply bury_session_st_Ret. exists s. repeat apply conj; try done.
      - by rewrite Hcl.
      - simpl. rewrite Hnum. by apply lookup_lt_Some in Hslot. }
    rewrite Hbury in Ho. subst o. split; [|intros h w1 Hx; discriminate Hx].
    simpl. apply (endpoint_wf_bury w); try done.
    + by rewrite Hnum.
    + intros q Hin. split; [done|]. intros ->.
      destruct (Hq _ Hin) as (s' & Hs' & Hcl'). congruence.
  - unfold erpc_dprintf, send_resp_mut in Ho. rewrite !bind_modify in Ho.
    subst o. simpl. split; [|intros h w1 Hx; discriminate Hx].
    destruct Hwf as (Hha & Hslots & Hq). by apply (endpoint_wf_ext w).
  - apply lookup_ge_None in Hslot. lia.
Qed.

(** X6: the response handler is idempotent.  Once a disconnect response has
    been handled on a well-formed table, handling the same response again,
    any number of times, returns each time and only logs that the session
    is already disconnected: over all the copies the callback has been
    invoked at most once. *)
Theorem handle_disconnect_resp_st_idempotent
    (sm_pkt : SessionMgmtPkt) (w w1 : World App) (n : nat) :
  endpoint_wf kSessionReqWindow w →
  handle_disconnect_resp_st session_mgmt_handler gettid kSessionReqWindow sm_pkt w
    = Ret tt w1 →
  let w_n := with_output
               (output w1 ++
                replicate n (EvDprintf "Client session is already disconnected.")) w1 in
  replay n sm_pkt
    (handle_disconnect_resp_st session_mgmt_handler gettid kSessionReqWindow) w1
  = Ret tt w_n ∧
  sm_callbacks (output w_n) = sm_callbacks (output w1) ∧
  length (sm_callbacks (output w_n)) ≤ length (sm_callbacks (output w)) + 1.
Proof.
  intros Hwf Hrun w_n.
  destruct (handle_disconnect_resp_st_Ret_cases _ _ _ Hrun)
    as (Htid & Hty & Hvalid & Hcases).
  assert (sm_callbacks (output w_n) = sm_callbacks (output w1)) as Hcb.
  { unfold w_n. simpl. apply sm_callbacks_replicate_dprintf. }
  assert (session_vec w1 !! ep_session_num (client sm_pkt) = Some None ∧
          creator_os_tid w1 = creator_os_tid w) as [Hslot1 Htid1].
  { destruct Hcases as [[Hslot ->]|(p & s & Hslot & Hs & ->)]; [done|].
    destruct Hwf as (_ & Hslots & _).
    destruct (Hslots _ _ Hslot) as (s' & Hs' & Hnum & _).
    assert (s' = s) as -> by congruence.
    destruct (free_all_fields
                (pre_resp_buffers 0 kSessionReqWindow (set_state kDisconnectedState s))
                (after_callback session_mgmt_handler s (disconnected_world p w)))
      as (Hsv & _ & _ & _ & _ & _ & _ & Hcr & _).
    destruct (after_callback_fields session_mgmt_handler s (disconnected_world p w))
      as (Hcsv & _ & _ & _ & Hccr & _).
    unfold after_bury, with_heap, with_session_vec.
    cbn [session_vec creator_os_tid].
    rewrite ?Hsv, ?Hcr, Hcsv, Hccr. simpl. rewrite Hnum.
    split; [|done]. apply list_lookup_insert_eq. by apply lookup_lt_Some in Hslot. }
  repeat apply conj.
  - apply replay_disconnect_resp_dup; try done. congruence.
  - done.
  - rewrite Hcb.
    destruct (handle_disconnect_resp_st_events sm_pkt w) as (evs & Hout & _ & Hlen).
    rewrite Hrun in Hout. simpl in Hout. rewrite Hout, sm_callbacks_app, length_app. lia.
Qed.

(** X7: a retransmitted disconnect request.  Once a disconnect request has
    been handled on a well-formed table, handling the same request again,
    any number of times, returns each time, sends each time the [kNoError]
    response again, and changes neither the session vector, nor the
    sessions, nor the retry queue, nor the allocator, nor the
    application. *)
Theorem handle_disconnect_req_st_retransmitted
    (sm_pkt : SessionMgmtPkt) (w w1 : World App) (n : nat) :
  endpoint_wf kSessionReqWindow w →
  handle_disconnect_req_st gettid kSessionReqWindow sm_pkt w = Ret tt w1 →
  ∃ w_n,
    replay n sm_pkt (handle_disconnect_req_st gettid kSessionReqWindow) w1 = Ret tt w_n ∧
    sm_pkts_sent (output w_n)
    = sm_pkts_sent (output w) ++ replicate (S n) (resp_of kNoError sm_pkt) ∧
    sm_callbacks (output w_n) = sm_callbacks (output w) ∧
    session_vec w_n = session_vec w1 ∧ heap w_n = heap w1 ∧
    mgmt_retryq w_n = mgmt_retryq w ∧ huge_alloc w_n = huge_alloc w1 ∧
    context w_n = context w.
Proof.
  intros Hwf Hrun.
  destruct (handle_disconnect_req_st_Ret_cases _ _ _ Hrun)
    as ((Htid & Hty & Hid & Hhost) & Hcases).
  pose proof (handle_disconnect_req_st_sent _ _ _ _ _ Hrun) as Hsent1.
  assert (session_vec w1 !! ep_session_num (server sm_pkt) = Some None ∧
          (rpc_id w1 = rpc_id w ∧ creator_os_tid w1 = creator_os_tid w ∧
           nexus w1 = nexus w ∧ mgmt_retryq w1 = mgmt_retryq w ∧
           context w1 = context w) ∧
          sm_callbacks (output w1) = sm_callbacks (output w)) as (Hslot1 & Hsame & Hcb1).
  { destruct Hcases as [[Hslot ->]|(p & s & Hslot & Hs & ->)].
    - split; [done|]. split; [done|]. simpl. rewrite !sm_callbacks_app. simpl.
      by rewrite !app_nil_r.
    - destruct Hwf as (_ & Hslots & _).
      destruct (Hslots _ _ Hslot) as (s' & Hs' & Hnum & _).
      assert (s' = s) as -> by congruence.
      destruct (free_all_fields (pre_resp_buffers 0 kSessionReqWindow s)
                  (responded_world sm_pkt w))
        as (Hsv & Hq & _ & Hc & Hout & Hnx & Hid' & Hcr & Htr).
      unfold after_bury, with_heap, with_session_vec.
      cbn [session_vec creator_os_tid rpc_id nexus transport mgmt_retryq context output].
      rewrite ?Hsv, ?Hq, ?Hc, ?Hout, ?Hnx, ?Hid', ?Hcr, ?Htr. simpl. rewrite Hnum.
      split; [|split; [done|]].
      + apply list_lookup_insert_eq. by apply lookup_lt_Some in Hslot.
      + rewrite !sm_callbacks_app. simpl. by rewrite !app_nil_r. }
  destruct Hsame as (Hid1 & Hcr1 & Hnx1 & Hq1 & Hc1).
  destruct (replay_disconnect_req_dup sm_pkt n w1)
    as (w_n & Hrep & Hsent & Hcb & Hsv & Hh & Hq & Hha & Hc); [done| |].
  { unfold disconnect_req_pre. rewrite Hid1, Hcr1, Hnx1. done. }
  exists w_n. repeat apply conj; try done; try congruence.
  rewrite Hsent, Hsent1, <- app_assoc. done.
Qed.

(** X8: the response handler sends nothing.  However it ends, it has put no
    session-management datagram on the wire, and it has invoked the
    callback at most once. *)
Theorem handle_disconnect_resp_st_sends_nothing (sm_pkt : SessionMgmtPkt) (w : World App) :
  let o := handle_disconnect_resp_st session_mgmt_handler gettid kSessionReqWindow
             sm_pkt w in
  sm_pkts_sent (output (final o)) = sm_pkts_sent (output w) ∧
  length (sm_callbacks (output (final o))) ≤ length (sm_callbacks (output w)) + 1.
Proof.
  intros o.
  destruct (handle_disconnect_resp_st_events sm_pkt w) as (evs & Hout & Hsent & Hlen).
  fold o in Hout. rewrite Hout. split.
  - by rewrite sm_pkts_sent_app, Hsent, app_nil_r.
  - rewrite sm_callbacks_app, length_app. lia.
Qed.

(** X9: the request handler never calls the application, and it answers
    before it buries.  However it ends, no session-management callback has
    been invoked, the application's state and the retry queue are as they
    were, and at most the one [kNoError] response has been sent.  Its run
    is one of three: what the handler checks of the packet and of the
    session does not hold, and it stops with nothing changed and nothing
    sent; or the slot is empty and it logs and answers the duplicate; or
    the slot holds a session and the run is the burial of that session
    started in the world in which the response is already out.  So the response is sent
    before the session is buried: a burial that stops, whatever it has
    released by then, leaves the response sent and the session object and
    the session vector as they were, and a handler that stops has either
    changed nothing or already sent its response. *)
Theorem handle_disconnect_req_st_never_calls_back (sm_pkt : SessionMgmtPkt) (w : World App) :
  let o := handle_disconnect_req_st gettid kSessionReqWindow sm_pkt w in
  let sent := sm_pkts_sent (output w) ++ [resp_of kNoError sm_pkt] in
  let accepted :=
    disconnect_req_pre gettid sm_pkt w ∧
    (session_vec w !! ep_session_num (server sm_pkt) = Some None ∨
     ∃ p s, session_vec w !! ep_session_num (server sm_pkt) = Some (Some p) ∧
            heap w !! p = Some s ∧ role s = kServerRole ∧
            s_server s = server sm_pkt ∧ s_client s = client sm_pkt ∧
            ∀ i, i < kSessionReqWindow →
              ∃ sslot, sslot_arr s !! i = Some sslot ∧ quiescent sslot = true) in
  sm_callbacks (output (final o)) = sm_callbacks (output w) ∧
  context (final o) = context w ∧
  mgmt_retryq (final o) = mgmt_retryq w ∧
  (sm_pkts_sent (output (final o)) = sm_pkts_sent (output w) ∨
   sm_pkts_sent (output (final o)) = sent) ∧
  (∀ h w1, o = Stop h w1 → session_vec w1 = session_vec w ∧ heap w1 = heap w) ∧
  (* the three runs *)
  ((¬ accepted ∧ ∃ h, o = Stop h w)
   ∨ (session_vec w !! ep_session_num (server sm_pkt) = Some None ∧
      o = Ret tt (emit (EvSmPktSent (resp_of kNoError sm_pkt))
                    (emit (EvDprintf "Duplicate disconnect request. Sending response.")
                          w)))
   ∨ (∃ p s,
        session_vec w !! ep_session_num (server sm_pkt) = Some (Some p) ∧
        heap w !! p = Some s ∧
        o = bury_session_st gettid kSessionReqWindow (Some p)
              (responded_world sm_pkt w) ∧
        sm_pkts_sent (output (responded_world sm_pkt w)) = sent ∧
        heap (responded_world sm_pkt w) !! p = Some s ∧
        sm_pkts_sent (output (final o)) = sent)) ∧
  (* a stop that follows any effect follows the response *)
  (∀ h w1, o = Stop h w1 → w1 = w ∨ sm_pkts_sent (output w1) = sent) ∧
  (∀ h w1, o = Stop h w1 → huge_alloc w1 ≠ huge_alloc w →
     sm_pkts_sent (output w1) = sent).
Proof.
  intros o sent accepted.
  assert (sm_pkts_sent (output (responded_world sm_pkt w)) = sent) as Hresp.
  { unfold responded_world. simpl. rewrite !sm_pkts_sent_app. simpl.
    by rewrite app_nil_r. }
  destruct (handle_disconnect_req_st_outcome gettid kSessionReqWindow sm_pkt w)
    as [(_ & Hnone & Ho)|[(p & s & _ & Hslot & Hs & _ & _ & _ & _ & Ho)|[Hnot [h Ho]]]];
    fold o in Ho.
  - rewrite Ho. simpl.
    split; [|split; [|split; [|split; [|split; [|split; [|split]]]]]]; try done.
    + rewrite !sm_callbacks_app. simpl. by rewrite !app_nil_r.
    + right. rewrite !sm_pkts_sent_app. simpl. by rewrite app_nil_r.
    + right; left. done.
  - assert (sm_pkts_sent (output (final o)) = sent) as Hfinal.
    { rewrite Ho, bury_session_st_final. exact Hresp. }
    assert (∀ h w1, o = Stop h w1 → sm_pkts_sent (output w1) = sent) as Hstop.
    { intros h w1 Hx. rewrite Hx in Hfinal. exact Hfinal. }
    assert (sm_callbacks (output (final o)) = sm_callbacks (output w) ∧
            context (final o) = context w ∧
            mgmt_retryq (final o) = mgmt_retryq w ∧
            (∀ h w1, o = Stop h w1 →
               session_vec w1 = session_vec w ∧ heap w1 = heap w)) as (H1 & H2 & H3 & H4).
    { destruct (bury_session_st_cases (Some p) (responded_world sm_pkt w))
        as [(p' & s' & _ & _ & Hb)|(h & m & Hb)]; rewrite <- Ho in Hb; rewrite Hb; simpl.
      - destruct (free_all_fields (pre_resp_buffers 0 kSessionReqWindow s')
                    (responded_world sm_pkt w))
          as (_ & Hq & _ & Hc & Hout & _).
        unfold after_bury, with_heap, with_session_vec.
        cbn [mgmt_retryq context output].
        rewrite ?Hq, ?Hc, ?Hout. simpl. split; [|split; [|split]]; try done.
        rewrite !sm_callbacks_app. simpl. by rewrite !app_nil_r.
      - destruct (free_all_fields m (responded_world sm_pkt w))
          as (Hsv & Hq & Hh & Hc & Hout & _).
        rewrite Hq, Hc, Hout. simpl. split; [|split; [|split]]; try done.
        + rewrite !sm_callbacks_app. simpl. by rewrite !app_nil_r.
        + intros h' w1 [= <- <-]. by rewrite Hsv, Hh. }
    split; [exact H1|]. split; [exact H2|]. split; [exact H3|].
    split; [by right|]. split; [exact H4|]. split; [|split].
    + right; right. exists p, s. done.
    + intros h w1 Hx. right. by eapply Hstop.
    + intros h w1 Hx _. by eapply Hstop.
  - rewrite Ho. simpl.
    split; [|split; [|split; [|split; [|split; [|split; [|split]]]]]]; try done.
    + by left.
    + by intros h' w1 [= <- <-].
    + left. split; [exact Hnot|by exists h].
    + intros h' w1 [= <- <-]. by left.
    + by intros h' w1 [= <- <-] Hne.
Qed.

End EndpointInvariants.

(** * The endpoint from construction to destruction *)

Section Lifecycle.
Context {App : Type}.
Variable gettid : nat.
Variable kSessionReqWindow : size_t.
Variable kDatapathChecks : bool.
Variable kMaxPhyPorts : size_t.
Variable kMaxNumaNodes : size_t.
Variable getuid : nat.
Variable hugepage_init_error : option string.

Local Open Scope m_scope.

Lemma filter_ne_notin (id : nat) (l : list nat) :
  id ∉ l → filter (λ h, h ≠ id) l = l.
Proof.
  induction l as [|x l IH]; intros Hnot; [done|].
  apply not_elem_of_cons in Hnot as [Hne Hnot].
  rewrite filter_cons_True by done. by rewrite IH.
Qed.

(** The constructor on arguments that pass its checks, up to the
    transport's initialisation. *)
Lemma Rpc_ctor_valid_run (nx : Nexus) (context_arg : App)
    (rpc_id_arg phy_port_arg : uint8) (numa_node_arg : size_t) :
  getuid = 0 → rpc_id_arg ≠ kInvalidRpcId → rpc_id_arg ∉ reg_hooks nx →
  phy_port_arg < kMaxPhyPorts → numa_node_arg < kMaxNumaNodes →
  Rpc_ctor (App := App) gettid kMaxPhyPorts kMaxNumaNodes getuid hugepage_init_error
           (Some nx) context_arg rpc_id_arg phy_port_arg numa_node_arg
  = let built tr ha nx' out :=
      mkWorld rpc_id_arg phy_port_arg numa_node_arg gettid
              (bool_decide (0 < num_bg_threads nx)) false [] [] ha tr nx' ∅
              context_arg out in
    match hugepage_init_error with
    | Some what =>
        CtorStopped (Thrown (runtime_error what))
          (built (Some (mkTransport rpc_id_arg phy_port_arg false)) None nx [])
    | None =>
        Constructed
          (built (Some (mkTransport rpc_id_arg phy_port_arg true))
                 (Some (mkHugeAlloc numa_node_arg []))
                 (register_hook rpc_id_arg nx) [EvDprintf "eRPC Rpc: Created."])
    end.
Proof.
  intros Huid Hinv Hnew Hport Hnuma.
  unfold Rpc_ctor, Rpc_ctor_body, throw.
  unfold bind at 1. rewrite bool_decide_eq_false_2 by (intros ?; done).
  unfold ret at 1. unfold bind at 1, ret at 1. unfold bind at 1, get.
  cbn [rpc_id phy_port numa_node nexus].
  unfold bind at 1, rpc_id_exists.
  rewrite (bool_decide_eq_false_2 (rpc_id_arg = kInvalidRpcId)) by done.
  rewrite (bool_decide_eq_false_2 (rpc_id_arg ∈ reg_hooks nx)) by done.
  cbn [orb]. unfold ret at 1.
  unfold bind at 1. rewrite bool_decide_eq_false_2 by lia. unfold ret at 1.
  unfold bind at 1. rewrite bool_decide_eq_false_2 by lia. unfold ret at 1.
  rewrite !bind_modify.
  destruct hugepage_init_error as [what|]; reflexivity.
Qed.

(** X10: the transport's initialisation fails.  With arguments that pass
    the constructor's checks, a [std::runtime_error] thrown by
    [init_hugepage_structures] leaves the constructor as it was thrown,
    after the allocator has been deleted; the transport allocated at line
    58 is not deleted, no hook has been registered with the Nexus, and
    nothing has been logged. *)
Theorem Rpc_ctor_hugepage_init_fails (nx : Nexus) (context_arg : App)
    (rpc_id_arg phy_port_arg : uint8) (numa_node_arg : size_t) (what : string) :
  getuid = 0 → rpc_id_arg ≠ kInvalidRpcId → rpc_id_arg ∉ reg_hooks nx →
  phy_port_arg < kMaxPhyPorts → numa_node_arg < kMaxNumaNodes →
  hugepage_init_error = Some what →
  ∃ w,
    Rpc_ctor (App := App) gettid kMaxPhyPorts kMaxNumaNodes getuid hugepage_init_error
             (Some nx) context_arg rpc_id_arg phy_port_arg numa_node_arg
    = CtorStopped (Thrown (runtime_error what)) w ∧
    huge_alloc w = None ∧
    transport w = Some (mkTransport rpc_id_arg phy_port_arg false) ∧
    nexus w = nx ∧
    rpc_id_exists rpc_id_arg (nexus w) = false ∧
    output w = [].
Proof.
  intros Huid Hinv Hnew Hport Hnuma Herr.
  rewrite Rpc_ctor_valid_run by done. rewrite Herr. cbv zeta.
  eexists. split; [reflexivity|]. simpl. repeat apply conj; try done.
  unfold rpc_id_exists. by apply bool_decide_eq_false_2.
Qed.

(** X11: construction, then destruction.  An endpoint built by the
    constructor has an empty, well-formed session table and is not in its
    event loop; its destructor, run by the thread that built it, goes
    through whatever [kDatapathChecks] is, deletes the allocator and the
    transport, and leaves the Nexus with exactly the hooks it had before
    the construction. *)
Theorem Rpc_ctor_dtor_round_trip (nx : Nexus) (context_arg : App)
    (rpc_id_arg phy_port_arg : uint8) (numa_node_arg : size_t) :
  getuid = 0 → rpc_id_arg ≠ kInvalidRpcId → rpc_id_arg ∉ reg_hooks nx →
  phy_port_arg < kMaxPhyPorts → numa_node_arg < kMaxNumaNodes →
  hugepage_init_error = None →
  ∃ w w',
    Rpc_ctor (App := App) gettid kMaxPhyPorts kMaxNumaNodes getuid hugepage_init_error
             (Some nx) context_arg rpc_id_arg phy_port_arg numa_node_arg
    = Constructed w ∧
    session_vec w = [] ∧ mgmt_retryq w = [] ∧ in_event_loop w = false ∧
    endpoint_wf kSessionReqWindow w ∧
    rpc_id_exists rpc_id_arg (nexus w) = true ∧
    Rpc_dtor gettid kDatapathChecks w = Ret tt w' ∧
    huge_alloc w' = None ∧ transport w' = None ∧
    nexus w' = nx.
Proof.
  intros Huid Hinv Hnew Hport Hnuma Herr.
  rewrite Rpc_ctor_valid_run by done. rewrite Herr. cbv zeta.
  eexists. eexists. split; [reflexivity|].
  split; [done|]. split; [done|]. split; [done|]. split.
  { split; [simpl; eauto|]. split.
    - intros i p Hi. simpl in Hi. by rewrite lookup_nil in Hi.
    - intros p Hin. simpl in Hin. by apply elem_of_nil in Hin. }
  split.
  { unfold rpc_id_exists. apply bool_decide_eq_true_2. simpl.
    apply elem_of_app. right. constructor. }
  unfold Rpc_dtor. unfold bind at 1, get, in_creator.
  cbn [creator_os_tid in_event_loop].
  rewrite bool_decide_eq_true_2 by done. cbn [negb].
  rewrite andb_false_r.
  unfold erpc_dprintf. rewrite !bind_modify.
  split; [reflexivity|]. simpl. split; [done|]. split; [done|].
  unfold unregister_hook, register_hook. simpl.
  rewrite filter_app, filter_ne_notin by done.
  rewrite filter_cons_False by (intros Hx; by apply Hx).
  rewrite filter_nil, app_nil_r. by destruct nx.
Qed.

(** X12: the destructor frees no session.  However it ends, the session
    vector, the sessions and the retry queue are as they were: the loop of
    lines 100-104 only looks at the entries. *)
Theorem Rpc_dtor_leaves_sessions (w : World App) :
  let o := Rpc_dtor gettid kDatapathChecks w in
  session_vec (final o) = session_vec w ∧
  heap (final o) = heap w ∧
  mgmt_retryq (final o) = mgmt_retryq w ∧
  context (final o) = context w ∧
  sm_callbacks (output (final o)) = sm_callbacks (output w) ∧
  sm_pkts_sent (output (final o)) = sm_pkts_sent (output w).
Proof.
  intros o.
  assert (∀ msg (w1 : World App),
            session_vec w1 = session_vec w → heap w1 = heap w →
            mgmt_retryq w1 = mgmt_retryq w → context w1 = context w →
            output w1 = output w ++ [EvDprintf msg] →
            session_vec w1 = session_vec w ∧ heap w1 = heap w ∧
            mgmt_retryq w1 = mgmt_retryq w ∧ context w1 = context w ∧
            sm_callbacks (output w1) = sm_callbacks (output w) ∧
            sm_pkts_sent (output w1) = sm_pkts_sent (output w)) as Hlog.
  { intros msg w1 ? ? ? ? ->. repeat apply conj; try done.
    - apply sm_callbacks_dprintf.
    - rewrite sm_pkts_sent_app. apply app_nil_r. }
  assert (Ho : o = Rpc_dtor gettid kDatapathChecks w) by reflexivity.
  clearbody o. unfold Rpc_dtor in Ho. unfold bind at 1, get in Ho.
  destruct (in_creator gettid w); cbn [negb] in Ho.
  - destruct (kDatapathChecks && in_event_loop w); rewrite Ho; by eapply Hlog.
  - rewrite Ho. by eapply Hlog.
Qed.

End Lifecycle.

(** * Draining the session-management inbox *)

Section SessionManagementProofs.
Context {App : Type}.
Variable session_mgmt_handler :
  uint16 → SessionMgmtEventType → SessionMgmtErrType → World App → App.
Variable gettid : nat.
Variable kSessionReqWindow : size_t.
Variable handle_connect_req_st : SessionMgmtPkt → M (World App) unit.
Variable handle_connect_resp_st : SessionMgmtPkt → M (World App) unit.

Local Open Scope m_scope.

Local Abbreviation handle_pkt :=
  (sm_handle_pkt session_mgmt_handler gettid kSessionReqWindow
                 handle_connect_req_st handle_connect_resp_st).
Local Abbreviation drain :=
  (handle_session_management_st session_mgmt_handler gettid kSessionReqWindow
                                handle_connect_req_st handle_connect_resp_st).
Local Abbreviation loop_body :=
  (λ sm_pkt : SessionMgmtPkt,
     on_world (sm_check_sender sm_pkt);;
     on_world (sm_dispatch session_mgmt_handler gettid kSessionReqWindow
                           handle_connect_req_st handle_connect_resp_st sm_pkt);;
     modify (free_sm_pkt (App := App) sm_pkt)).

Lemma sm_handle_pkt_cons (pkt : SessionMgmtPkt) (pkts : list SessionMgmtPkt)
    (w : World App) :
  for_each (pkt :: pkts) handle_pkt w
  = match sm_check_sender pkt w with
    | Ret _ w1 =>
        match sm_dispatch session_mgmt_handler gettid kSessionReqWindow
                          handle_connect_req_st handle_connect_resp_st pkt w1 with
        | Ret _ w2 => for_each pkts handle_pkt w2
        | Stop h w2 => Stop h w2
        end
    | Stop h w1 => Stop h w1
    end.
Proof.
  simpl. unfold sm_handle_pkt at 1. unfold bind.
  destruct (sm_check_sender pkt w) as [[] w1|h w1]; [|done].
  by destruct (sm_dispatch _ _ _ _ _ pkt w1) as [[] w2|h w2].
Qed.

Lemma sm_loop_body_cons (pkt : SessionMgmtPkt) (pkts : list SessionMgmtPkt)
    (st : SmState App) :
  for_each (pkt :: pkts) loop_body st
  = match sm_check_sender pkt (sm_world st) with
    | Ret _ w1 =>
        match sm_dispatch session_mgmt_handler gettid kSessionReqWindow
                          handle_connect_req_st handle_connect_resp_st pkt w1 with
        | Ret _ w2 =>
            for_each pkts loop_body
                     (mkSmState w2 (sm_pkt_list st) (sm_freed st ++ [pkt]))
        | Stop h w2 => Stop h (mkSmState w2 (sm_pkt_list st) (sm_freed st))
        end
    | Stop h w1 => Stop h (mkSmState w1 (sm_pkt_list st) (sm_freed st))
    end.
Proof.
  simpl. unfold bind, on_world.
  destruct (sm_check_sender pkt (sm_world st)) as [[] w1|h w1]; [|done]. simpl.
  by destruct (sm_dispatch _ _ _ _ _ pkt w1) as [[] w2|h w2].
Qed.

(** The loop of lines 151-181 over the larger state, by the loop over the
    endpoint: the inbox is not touched, the packets handled in full are
    freed in order, and the endpoint goes through the handlers. *)
Lemma sm_loop_outcome (pkts : list SessionMgmtPkt) (st : SmState App) :
  let o := for_each pkts loop_body st in
  sm_pkt_list (final o) = sm_pkt_list st ∧
  (∃ k, k ≤ length pkts ∧ sm_freed (final o) = sm_freed st ++ take k pkts ∧
        match o with Ret _ _ => k = length pkts | Stop _ _ => k < length pkts end) ∧
  match o with
  | Ret _ st' => for_each pkts handle_pkt (sm_world st) = Ret tt (sm_world st')
  | Stop h st' => for_each pkts handle_pkt (sm_world st) = Stop h (sm_world st')
  end.
Proof.
  revert st. induction pkts as [|pkt pkts IH]; intros st; cbv zeta.
  - simpl. split; [done|]. split; [|done]. exists 0. by rewrite app_nil_r.
  - rewrite sm_loop_body_cons, sm_handle_pkt_cons.
    destruct (sm_check_sender pkt (sm_world st)) as [[] w1|h w1] eqn:Hchk.
    2:{ simpl. split; [done|]. split; [|done]. exists 0. rewrite app_nil_r.
        split; [lia|]. split; [done|lia]. }
    destruct (sm_dispatch _ _ _ _ _ pkt w1) as [[] w2|h w2] eqn:Hdis.
    2:{ simpl. split; [done|]. split; [|done]. exists 0. rewrite app_nil_r.
        split; [lia|]. split; [done|lia]. }
    specialize (IH (mkSmState w2 (sm_pkt_list st) (sm_freed st ++ [pkt]))).
    cbv zeta in IH. simpl in IH. destruct IH as (Hl & (k & Hk & Hfreed & Hcase) & Hw).
    split; [done|]. split; [|done].
    exists (S k). simpl. split; [lia|]. split.
    + rewrite Hfreed. by rewrite <- app_assoc.
    + destruct (for_each pkts _ _); lia.
Qed.

Lemma drain_unfold (st : SmState App) :
  drain st
  = if bool_decide (gettid = creator_os_tid (sm_world st)) then
      if bool_decide (0 < mt_size (sm_pkt_list st)) then
        match for_each (mt_list (sm_pkt_list st)) loop_body
                       (with_sm_pkt_list (mt_lock (sm_pkt_list st)) st) with
        | Ret _ st2 =>
            Ret tt (with_sm_pkt_list (mt_unlock (locked_clear (sm_pkt_list st2))) st2)
        | Stop h st2 => Stop h st2
        end
      else Stop (AssertionFailed "rpc.cc" 147) st
    else Stop (AssertionFailed "rpc.cc" 146) st.
Proof.
  destruct st as [w l freed]. unfold handle_session_management_st.
  unfold bind at 1, on_world at 1, assert_st at 1, in_creator. simpl.
  destruct (bool_decide (gettid = creator_os_tid w)); simpl; [|done].
  unfold bind at 1, get at 1. simpl.
  destruct (bool_decide (0 < mt_size l)); [rewrite bind_assert_T|by rewrite bind_assert_F].
  rewrite bind_modify. unfold bind at 1. unfold with_sm_pkt_list at 1. simpl.
  destruct (for_each (mt_list l) _ _) as [[] st2|h st2]; [|done].
  by rewrite !bind_modify.
Qed.

Lemma drain_returns_intro (st : SmState App) (w' : World App) :
  gettid = creator_os_tid (sm_world st) →
  0 < mt_size (sm_pkt_list st) →
  for_each (mt_list (sm_pkt_list st)) handle_pkt (sm_world st) = Ret tt w' →
  drain st
  = Ret tt (mkSmState w' (mkMtList [] 0 false)
                      (sm_freed st ++ mt_list (sm_pkt_list st))).
Proof.
  intros Htid Hsize Hrun. rewrite drain_unfold.
  rewrite !bool_decide_eq_true_2 by done.
  pose proof (sm_loop_outcome (mt_list (sm_pkt_list st))
                (with_sm_pkt_list (mt_lock (sm_pkt_list st)) st)) as Hloop.
  cbv zeta in Hloop.
  destruct (for_each (mt_list (sm_pkt_list st)) loop_body _) as [[] st2|h st2];
    simpl in Hloop; destruct Hloop as (Hl & (k & Hk & Hfreed & Hcase) & Hw);
    rewrite Hw in Hrun; [|discriminate].
  injection Hrun as <-. subst k. rewrite firstn_all in Hfreed.
  destruct st2 as [w2 l2 freed2]. simpl in *.
  unfold with_sm_pkt_list. simpl. by rewrite Hl, Hfreed.
Qed.

(** X13: a drain of the inbox that goes through.  The drain returns exactly
    when it is run by the creator thread on an inbox that is not empty and
    every packet passes the check of its sender and its handler returns,
    each run in the world the packets before it left.  It then leaves the
    endpoint as the handlers left it, has freed every packet of the inbox
    once, in order, and leaves the inbox empty, of size 0 and unlocked. *)
Theorem handle_session_management_st_returns (st st' : SmState App) :
  drain st = Ret tt st'
  ↔ gettid = creator_os_tid (sm_world st) ∧
    0 < mt_size (sm_pkt_list st) ∧
    for_each (mt_list (sm_pkt_list st)) handle_pkt (sm_world st)
      = Ret tt (sm_world st') ∧
    sm_freed st' = sm_freed st ++ mt_list (sm_pkt_list st) ∧
    sm_pkt_list st' = mkMtList [] 0 false.
Proof.
  rewrite drain_unfold.
  pose proof (sm_loop_outcome (mt_list (sm_pkt_list st))
                (with_sm_pkt_list (mt_lock (sm_pkt_list st)) st)) as Hloop.
  cbv zeta in Hloop.
  case_bool_decide as Htid; [|split; [discriminate|by intros (? & _)]].
  case_bool_decide as Hsize; [|split; [discriminate|by intros (_ & ? & _)]].
  destruct (for_each (mt_list (sm_pkt_list st)) loop_body _) as [[] st2|h st2];
    simpl in Hloop; destruct Hloop as (Hl & (k & Hk & Hfreed & Hcase) & Hw).
  - subst k. rewrite firstn_all in Hfreed. split.
    + intros [= <-]. simpl. by rewrite Hl.
    + intros (_ & _ & Hrun & Hfr & Hlist). f_equal.
      destruct st' as [w' l' freed'], st2 as [w2 l2 freed2]. simpl in *.
      rewrite Hw in Hrun. injection Hrun as ->.
      unfold with_sm_pkt_list. simpl. by rewrite Hl, Hfreed, Hfr, Hlist.
  - split; [discriminate|]. intros (_ & _ & Hrun & _). rewrite Hw in Hrun. discriminate.
Qed.

(** Where the loop of lines 151-181 stops: at the first packet whose check
    or handler stops, the packets before it handled and freed. *)
Lemma sm_loop_Stop (pkts : list SessionMgmtPkt) (st st' : SmState App) (h : Halt) :
  for_each pkts loop_body st = Stop h st' →
  ∃ k sm_pkt w_k,
    pkts !! k = Some sm_pkt ∧
    for_each (take k pkts) handle_pkt (sm_world st) = Ret tt w_k ∧
    handle_pkt sm_pkt w_k = Stop h (sm_world st') ∧
    sm_freed st' = sm_freed st ++ take k pkts ∧
    sm_pkt_list st' = sm_pkt_list st.
Proof.
  revert st. induction pkts as [|pkt pkts IH]; intros st Hrun; [discriminate|].
  rewrite sm_loop_body_cons in Hrun.
  destruct (sm_check_sender pkt (sm_world st)) as [[] w1|h1 w1] eqn:Hchk.
  2:{ injection Hrun as <- <-. exists 0, pkt, (sm_world st). simpl.
      rewrite app_nil_r. repeat apply conj; try done.
      unfold sm_handle_pkt, bind. by rewrite Hchk. }
  destruct (sm_dispatch _ _ _ _ _ pkt w1) as [[] w2|h2 w2] eqn:Hdis.
  2:{ injection Hrun as <- <-. exists 0, pkt, (sm_world st). simpl.
      rewrite app_nil_r. repeat apply conj; try done.
      unfold sm_handle_pkt, bind. by rewrite Hchk, Hdis. }
  apply IH in Hrun as (k & sm_pkt & w_k & Hk & Hpre & Hstop & Hfreed & Hlist).
  simpl in Hpre, Hfreed, Hlist.
  exists (S k), sm_pkt, w_k. repeat apply conj; try done.
  - change (take (S k) (pkt :: pkts)) with (pkt :: take k pkts).
    by rewrite sm_handle_pkt_cons, Hchk, Hdis.
  - rewrite Hfreed, <- app_assoc. done.
Qed.

(** X14: a drain of the inbox that does not go through.  It stops at the
    assertions of lines 146 and 147 with nothing changed when the thread is
    not the creator or the inbox is empty.  Otherwise it stops at the first
    packet whose check of the sender or whose handler stops: the packets
    before that one have been handled, each in the world it was left, and
    exactly these have been freed, in order; that packet has not been
    freed; and the inbox is left locked and still holds every packet, the
    freed ones included. *)
Theorem handle_session_management_st_stops (st : SmState App) (h : Halt)
    (st' : SmState App) :
  drain st = Stop h st' →
  (gettid ≠ creator_os_tid (sm_world st) ∧ h = AssertionFailed "rpc.cc" 146 ∧ st' = st)
  ∨ (gettid = creator_os_tid (sm_world st) ∧ mt_size (sm_pkt_list st) = 0 ∧
     h = AssertionFailed "rpc.cc" 147 ∧ st' = st)
  ∨ (for_each (mt_list (sm_pkt_list st)) handle_pkt (sm_world st)
       = Stop h (sm_world st') ∧
     sm_pkt_list st' = mt_lock (sm_pkt_list st) ∧
     mt_list (sm_pkt_list st') = mt_list (sm_pkt_list st) ∧
     mt_locked (sm_pkt_list st') = true ∧
     ∃ k sm_pkt w_k,
       (* the packet at which the loop stops *)
       mt_list (sm_pkt_list st) !! k = Some sm_pkt ∧
       k < length (mt_list (sm_pkt_list st)) ∧
       for_each (take k (mt_list (sm_pkt_list st))) handle_pkt (sm_world st)
         = Ret tt w_k ∧
       handle_pkt sm_pkt w_k = Stop h (sm_world st') ∧
       (* the packets before it, and only they, are freed *)
       sm_freed st' = sm_freed st ++ take k (mt_list (sm_pkt_list st)) ∧
       length (sm_freed st') = length (sm_freed st) + k).
Proof.
  rewrite drain_unfold.
  pose proof (sm_loop_outcome (mt_list (sm_pkt_list st))
                (with_sm_pkt_list (mt_lock (sm_pkt_list st)) st)) as Hloop.
  cbv zeta in Hloop.
  case_bool_decide as Htid; [|intros [= <- <-]; by left].
  case_bool_decide as Hsize; [|intros [= <- <-]; right; left; repeat split; (done || lia)].
  destruct (for_each (mt_list (sm_pkt_list st)) loop_body _) as [[] st2|h2 st2] eqn:Hrun;
    simpl in Hloop; destruct Hloop as (Hl & _ & Hw);
    [discriminate|].
  intros [= <- <-]. right; right. rewrite Hl.
  apply sm_loop_Stop in Hrun as (k & sm_pkt & w_k & Hk & Hpre & Hstop & Hfreed & _).
  simpl in Hpre, Hfreed.
  repeat apply conj; try done.
  exists k, sm_pkt, w_k. pose proof (lookup_lt_Some _ _ _ Hk) as Hlt.
  repeat apply conj; try done.
  rewrite Hfreed, length_app, length_take. lia.
Qed.

(** X15: the check of the sender.  A request whose client endpoint, or a
    response whose server endpoint, names this very Rpc (the host name of
    its Nexus and its RpcId) stops at the assertion of line 154, or 157,
    before any handler is called; any other packet goes to its handler.
    So a disconnect request whose client and server are the same endpoint
    is never handled: it fails this check or the handler's own check of
    the server fields. *)
Theorem sm_check_sender_self (sm_pkt : SessionMgmtPkt) (w : World App) :
  let self ep := ep_hostname ep = nx_hostname (nexus w) ∧ ep_rpc_id ep = rpc_id w in
  let sender := if session_mgmt_pkt_type_is_req (pkt_type sm_pkt)
                then client sm_pkt else server sm_pkt in
  (self sender →
     handle_pkt sm_pkt w
     = Stop (AssertionFailed "rpc.cc"
               (if session_mgmt_pkt_type_is_req (pkt_type sm_pkt) then 154 else 157)) w) ∧
  (¬ self sender →
     handle_pkt sm_pkt w
     = sm_dispatch session_mgmt_handler gettid kSessionReqWindow
                   handle_connect_req_st handle_connect_resp_st sm_pkt w) ∧
  (pkt_type sm_pkt = kDisconnectReq → client sm_pkt = server sm_pkt →
     ∃ file line, handle_pkt sm_pkt w = Stop (AssertionFailed file line) w).
Proof.
  intros self sender.
  assert (self sender →
     handle_pkt sm_pkt w
     = Stop (AssertionFailed "rpc.cc"
               (if session_mgmt_pkt_type_is_req (pkt_type sm_pkt) then 154 else 157)) w)
    as Hself.
  { intros [Hhost Hid]. unfold sm_handle_pkt, sm_check_sender, bind, assert_st, assert_.
    subst sender. destruct (session_mgmt_pkt_type_is_req (pkt_type sm_pkt));
      by rewrite !bool_decide_eq_true_2. }
  assert (¬ self sender →
     handle_pkt sm_pkt w
     = sm_dispatch session_mgmt_handler gettid kSessionReqWindow
                   handle_connect_req_st handle_connect_resp_st sm_pkt w) as Hother.
  { intros Hnot. unfold sm_handle_pkt, sm_check_sender, bind, assert_st, assert_.
    subst sender self. cbv beta in Hnot.
    destruct (session_mgmt_pkt_type_is_req (pkt_type sm_pkt)).
    - destruct (bool_decide (ep_hostname (client sm_pkt) = nx_hostname (nexus w))) eqn:H1;
        [|done].
      destruct (bool_decide (ep_rpc_id (client sm_pkt) = rpc_id w)) eqn:H2; [|done].
      apply bool_decide_eq_true in H1, H2. by destruct Hnot.
    - destruct (bool_decide (ep_hostname (server sm_pkt) = nx_hostname (nexus w))) eqn:H1;
        [|done].
      destruct (bool_decide (ep_rpc_id (server sm_pkt) = rpc_id w)) eqn:H2; [|done].
      apply bool_decide_eq_true in H1, H2. by destruct Hnot. }
  split; [done|]. split; [done|].
  intros Hty Heq.
  destruct (decide (ep_hostname (client sm_pkt) = nx_hostname (nexus w) ∧
                    ep_rpc_id (client sm_pkt) = rpc_id w)) as [Hs|Hs].
  - exists "rpc.cc", 154.
    rewrite Hself; subst sender self; rewrite Hty; simpl; done.
  - rewrite Hother by (subst sender self; rewrite Hty; simpl; done).
    unfold sm_dispatch. rewrite Hty.
    remember (handle_disconnect_req_st gettid kSessionReqWindow sm_pkt w) as o eqn:Ho.
    unfold handle_disconnect_req_st in Ho. cbv zeta in Ho.
    step_assert Ho; [|by eauto].
    step_assert Ho; [|by eauto].
    step_assert Ho; [|by eauto].
    step_assert Ho; [|by eauto].
    apply bool_decide_eq_true in Hb1, Hb2. destruct Hs. by rewrite Heq.
Qed.

Lemma sm_check_sender_pass (sm_pkt : SessionMgmtPkt) (w : World App) :
  pkt_type sm_pkt = kDisconnectResp →
  ¬ (ep_hostname (server sm_pkt) = nx_hostname (nexus w) ∧
     ep_rpc_id (server sm_pkt) = rpc_id w) →
  sm_check_sender sm_pkt w = Ret tt w.
Proof.
  intros Hty Hnot. unfold sm_check_sender, assert_st, assert_. rewrite Hty. simpl.
  destruct (bool_decide (ep_hostname (server sm_pkt) = nx_hostname (nexus w))) eqn:H1;
    [|done].
  destruct (bool_decide (ep_rpc_id (server sm_pkt) = rpc_id w)) eqn:H2; [|done].
  apply bool_decide_eq_true in H1, H2. by destruct Hnot.
Qed.

Lemma replay_handle_pkt_resp_dup (sm_pkt : SessionMgmtPkt) (n : nat) (w : World App) :
  session_vec w !! ep_session_num (client sm_pkt) = Some None →
  gettid = creator_os_tid w →
  pkt_type sm_pkt = kDisconnectResp →
  session_mgmt_err_type_is_valid (err_type sm_pkt) = true →
  ¬ (ep_hostname (server sm_pkt) = nx_hostname (nexus w) ∧
     ep_rpc_id (server sm_pkt) = rpc_id w) →
  for_each (replicate n sm_pkt) handle_pkt w
  = Ret tt (with_output
              (output w ++
               replicate n (EvDprintf "Client session is already disconnected.")) w).
Proof.
  revert w. induction n as [|n IH]; intros w Hslot Htid Hty Hvalid Hnot.
  - simpl. rewrite app_nil_r. by destruct w.
  - change (replicate (S n) sm_pkt) with (sm_pkt :: replicate n sm_pkt).
    rewrite sm_handle_pkt_cons, sm_check_sender_pass by done.
    unfold sm_dispatch. rewrite Hty.
    rewrite handle_disconnect_resp_st_dup_step by done.
    rewrite IH by done. simpl. by rewrite <- app_assoc.
Qed.

(** X16: a disconnect response and its retransmissions in one drain.  On a
    well-formed table, an inbox that holds a valid disconnect response for
    a session in [kDisconnectInProgress], followed by any number of copies
    of it, is drained to the end: the session is buried, its entry is empty
    and it has left the retry queue; the application's callback has been
    invoked once, or not at all when callbacks are disabled for the
    session, never once per copy; every copy has been freed and the inbox
    is empty. *)
Theorem handle_session_management_st_disconnect_responses
    (st : SmState App) (sm_pkt : SessionMgmtPkt) (p : SessionPtr) (s : Session)
    (n : nat) :
  endpoint_wf kSessionReqWindow (sm_world st) →
  gettid = creator_os_tid (sm_world st) →
  mt_list (sm_pkt_list st) = replicate (S n) sm_pkt →
  mt_size (sm_pkt_list st) = S n →
  ¬ (ep_hostname (server sm_pkt) = nx_hostname (nexus (sm_world st)) ∧
     ep_rpc_id (server sm_pkt) = rpc_id (sm_world st)) →
  pkt_type sm_pkt = kDisconnectResp →
  err_type sm_pkt = kNoError →
  session_vec (sm_world st) !! ep_session_num (client sm_pkt) = Some (Some p) →
  heap (sm_world st) !! p = Some s →
  state s = kDisconnectInProgress →
  p ∈ mgmt_retryq (sm_world st) →
  s_server s = server sm_pkt →
  s_client s = client sm_pkt →
  ∃ st',
    drain st = Ret tt st' ∧
    sm_callbacks (output (sm_world st'))
    = sm_callbacks (output (sm_world st)) ++
      (if sm_callbacks_disabled (client_info s) then []
       else [EvSmCallback (ep_session_num (client sm_pkt)) kDisconnected kNoError]) ∧
    sm_pkts_sent (output (sm_world st')) = sm_pkts_sent (output (sm_world st)) ∧
    session_vec (sm_world st') !! ep_session_num (client sm_pkt) = Some None ∧
    heap (sm_world st') !! p = None ∧
    (p ∉ mgmt_retryq (sm_world st')) ∧
    endpoint_wf kSessionReqWindow (sm_world st') ∧
    sm_freed st' = sm_freed st ++ replicate (S n) sm_pkt ∧
    sm_pkt_list st' = mkMtList [] 0 false.
Proof.
  intros Hwf Htid Hlist Hsize Hnot Hty Herr Hslot Hs Hstate Hin Hsrv Hclt.
  set (w := sm_world st) in *.
  pose proof Hwf as (Hha & Hslots & Hq).
  destruct (Hslots _ _ Hslot) as (s' & Hs' & Hnum & Hlen).
  assert (s' = s) as -> by congruence.
  set (w0 := after_callback session_mgmt_handler s (disconnected_world p w)).
  set (w1 := after_bury kSessionReqWindow p (set_state kDisconnectedState s) w0).
  assert (handle_disconnect_resp_st session_mgmt_handler gettid kSessionReqWindow
            sm_pkt w = Ret tt w1) as Hfirst.
  { apply handle_disconnect_resp_st_returns; try done.
    rewrite Hnum. by apply lookup_lt_Some in Hslot. }
  destruct (after_callback_fields session_mgmt_handler s (disconnected_world p w))
    as (Hcsv & Hcq & Hch & Hcha & Hccr & Hccb & Hcsent).
  fold w0 in Hcsv, Hcq, Hch, Hcha, Hccr, Hccb, Hcsent.
  assert (nexus w0 = nexus w ∧ rpc_id w0 = rpc_id w) as [Hcnx Hcid].
  { unfold w0, after_callback. by destruct (sm_callbacks_disabled (client_info s)). }
  destruct (free_all_fields
              (pre_resp_buffers 0 kSessionReqWindow (set_state kDisconnectedState s)) w0)
    as (Hfsv & Hfq & Hfh & _ & Hfout & Hfnx & Hfid & Hfcr & _).
  assert (session_vec w1 = <[ep_session_num (client sm_pkt) := None]> (session_vec w) ∧
          heap w1 = delete p (heap w) ∧
          mgmt_retryq w1 = filter (λ q, q ≠ p) (mgmt_retryq w) ∧
          output w1 = output w0 ∧ nexus w1 = nexus w ∧ rpc_id w1 = rpc_id w ∧
          creator_os_tid w1 = creator_os_tid w) as (Hsv1 & Hh1 & Hq1 & Hout1 & Hnx1 & Hid1 & Hcr1).
  { unfold w1, after_bury, with_heap, with_session_vec.
    cbn [session_vec heap mgmt_retryq output nexus rpc_id creator_os_tid].
    rewrite ?Hfsv, ?Hfq, ?Hfh, ?Hfout, ?Hfnx, ?Hfid, ?Hfcr.
    rewrite Hcsv, Hcq, Hch, Hcnx, Hcid, Hccr. simpl. rewrite Hnum.
    repeat apply conj; try done. by rewrite delete_alter_eq. }
  assert (session_vec w1 !! ep_session_num (client sm_pkt) = Some None) as Hslot1.
  { rewrite Hsv1. apply list_lookup_insert_eq. by apply lookup_lt_Some in Hslot. }
  set (w_n := with_output
                (output w1 ++
                 replicate n (EvDprintf "Client session is already disconnected.")) w1).
  assert (for_each (mt_list (sm_pkt_list st)) handle_pkt w = Ret tt w_n) as Hrun.
  { rewrite Hlist. change (replicate (S n) sm_pkt) with (sm_pkt :: replicate n sm_pkt).
    rewrite sm_handle_pkt_cons, sm_check_sender_pass by done.
    unfold sm_dispatch. rewrite Hty, Hfirst.
    apply replay_handle_pkt_resp_dup; try done.
    - congruence.
    - by rewrite Herr.
    - by rewrite Hnx1, Hid1. }
  exists (mkSmState w_n (mkMtList [] 0 false)
                    (sm_freed st ++ mt_list (sm_pkt_list st))).
  split.
  { apply drain_returns_intro; [done|lia|done]. }
  cbn [sm_world sm_freed sm_pkt_list].
  assert (endpoint_wf kSessionReqWindow w1) as Hwf1.
  { apply (endpoint_wf_bury kSessionReqWindow w); try done.
    - simpl. by rewrite Hnum.
    - intros q Hqp. rewrite Hch. simpl. by rewrite lookup_alter_ne.
    - intros q. rewrite Hcq. simpl. intros Hin'.
      by apply list_elem_of_filter in Hin' as [? ?].
    - by rewrite Hcha. }
  change (output w_n)
    with (output w1 ++
          replicate n (EvDprintf "Client session is already disconnected.")).
  change (session_vec w_n) with (session_vec w1).
  change (heap w_n) with (heap w1).
  change (mgmt_retryq w_n) with (mgmt_retryq w1).
  split; [|split; [|split; [|split; [|split; [|split; [|split]]]]]].
  - rewrite sm_callbacks_replicate_dprintf, Hout1, Hccb. by rewrite Hnum.
  - rewrite sm_pkts_sent_app, Hout1, Hcsent.
    assert (sm_pkts_sent
              (replicate n (EvDprintf "Client session is already disconnected.")) = [])
      as ->; [|by rewrite app_nil_r].
    clear. induction n as [|n IH]; [done|exact IH].
  - done.
  - rewrite Hh1. apply lookup_delete_eq.
  - rewrite Hq1. intros Hin'.
    by apply list_elem_of_filter in Hin' as [? _].
  - destruct Hwf1 as (? & ? & ?). by apply (endpoint_wf_ext kSessionReqWindow w1).
  - by rewrite Hlist.
  - done.
Qed.

End SessionManagementProofs.

(** * The background worker beyond one drain *)

Section BgThreadProofs.
Context {App : Type}.
Variable run_req_func : FuncPtr → SSlotPtr → CtxPtr → UserMem App → UserMem App.
Variable run_cont_func : FuncPtr → SSlotPtr → CtxPtr → nat → UserMem App → UserMem App.
Variable debug_check_bg_rx_msgbuf : SSlot → BgWorkItemType → bool.

Local Open Scope m_scope.

Local Abbreviation run_item :=
  (bg_run_work_item run_req_func run_cont_func debug_check_bg_rx_msgbuf).
Local Abbreviation drain :=
  (bg_drain run_req_func run_cont_func debug_check_bg_rx_msgbuf).
Local Abbreviation loop :=
  (bg_loop run_req_func run_cont_func debug_check_bg_rx_msgbuf).
Local Abbreviation thread_func :=
  (bg_thread_func run_req_func run_cont_func debug_check_bg_rx_msgbuf).

(** How the handling of one work item can stop: before anything was called,
    with the world as it was; or at the release of the rx buffer of a
    request whose handler has removed the slot. *)
Lemma bg_run_work_item_Stop (req_func_arr : list ReqFunc) (item : BgWorkItem)
    (w w1 : BgWorld App) (h : Halt) :
  run_item req_func_arr item w = Stop h w1 →
  w1 = w
  ∨ (∃ p ctx f,
       wi_type item = kReq ∧ wi_sslot item = Some p ∧ wi_context item = Some ctx ∧
       h = DanglingDeref "sslot" ∧
       w1 = with_mem (run_req_func f p ctx (mem w)) (bg_emit (BgReqFunc f p ctx) w) ∧
       sslots (mem w1) !! p = None).
Proof.
  intros Hrun.
  destruct (bg_run_work_item_outcome run_req_func run_cont_func debug_check_bg_rx_msgbuf
              req_func_arr item w)
    as [[h' Ho]|[(p & sslot & ctx & f & Hp & Hs & Hctx & Hty & Ho)
                |(p & sslot & ctx & Hp & Hs & Hctx & Hty & Ho)]];
    rewrite Hrun in Ho.
  - left. by injection Ho.
  - right. exists p, ctx, f.
    unfold bury_sslot_rx_msgbuf, bind, deref_sslot in Ho.
    destruct (sslots (mem (with_mem _ _)) !! p) eqn:Hl; [discriminate|].
    injection Ho as -> ->. done.
  - discriminate.
Qed.

(** The trace and the list over the handling of one work item, however it
    ends. *)
Lemma bg_run_work_item_any (req_func_arr : list ReqFunc) (item : BgWorkItem)
    (w : BgWorld App) :
  let o := run_item req_func_arr item w in
  bg_req_list (final o) = bg_req_list w ∧
  ∃ evs, trace (final o) = trace w ++ evs ∧ list_ops evs = [] ∧ length (calls evs) ≤ 1.
Proof.
  intros o. destruct o as [[] w1|h w1] eqn:Ho; subst o; simpl.
  - apply bg_run_work_item_Ret in Ho as (evs & c & _ & Ht & Hc & Hl & Hq).
    split; [done|]. exists evs. rewrite Hc. simpl. repeat split; (done || lia).
  - apply bg_run_work_item_Stop in Ho as [->|(p & ctx & f & _ & _ & _ & _ & -> & _)].
    + split; [done|]. exists []. rewrite app_nil_r. simpl. repeat split; (done || lia).
    + split; [done|]. exists [BgReqFunc f p ctx]. simpl. repeat split; (done || lia).
Qed.

Lemma for_each_work_items_any (req_func_arr : list ReqFunc) (items : list BgWorkItem)
    (w : BgWorld App) :
  let o := for_each items (run_item req_func_arr) w in
  bg_req_list (final o) = bg_req_list w ∧
  ∃ evs, trace (final o) = trace w ++ evs ∧ list_ops evs = [] ∧
         length (calls evs) ≤ length items.
Proof.
  revert w. induction items as [|item items IH]; intros w; cbv zeta.
  - simpl. split; [done|]. exists []. rewrite app_nil_r. simpl. repeat split; (done || lia).
  - simpl. unfold bind.
    destruct (bg_run_work_item_any req_func_arr item w) as (Hq & evs1 & Ht & Hl & Hc).
    cbv zeta in Hq, Ht.
    destruct (run_item req_func_arr item w) as [[] w1|h w1]; simpl in Hq, Ht.
    + destruct (IH w1) as (Hq2 & evs2 & Ht2 & Hl2 & Hc2). cbv zeta in Hq2, Ht2.
      split; [congruence|]. exists (evs1 ++ evs2).
      rewrite Ht2, Ht, <- app_assoc, list_ops_app, Hl, Hl2, calls_app, length_app.
      repeat split; (done || lia).
    + simpl. split; [done|]. exists evs1. repeat split; (done || lia).
Qed.

Lemma bg_drain_Ret (req_func_arr : list ReqFunc) (w w' : BgWorld App) :
  drain req_func_arr w = Ret tt w' →
  ∃ evs,
    trace w' = trace w ++ [BgLock] ++ evs ++ [BgLockedClear; BgUnlock] ∧
    Some <$> calls evs = item_call <$> mt_list (bg_req_list w) ∧
    bg_req_list w' = mkMtList [] 0 false ∧
    cur_tiny_tid w' = cur_tiny_tid w ∧ tiny_tid w' = tiny_tid w.
Proof.
  intros Hrun. unfold bg_drain in Hrun. rewrite bind_modify in Hrun.
  unfold bind at 1, get in Hrun.
  step_assert Hrun; [|discriminate].
  apply bind_Ret_inv in Hrun as ([] & w1 & Hitems & Hrest).
  assert (cur_tiny_tid w1 = cur_tiny_tid w ∧ tiny_tid w1 = tiny_tid w) as [Hc1 Ht1].
  { clear Hrest Hb. simpl in Hitems.
    set (w0 := bg_emit BgLock (with_bg_req_list (mt_lock (bg_req_list w)) w)) in *.
    change (cur_tiny_tid w) with (cur_tiny_tid w0).
    change (tiny_tid w) with (tiny_tid w0).
    clearbody w0. revert w0 Hitems.
    induction (mt_list (bg_req_list w)) as [|item items IH]; intros w0 Hitems.
    - simpl in Hitems. by injection Hitems as ->.
    - simpl in Hitems. apply bind_Ret_inv in Hitems as ([] & w2 & Hitem & Hrest).
      apply IH in Hrest as [-> ->].
      destruct (bg_run_work_item_outcome run_req_func run_cont_func
                  debug_check_bg_rx_msgbuf req_func_arr item w0)
        as [[h' Ho]|[(p & sslot & ctx & f & Hp & Hs & Hctx & Hty & Ho)
                    |(p & sslot & ctx & Hp & Hs & Hctx & Hty & Ho)]];
        rewrite Hitem in Ho; [discriminate| |by injection Ho as ->].
      unfold bury_sslot_rx_msgbuf, bind, deref_sslot in Ho.
      destruct (sslots (mem (with_mem _ _)) !! p); [|discriminate].
      by injection Ho as ->. }
  apply for_each_work_items_Ret in Hitems as (evs & Ht & Hc & Hl & Hq).
  simpl in *. rewrite !bind_modify in Hrest. injection Hrest as <-.
  exists evs. simpl. rewrite Ht, Hq. simpl.
  repeat apply conj; try done. by rewrite <- !app_assoc.
Qed.

Lemma producers_push_locked (items : list BgWorkItem) (l : MtList BgWorkItem) :
  mt_locked l = false →
  mt_locked (foldl (λ l x, mt_push x l) l items) = false.
Proof.
  revert l. induction items as [|x items IH]; intros l Hl; simpl; [done|].
  by apply IH.
Qed.

Lemma producers_push_empty (items : list BgWorkItem) (l : MtList BgWorkItem) :
  mt_list l = [] → mt_size l = 0 → mt_locked l = false →
  foldl (λ l x, mt_push x l) l items = mkMtList items (length items) false.
Proof.
  intros Hl Hs Hk.
  destruct (producers_push_list items l) as [H1 H2].
  pose proof (producers_push_locked items l Hk) as H3.
  destruct (foldl _ l items) as [l' s' k']. simpl in *.
  rewrite Hl in H1. rewrite Hs in H2. simpl in *. by subst.
Qed.

(** The loop, when it returns, from an empty list: some turn saw the kill
    switch; before it every turn slept or drained what had been pushed;
    what was pushed in the last turn is still in the list. *)
Lemma bg_loop_Ret (req_func_arr : list ReqFunc) (sched : list Tick) (w w' : BgWorld App) :
  bg_req_list w = mkMtList [] 0 false →
  loop req_func_arr sched w = Ret tt w' →
  ∃ pre t post evs,
    sched = pre ++ t :: post ∧
    Forall (λ t, kill t = false) pre ∧ kill t = true ∧
    trace w' = trace w ++ evs ∧
    Some <$> calls evs = item_call <$> concat (pushed <$> pre) ∧
    bg_req_list w' = mkMtList (pushed t) (length (pushed t)) false ∧
    cur_tiny_tid w' = cur_tiny_tid w ∧ tiny_tid w' = tiny_tid w.
Proof.
  revert w. induction sched as [|t rest IH]; intros w Hempty Hrun; [discriminate|].
  simpl in Hrun. unfold producers_push in Hrun. rewrite bind_modify in Hrun.
  rewrite Hempty in Hrun.
  rewrite (producers_push_empty (pushed t) (mkMtList [] 0 false)) in Hrun by done.
  destruct (kill t) eqn:Hkill.
  - injection Hrun as <-. exists [], t, rest, []. simpl. rewrite app_nil_r.
    repeat apply conj; try done.
  - unfold bind at 1, get in Hrun. cbn [bg_req_list with_bg_req_list mt_size] in Hrun.
    case_bool_decide as Hsz.
    + rewrite bind_modify in Hrun.
      apply IH in Hrun as (pre & t' & post & evs & -> & Hpre & Hk & Ht & Hc & Hq & Hct & Htt).
      2:{ simpl. destruct (pushed t); [done|discriminate]. }
      exists (t :: pre), t', post, (BgUsleep :: evs). simpl in *.
      repeat apply conj; try done.
      * by constructor.
      * by rewrite Ht, <- app_assoc.
      * destruct (pushed t); [done|discriminate].
    + apply bind_Ret_inv in Hrun as ([] & w2 & Hdrain & Hrest).
      apply bg_drain_Ret in Hdrain as (evs1 & Ht1 & Hc1 & Hq1 & Hct1 & Htt1).
      apply IH in Hrest as (pre & t' & post & evs & -> & Hpre & Hk & Ht & Hc & Hq & Hct & Htt);
        [|done].
      exists (t :: pre), t', post, ([BgLock] ++ evs1 ++ [BgLockedClear; BgUnlock] ++ evs).
      assert (calls ([BgLock] ++ evs1 ++ [BgLockedClear; BgUnlock] ++ evs)
              = calls evs1 ++ calls evs) as Hcalls.
      { rewrite !calls_app. done. }
      rewrite Hcalls. clear Hcalls.
      simpl in *. repeat apply conj; try done.
      * by constructor.
      * rewrite Ht, Ht1. simpl. rewrite <- app_assoc. simpl. by rewrite <- app_assoc.
      * rewrite !fmap_app, Hc1, Hc. done.
      * congruence.
      * congruence.
Qed.

(** Without a turn that sees the kill switch the loop does not return. *)
Lemma bg_loop_no_kill (req_func_arr : list ReqFunc) (sched : list Tick) (w : BgWorld App) :
  Forall (λ t, kill t = false) sched →
  ∃ h w', loop req_func_arr sched w = Stop h w'.
Proof.
  revert w. induction sched as [|t rest IH]; intros w Hall; [by eexists _, _|].
  apply Forall_cons in Hall as [Hk Hall].
  simpl. unfold producers_push. rewrite bind_modify, Hk.
  unfold bind at 1, get. case_bool_decide.
  - rewrite bind_modify. by apply IH.
  - unfold bind at 1. destruct (drain req_func_arr _) as [[] w2|h w2]; [|by eauto].
    by apply IH.
Qed.

(** The loop of an idle worker. *)
Lemma bg_loop_idle (req_func_arr : list ReqFunc) (k : nat) (items : list BgWorkItem)
    (post : list Tick) (w : BgWorld App) :
  bg_req_list w = mkMtList [] 0 false →
  loop req_func_arr (replicate k (mkTick [] false) ++ mkTick items true :: post) w
  = Ret tt (mkBgWorld (cur_tiny_tid w) (tiny_tid w)
                      (mkMtList items (length items) false) (mem w)
                      (trace w ++ replicate k BgUsleep)).
Proof.
  revert w. induction k as [|k IH]; intros w Hempty.
  - simpl. unfold producers_push. rewrite bind_modify. unfold ret.
    rewrite Hempty, (producers_push_empty items (mkMtList [] 0 false)) by done.
    by rewrite app_nil_r.
  - simpl. unfold producers_push. rewrite bind_modify. simpl.
    unfold bind at 1, get. simpl. rewrite Hempty. simpl.
    rewrite bind_modify. rewrite IH by done. simpl. by rewrite <- app_assoc.
Qed.

(** X17: the worker checks before it calls.  When the handling of a work
    item stops, nothing has been called and nothing has changed, with one
    exception: a request whose handler has removed the slot makes the
    release of the rx buffer that follows it dereference a dangling slot.
    The handling of a continuation never stops once the continuation has
    been called. *)
Theorem bg_run_work_item_checks_first (req_func_arr : list ReqFunc) (item : BgWorkItem)
    (w w1 : BgWorld App) (h : Halt) :
  run_item req_func_arr item w = Stop h w1 →
  (w1 = w
   ∨ (∃ p ctx f,
        wi_type item = kReq ∧ wi_sslot item = Some p ∧ wi_context item = Some ctx ∧
        h = DanglingDeref "sslot" ∧
        w1 = with_mem (run_req_func f p ctx (mem w)) (bg_emit (BgReqFunc f p ctx) w) ∧
        sslots (mem w1) !! p = None)) ∧
  (wi_type item = kResp → w1 = w) ∧
  bg_req_list w1 = bg_req_list w.
Proof.
  intros Hrun. pose proof (bg_run_work_item_Stop _ _ _ _ _ Hrun) as Hcases.
  split; [done|]. split.
  - intros Hty. destruct Hcases as [?|(p & ctx & f & Hty' & _)]; [done|congruence].
  - destruct Hcases as [->|(p & ctx & f & _ & _ & _ & _ & -> & _)]; done.
Qed.

(** X18: a drain that does not go through.  When a drain stops, at the
    assertion of line 43 or in the handling of an item, the list is left
    locked and holds every item it held, the handled ones included; the
    worker has neither cleared nor unlocked it, and it has called at most
    one callback per item. *)
Theorem bg_drain_stops_locked (req_func_arr : list ReqFunc) (w w' : BgWorld App)
    (h : Halt) :
  drain req_func_arr w = Stop h w' →
  bg_req_list w' = mt_lock (bg_req_list w) ∧
  mt_locked (bg_req_list w') = true ∧
  mt_list (bg_req_list w') = mt_list (bg_req_list w) ∧
  (mt_size (bg_req_list w) = 0 → h = AssertionFailed "nexus_bg_thread.cc" 43) ∧
  ∃ evs, trace w' = trace w ++ [BgLock] ++ evs ∧
         list_ops evs = [] ∧
         length (calls evs) ≤ length (mt_list (bg_req_list w)).
Proof.
  intros Hrun. unfold bg_drain in Hrun. rewrite bind_modify in Hrun.
  unfold bind at 1, get in Hrun.
  cbn [bg_req_list bg_emit with_trace with_bg_req_list mt_lock mt_size mt_list] in Hrun.
  step_assert Hrun.
  - apply bool_decide_eq_true in Hb.
    set (w0 := bg_emit BgLock (with_bg_req_list (mt_lock (bg_req_list w)) w)) in Hrun.
    destruct (for_each_work_items_any req_func_arr (mt_list (bg_req_list w)) w0)
      as (Hq & evs & Ht & Hl & Hc).
    cbv zeta in Hq, Ht. unfold bind at 1 in Hrun.
    destruct (for_each _ _ w0) as [[] w2|h2 w2]; [by rewrite !bind_modify in Hrun|].
    injection Hrun as <- <-. simpl in Hq, Ht. rewrite Hq, Ht. simpl.
    repeat apply conj; try done.
    + lia.
    + exists evs. by rewrite <- app_assoc.
  - injection Hrun as <- <-. simpl. repeat apply conj; try done.
    exists []. simpl. repeat split; (done || lia).
Qed.

(** X19: how the worker's thread ends.  When the thread function returns,
    the tiny thread id it was given equals its index; some turn of the loop
    saw the kill switch set and no turn before it did; between the two log
    lines the worker called one callback for each item pushed in the turns
    before that one, in the order of the pushes; and the items pushed in
    the turn that saw the kill switch are still in the list, not run. *)
Theorem bg_thread_func_returns (bg_thread_index : size_t) (req_func_arr : list ReqFunc)
    (sched : list Tick) (w w' : BgWorld App) :
  bg_req_list w = mkMtList [] 0 false →
  thread_func bg_thread_index req_func_arr sched w = Ret tt w' →
  bg_thread_index = cur_tiny_tid w ∧
  tiny_tid w' = Some bg_thread_index ∧
  ∃ pre t post evs,
    sched = pre ++ t :: post ∧
    Forall (λ t, kill t = false) pre ∧ kill t = true ∧
    trace w' = trace w ++ [BgDprintf "eRPC Nexus: Background thread running."] ++ evs ++
               [BgDprintf "eRPC Nexus: Background thread exiting."] ∧
    Some <$> calls evs = item_call <$> concat (pushed <$> pre) ∧
    bg_req_list w' = mkMtList (pushed t) (length (pushed t)) false.
Proof.
  intros Hempty Hrun. unfold bg_thread_func in Hrun.
  unfold tls_registry_init in Hrun. rewrite bind_modify in Hrun.
  unfold bind at 1, get_tiny_tid in Hrun. cbn [tiny_tid] in Hrun.
  case_bool_decide as Hidx; [discriminate|].
  assert (bg_thread_index = cur_tiny_tid w) as Hidx'.
  { destruct (decide (bg_thread_index = cur_tiny_tid w)); done. }
  unfold bg_dprintf in Hrun. rewrite bind_modify in Hrun.
  apply bind_Ret_inv in Hrun as ([] & w2 & Hloop & Hexit).
  apply bg_loop_Ret in Hloop
    as (pre & t & post & evs & -> & Hpre & Hk & Ht & Hc & Hq & Hct & Htt); [|done].
  injection Hexit as <-. simpl in *.
  split; [done|]. split; [congruence|].
  exists pre, t, post, evs. repeat apply conj; try done.
  rewrite Ht. by rewrite <- !app_assoc.
Qed.

(** X20: an idle worker, and a worker that is never told to stop.  Given
    the index that equals its tiny thread id and an empty list, a worker
    to which nothing is pushed sleeps once per turn and returns in the turn
    that sees the kill switch: it has called nothing, the shared memory is
    as it was, and what that last turn pushed waits in the list.  And on a
    schedule in which no turn sees the kill switch the thread function does
    not return, whatever is pushed. *)
Theorem bg_thread_func_idle_exit (req_func_arr : list ReqFunc) (k : nat)
    (items : list BgWorkItem) (post sched : list Tick) (w : BgWorld App) :
  (bg_req_list w = mkMtList [] 0 false →
   thread_func (cur_tiny_tid w) req_func_arr
     (replicate k (mkTick [] false) ++ mkTick items true :: post) w
   = Ret tt (mkBgWorld (S (cur_tiny_tid w)) (Some (cur_tiny_tid w))
               (mkMtList items (length items) false) (mem w)
               (trace w ++ [BgDprintf "eRPC Nexus: Background thread running."] ++
                replicate k BgUsleep ++
                [BgDprintf "eRPC Nexus: Background thread exiting."]))) ∧
  (Forall (λ t, kill t = false) sched →
   ∀ idx w', thread_func idx req_func_arr sched w ≠ Ret tt w').
Proof.
  split.
  - intros Hempty. unfold bg_thread_func.
    unfold tls_registry_init. rewrite bind_modify.
    unfold bind at 1, get_tiny_tid. cbn [tiny_tid].
    rewrite bool_decide_eq_false_2 by (intros Hx; by apply Hx).
    unfold bg_dprintf. rewrite bind_modify. unfold bind at 1.
    rewrite bg_loop_idle by done. unfold modify, bg_emit, with_trace. simpl.
    by rewrite <- !app_assoc.
  - intros Hall idx w' Hrun. unfold bg_thread_func in Hrun.
    unfold tls_registry_init in Hrun. rewrite bind_modify in Hrun.
    unfold bind at 1, get_tiny_tid in Hrun. cbn [tiny_tid] in Hrun.
    case_bool_decide; [discriminate|].
    unfold bg_dprintf in Hrun. rewrite bind_modify in Hrun.
    apply bind_Ret_inv in Hrun as ([] & w2 & Hloop & _).
    destruct (bg_loop_no_kill req_func_arr sched
                (bg_emit (BgDprintf "eRPC Nexus: Background thread running.")
                   (mkBgWorld (S (cur_tiny_tid w)) (Some (cur_tiny_tid w))
                              (bg_req_list w) (mem w) (trace w))) Hall)
      as (h & w3 & Hstop).
    rewrite Hstop in Hloop. discriminate.
Qed.

End BgThreadProofs.

(** ** The statements at the example worlds *)

Lemma handle_disconnect_resp_st_duplicate_witness :
  ∃ w',
    handle_disconnect_resp_st ex_sm_handler 7 2 ex_dup_disconnect_resp
                              (ex_client_world false) = Ret tt w' ∧
    sm_callbacks (output w') = sm_callbacks (output (ex_client_world false)) ∧
    sm_pkts_sent (output w') = sm_pkts_sent (output (ex_client_world false)) ∧
    context w' = context (ex_client_world false) ∧
    session_vec w' = session_vec (ex_client_world false) ∧
    mgmt_retryq w' = mgmt_retryq (ex_client_world false) ∧
    heap w' = heap (ex_client_world false) ∧
    huge_alloc w' = huge_alloc (ex_client_world false) ∧
    transport w' = transport (ex_client_world false) ∧
    nexus w' = nexus (ex_client_world false) ∧
    w' = with_output
           (output (ex_client_world false) ++
            [EvDprintf "Client session is already disconnected."])
           (ex_client_world false).
Proof.
  apply (handle_disconnect_resp_st_duplicate ex_sm_handler 7 2
           ex_dup_disconnect_resp (ex_client_world false));
    vm_compute; reflexivity.
Defined.

Lemma handle_disconnect_resp_st_first_witness :
  (∃ s w_b,
    heap (ex_client_world false) !! 100 = Some s ∧
    state s = kDisconnectInProgress ∧
    100 ∈ mgmt_retryq (ex_client_world false) ∧
    err_type ex_disconnect_resp = kNoError ∧
    mgmt_retryq ex_client_world_after
    = filter (λ q, q ≠ 100) (mgmt_retryq (ex_client_world false)) ∧
    (100 ∉ mgmt_retryq ex_client_world_after) ∧
    heap w_b !! 100 = Some (set_state kDisconnectedState s) ∧
    bury_session_st 7 2 (Some 100) w_b = Ret tt ex_client_world_after ∧
    sm_callbacks (output ex_client_world_after)
    = sm_callbacks (output (ex_client_world false)) ++
      (if sm_callbacks_disabled (client_info s) then []
       else [EvSmCallback (local_session_num s) kDisconnected kNoError]) ∧
    session_vec ex_client_world_after
    = <[local_session_num s := None]> (session_vec (ex_client_world false)) ∧
    session_vec ex_client_world_after !! local_session_num s = Some None ∧
    (local_session_num s = ep_session_num (client ex_disconnect_resp) →
       session_vec ex_client_world_after !! ep_session_num (client ex_disconnect_resp)
       = Some None) ∧
    heap ex_client_world_after = delete 100 (heap (ex_client_world false)) ∧
    heap ex_client_world_after !! 100 = None ∧
    w_b = after_callback ex_sm_handler s (disconnected_world 100 (ex_client_world false)) ∧
    state <$> heap w_b !! 100 = Some kDisconnectedState ∧
    handle_disconnect_resp_st ex_sm_handler 7 2 ex_disconnect_resp (ex_client_world false)
    = bury_session_st 7 2 (Some 100) w_b) ∧
  (∃ w', handle_disconnect_resp_st ex_sm_handler 7 2 ex_disconnect_resp
           (ex_client_world true) = Ret tt w') ∧
  (let s := ex_client_session false in
   let w := ex_client_world_no_alloc in
   let cb := if sm_callbacks_disabled (client_info s) then []
             else [EvSmCallback (local_session_num s) kDisconnected kNoError] in
   let w_d := disconnected_world 100 w in
   let w_b := after_callback ex_sm_handler s w_d in
   handle_disconnect_resp_st ex_sm_handler 7 2 ex_disconnect_resp w
   = bury_session_st 7 2 (Some 100) w_b ∧
   mgmt_retryq w_d = filter (λ q, q ≠ 100) (mgmt_retryq w) ∧
   (100 ∉ mgmt_retryq w_d) ∧
   state <$> heap w_d !! 100 = Some kDisconnectedState ∧
   session_vec w_d = session_vec w ∧
   sm_callbacks (output w_d) = sm_callbacks (output w) ∧
   sm_callbacks (output w_b) = sm_callbacks (output w) ++ cb ∧
   state <$> heap w_b !! 100 = Some kDisconnectedState ∧
   (100 ∉ mgmt_retryq w_b) ∧
   session_vec w_b = session_vec w ∧
   (∀ h w1,
      handle_disconnect_resp_st ex_sm_handler 7 2 ex_disconnect_resp w = Stop h w1 →
      state <$> heap w1 !! 100 = Some kDisconnectedState ∧
      (100 ∉ mgmt_retryq w1) ∧
      session_vec w1 = session_vec w ∧
      sm_callbacks (output w1) = sm_callbacks (output w) ++ cb)).
Proof.
  split; [|split].
  - apply (proj1 (handle_disconnect_resp_st_first ex_sm_handler 7 2 ex_disconnect_resp
                    (ex_client_world false) 100 eq_refl) ex_client_world_after).
    vm_compute. reflexivity.
  - apply (proj1 (proj2 (handle_disconnect_resp_st_first ex_sm_handler 7 2
                           ex_disconnect_resp (ex_client_world true) 100 eq_refl))
                 (ex_client_session true));
      try (vm_compute; reflexivity).
    + simpl. constructor.
    + intros _. split; [simpl; lia|]. vm_compute. eauto.
  - apply (proj2 (proj2 (handle_disconnect_resp_st_first ex_sm_handler 7 2
                           ex_disconnect_resp ex_client_world_no_alloc 100 eq_refl))
                 (ex_client_session false));
      try (vm_compute; reflexivity).
    simpl. constructor.
Defined.

Lemma handle_disconnect_resp_st_callback_moment_witness :
  ∃ p s w_cb,
    session_vec (ex_client_world false) !! ep_session_num (client ex_disconnect_resp)
    = Some (Some p) ∧
    heap (ex_client_world false) !! p = Some s ∧
    w_cb = callback_world (disconnected_world p (ex_client_world false)) ∧
    handle_disconnect_resp_st ex_sm_handler 7 2 ex_disconnect_resp (ex_client_world false)
    = bury_session_st 7 2 (Some p)
        (with_context
           (ex_sm_handler (local_session_num s) kDisconnected kNoError w_cb)
           (emit (EvSmCallback (local_session_num s) kDisconnected kNoError) w_cb)) ∧
    sm_callbacks
      (output (final (handle_disconnect_resp_st ex_sm_handler 7 2 ex_disconnect_resp
                        (ex_client_world false))))
    = sm_callbacks (output (ex_client_world false)) ++
      [EvSmCallback (local_session_num s) kDisconnected kNoError] ∧
    state <$> heap w_cb !! p = Some kDisconnectedState ∧
    (p ∉ mgmt_retryq w_cb) ∧
    session_vec w_cb !! ep_session_num (client ex_disconnect_resp) = Some (Some p) ∧
    sm_callbacks (output w_cb) = sm_callbacks (output (ex_client_world false)).
Proof.
  apply (handle_disconnect_resp_st_callback_moment ex_sm_handler 7 2 ex_disconnect_resp
           (ex_client_world false)).
  vm_compute. discriminate.
Defined.

Lemma handle_disconnect_req_st_duplicate_witness :
  (∀ n, ∃ w_n,
     replay n ex_dup_disconnect_req (handle_disconnect_req_st 7 2) ex_server_world
       = Ret tt w_n ∧
     sm_pkts_sent (output w_n)
     = sm_pkts_sent (output ex_server_world) ++
       replicate n (resp_of kNoError ex_dup_disconnect_req) ∧
     session_vec w_n = session_vec ex_server_world ∧
     heap w_n = heap ex_server_world ∧
     mgmt_retryq w_n = mgmt_retryq ex_server_world ∧
     huge_alloc w_n = huge_alloc ex_server_world ∧
     context w_n = context ex_server_world ∧
     sm_callbacks (output w_n) = sm_callbacks (output ex_server_world)) ∧
  resp_of kNoError ex_dup_disconnect_req
  = mkSessionMgmtPkt kDisconnectResp kNoError (client ex_dup_disconnect_req)
                     (server ex_dup_disconnect_req) ∧
  (∀ w0 w0' : World nat,
     handle_disconnect_req_st 7 2 ex_dup_disconnect_req w0 = Ret tt w0' →
     sm_pkts_sent (output w0')
     = sm_pkts_sent (output w0) ++ [resp_of kNoError ex_dup_disconnect_req]).
Proof.
  apply (handle_disconnect_req_st_duplicate 7 2 ex_dup_disconnect_req ex_server_world);
    vm_compute; reflexivity.
Defined.

Lemma handle_disconnect_req_st_first_witness :
  (let resp :=
     mkSessionMgmtPkt kDisconnectResp kNoError (client ex_disconnect_req)
                      (server ex_disconnect_req) in
   let w_r := responded_world ex_disconnect_req ex_server_world in
   handle_disconnect_req_st 7 2 ex_disconnect_req ex_server_world
   = bury_session_st 7 2 (Some 200) w_r ∧
   sm_pkts_sent (output w_r) = sm_pkts_sent (output ex_server_world) ++ [resp] ∧
   heap w_r !! 200 = Some ex_server_session ∧
   session_vec w_r = session_vec ex_server_world ∧
   huge_alloc w_r = huge_alloc ex_server_world ∧
   (∀ h w1,
      handle_disconnect_req_st 7 2 ex_disconnect_req ex_server_world = Stop h w1 →
      sm_pkts_sent (output w1) = sm_pkts_sent (output ex_server_world) ++ [resp] ∧
      heap w1 !! 200 = Some ex_server_session ∧
      session_vec w1 = session_vec ex_server_world) ∧
   (∀ ha,
      huge_alloc ex_server_world = Some ha →
      local_session_num ex_server_session < length (session_vec ex_server_world) →
      ∃ w',
        handle_disconnect_req_st 7 2 ex_disconnect_req ex_server_world = Ret tt w' ∧
        bury_session_st 7 2 (Some 200) (responded_world ex_disconnect_req ex_server_world)
          = Ret tt w' ∧
        heap (responded_world ex_disconnect_req ex_server_world) !! 200
        = Some ex_server_session ∧
        session_vec (responded_world ex_disconnect_req ex_server_world)
        = session_vec ex_server_world ∧
        sm_pkts_sent (output w')
        = sm_pkts_sent (output ex_server_world) ++
          [mkSessionMgmtPkt kDisconnectResp kNoError (client ex_disconnect_req)
                            (server ex_disconnect_req)] ∧
        huge_alloc w'
        = Some (mkHugeAlloc (ha_numa_node ha)
                  (ha_freed ha ++
                   ((λ sslot, buffer (pre_resp_msgbuf sslot))
                      <$> take 2 (sslot_arr ex_server_session)))) ∧
        length (take 2 (sslot_arr ex_server_session)) = 2 ∧
        session_vec w'
        = <[local_session_num ex_server_session := None]> (session_vec ex_server_world) ∧
        session_vec w' !! local_session_num ex_server_session = Some None ∧
        (local_session_num ex_server_session = ep_session_num (server ex_disconnect_req) →
           session_vec w' !! ep_session_num (server ex_disconnect_req) = Some None) ∧
        heap w' = delete 200 (heap ex_server_world) ∧
        heap w' !! 200 = None)) ∧
  (* without its allocator the burial stops, and the response is out *)
  (∃ h w1,
     handle_disconnect_req_st 7 2 ex_disconnect_req ex_server_world_no_alloc
     = Stop h w1 ∧
     sm_pkts_sent (output w1)
     = sm_pkts_sent (output ex_server_world_no_alloc) ++
       [mkSessionMgmtPkt kDisconnectResp kNoError (client ex_disconnect_req)
                         (server ex_disconnect_req)] ∧
     heap w1 !! 200 = Some ex_server_session ∧
     session_vec w1 = session_vec ex_server_world_no_alloc).
Proof.
  split.
  - apply (handle_disconnect_req_st_first 7 2 ex_disconnect_req ex_server_world 200
             ex_server_session);
      try (vm_compute; reflexivity).
    intros i Hi. destruct i as [|[|i]]; [eexists; split; reflexivity..|lia].
  - eexists _, _. split; [vm_compute; reflexivity|].
    assert (∀ i, i < 2 →
              ∃ sslot, sslot_arr ex_server_session !! i = Some sslot ∧
                       quiescent sslot = true) as Hq.
    { intros i Hi. destruct i as [|[|i]]; [eexists; split; reflexivity..|lia]. }
    destruct (handle_disconnect_req_st_first 7 2 ex_disconnect_req
                ex_server_world_no_alloc 200 ex_server_session
                eq_refl eq_refl eq_refl eq_refl eq_refl eq_refl eq_refl eq_refl
                eq_refl Hq)
      as (_ & _ & _ & _ & _ & Hstop & _).
    eapply Hstop. vm_compute. reflexivity.
Defined.

Lemma Rpc_dtor_thread_check_witness :
  (∃ w', Rpc_dtor 8 true ex_server_world = Stop (Exited (-1)) w' ∧
         output w' = output ex_server_world ++
                     [EvDprintf "Error. Cannot destroy from background thread."] ∧
         huge_alloc w' = huge_alloc ex_server_world ∧
         transport w' = transport ex_server_world ∧
         nexus w' = nexus ex_server_world ∧
         session_vec w' = session_vec ex_server_world ∧
         heap w' = heap ex_server_world) ∧
  (∃ w', Rpc_dtor 7 true ex_server_world = Ret tt w' ∧
         huge_alloc w' = None ∧
         transport w' = None ∧
         nexus w' = unregister_hook (rpc_id ex_server_world) (nexus ex_server_world) ∧
         rpc_id ex_server_world ∉ reg_hooks (nexus w')).
Proof.
  split.
  - apply (proj1 (Rpc_dtor_thread_check 8 true ex_server_world)). vm_compute. lia.
  - apply (proj2 (proj2 (Rpc_dtor_thread_check 7 true ex_server_world)));
      vm_compute; reflexivity.
Defined.

(** Scenario 5 of the spec: configured index 2, assigned tiny thread id 3;
    and the same worker when the registry's counter is at its index. *)
Lemma bg_thread_func_tid_check_witness :
  (let w := mkBgWorld 3 None (mkMtList [ex_req_item] 1 false) (mem ex_bg_world) [] in
   let run := bg_thread_func ex_run_req_func ex_run_cont_func ex_debug_check
                2 ex_req_func_arr [mkTick [] false] w in
   run = Stop (Thrown (runtime_error (tid_mismatch_msg 2 3)))
              (mkBgWorld 4 (Some 3) (bg_req_list w) (mem w) (trace w)) ∧
   thread_end run = ProcessTerminated (tid_mismatch_msg 2 3) ∧
   trace (final run) = trace w ∧
   mem (final run) = mem w ∧
   bg_req_list (final run) = bg_req_list w) ∧
  (bg_thread_func ex_run_req_func ex_run_cont_func ex_debug_check
     2 ex_req_func_arr [mkTick [] false; mkTick [] true] ex_bg_world
   = (bg_dprintf "eRPC Nexus: Background thread running.";;
      bg_loop ex_run_req_func ex_run_cont_func ex_debug_check ex_req_func_arr
              [mkTick [] false; mkTick [] true];;
      bg_dprintf "eRPC Nexus: Background thread exiting.")%M
       (mkBgWorld 3 (Some 2) (bg_req_list ex_bg_world) (mem ex_bg_world)
                  (trace ex_bg_world))).
Proof.
  split.
  - apply (proj1 (bg_thread_func_tid_check ex_run_req_func ex_run_cont_func
                    ex_debug_check 2 ex_req_func_arr [mkTick [] false]
                    (mkBgWorld 3 None (mkMtList [ex_req_item] 1 false)
                               (mem ex_bg_world) []))).
    vm_compute. lia.
  - apply (proj2 (bg_thread_func_tid_check ex_run_req_func ex_run_cont_func
                    ex_debug_check 2 ex_req_func_arr
                    [mkTick [] false; mkTick [] true] ex_bg_world)).
    reflexivity.
Defined.

Lemma bg_run_work_item_by_kind_witness :
  (let run := bg_run_work_item ex_run_req_func ex_run_cont_func ex_debug_check
                ex_req_func_arr ex_req_item ex_bg_world in
   let m1 := ex_run_req_func 42 10 3 (mem ex_bg_world) in
   run = bury_sslot_rx_msgbuf 10 (with_mem m1 (bg_emit (BgReqFunc 42 10 3) ex_bg_world)) ∧
   ∀ sslot1, sslots m1 !! 10 = Some sslot1 →
     ∃ w', run = Ret tt w' ∧
           trace w' = trace ex_bg_world ++ [BgReqFunc 42 10 3; BgBuryRxMsgbuf 10] ∧
           mem w' = mkUserMem (<[10 := clear_rx sslot1]> (sslots m1)) (app m1) ∧
           (rx_msgbuf <$> sslots (mem w') !! 10) = Some (rx_msgbuf (clear_rx sslot1)) ∧
           buf (rx_msgbuf (clear_rx sslot1)) = None ∧
           buffer_buf (buffer (rx_msgbuf (clear_rx sslot1))) = None) ∧
  (∃ w', bg_run_work_item ex_run_req_func ex_run_cont_func ex_debug_check
           ex_req_func_arr ex_cont_item ex_bg_world = Ret tt w' ∧
         trace w' = trace ex_bg_world ++ [BgContFunc 9 11 3 77] ∧
         mem w' = ex_run_cont_func 9 11 3 77 (mem ex_bg_world) ∧
         rx_released (trace w') = rx_released (trace ex_bg_world)).
Proof.
  split.
  - apply (proj1 (bg_run_work_item_by_kind ex_run_req_func ex_run_cont_func
                    ex_debug_check ex_req_func_arr ex_req_item ex_bg_world
                    10 ex_busy_sslot 3 eq_refl eq_refl eq_refl
                    ltac:(discriminate) eq_refl eq_refl)
                 eq_refl 700 (mkReqFunc (Some 42)) 42 eq_refl eq_refl eq_refl).
  - apply (proj2 (bg_run_work_item_by_kind ex_run_req_func ex_run_cont_func
                    ex_debug_check ex_req_func_arr ex_cont_item ex_bg_world
                    11 ex_busy_sslot 3 eq_refl eq_refl eq_refl
                    ltac:(discriminate) eq_refl eq_refl)
                 eq_refl).
Defined.

Lemma bg_drain_in_push_order_witness :
  (∃ evs,
     trace ex_bg_world_after
     = trace ex_bg_world ++ [BgLock] ++ evs ++ [BgLockedClear; BgUnlock] ∧
     Some <$> calls evs = item_call <$> mt_list (bg_req_list ex_bg_world) ∧
     length (calls evs) = length (mt_list (bg_req_list ex_bg_world)) ∧
     list_ops evs = [] ∧
     bg_req_list ex_bg_world_after = mkMtList [] 0 false) ∧
  (∀ (items : list BgWorkItem) (w0 : BgWorld nat),
     mt_list (bg_req_list (final (producers_push items w0)))
     = mt_list (bg_req_list w0) ++ items).
Proof.
  apply (bg_drain_in_push_order ex_run_req_func ex_run_cont_func ex_debug_check
           ex_req_func_arr ex_bg_world ex_bg_world_after).
  vm_compute. reflexivity.
Defined.

(** ** The further statements at the example worlds *)

Lemma bury_session_st_failure_modes_witness :
  bury_session_st 7 2 (Some 100) (ex_client_world false)
  = Stop (AssertionFailed "rpc.cc" 126) (ex_client_world false) ∧
  bury_session_st 7 2 None (ex_client_world false)
  = Stop (AssertionFailed "rpc.cc" 122) (ex_client_world false).
Proof.
  split.
  - apply (proj1 (bury_session_st_failure_modes 7 2 100 (ex_client_session false)
                    (ex_client_world false) eq_refl eq_refl)).
    + reflexivity.
    + simpl. constructor.
  - apply (proj2 (proj2 (bury_session_st_failure_modes 7 2 100 (ex_client_session false)
                           (ex_client_world false) eq_refl eq_refl))).
Defined.

Ltac ex_table_wf :=
  split; [vm_compute; eauto|split];
  [ intros i p Hi; destruct i as [|[|i]]; simpl in Hi; simplify_eq;
    eexists; split; [vm_compute; reflexivity|]; split; [reflexivity|simpl; lia]
  | intros p Hin; simpl in Hin;
    first [ by apply elem_of_nil in Hin
          | apply list_elem_of_singleton in Hin; subst p;
            eexists; split; vm_compute; reflexivity ] ].

Lemma handle_disconnect_resp_st_keeps_table_witness :
  endpoint_wf 2 ex_client_world_after ∧
  (∀ h w1,
     handle_disconnect_resp_st ex_sm_handler 7 2 ex_disconnect_resp (ex_client_world false)
     = Stop h w1 →
     ∃ line, h = AssertionFailed "rpc_disconnect_handlers.cc" line).
Proof.
  apply (handle_disconnect_resp_st_keeps_table ex_sm_handler 7 2 ex_disconnect_resp
           (ex_client_world false)).
  ex_table_wf.
Defined.

Lemma handle_disconnect_req_st_keeps_table_witness :
  endpoint_wf 2 ex_server_world_after ∧
  (∀ h w1,
     handle_disconnect_req_st 7 2 ex_disconnect_req ex_server_world = Stop h w1 →
     w1 = ex_server_world ∧
     ∃ line, h = AssertionFailed "rpc_disconnect_handlers.cc" line).
Proof.
  apply (handle_disconnect_req_st_keeps_table 7 2 ex_disconnect_req ex_server_world).
  ex_table_wf.
Defined.

Lemma handle_disconnect_resp_st_idempotent_witness :
  replay 3 ex_disconnect_resp (handle_disconnect_resp_st ex_sm_handler 7 2)
         ex_client_world_after
  = Ret tt (with_output
              (output ex_client_world_after ++
               replicate 3 (EvDprintf "Client session is already disconnected."))
              ex_client_world_after) ∧
  sm_callbacks
    (output (with_output
               (output ex_client_world_after ++
                replicate 3 (EvDprintf "Client session is already disconnected."))
               ex_client_world_after))
  = sm_callbacks (output ex_client_world_after) ∧
  length (sm_callbacks
            (output (with_output
                       (output ex_client_world_after ++
                        replicate 3 (EvDprintf "Client session is already disconnected."))
                       ex_client_world_after)))
  ≤ length (sm_callbacks (output (ex_client_world false))) + 1.
Proof.
  apply (handle_disconnect_resp_st_idempotent ex_sm_handler 7 2 ex_disconnect_resp
           (ex_client_world false) ex_client_world_after 3).
  - ex_table_wf.
  - vm_compute. reflexivity.
Defined.

Lemma handle_disconnect_req_st_retransmitted_witness :
  ∃ w_n,
    replay 3 ex_disconnect_req (handle_disconnect_req_st 7 2) ex_server_world_after
    = Ret tt w_n ∧
    sm_pkts_sent (output w_n)
    = sm_pkts_sent (output ex_server_world) ++
      replicate 4 (resp_of kNoError ex_disconnect_req) ∧
    sm_callbacks (output w_n) = sm_callbacks (output ex_server_world) ∧
    session_vec w_n = session_vec ex_server_world_after ∧
    heap w_n = heap ex_server_world_after ∧
    mgmt_retryq w_n = mgmt_retryq ex_server_world ∧
    huge_alloc w_n = huge_alloc ex_server_world_after ∧
    context w_n = context ex_server_world.
Proof.
  apply (handle_disconnect_req_st_retransmitted 7 2 ex_disconnect_req ex_server_world
           ex_server_world_after 3).
  - ex_table_wf.
  - vm_compute. reflexivity.
Defined.

Lemma Rpc_ctor_hugepage_init_fails_witness :
  ∃ w,
    Rpc_ctor (App := nat) 7 4 2 0 (Some "no huge pages")
             (Some (mkNexus "server-host" 0 [2])) 0 5 1 0
    = CtorStopped (Thrown (runtime_error "no huge pages")) w ∧
    huge_alloc w = None ∧
    transport w = Some (mkTransport 5 1 false) ∧
    nexus w = mkNexus "server-host" 0 [2] ∧
    rpc_id_exists 5 (nexus w) = false ∧
    output w = [].
Proof.
  apply (Rpc_ctor_hugepage_init_fails 7 4 2 0 (Some "no huge pages")
           (mkNexus "server-host" 0 [2]) 0 5 1 0 "no huge pages").
  - reflexivity.
  - vm_compute. lia.
  - simpl. intros Hin. apply list_elem_of_singleton in Hin. lia.
  - lia.
  - lia.
  - reflexivity.
Defined.

Lemma Rpc_ctor_dtor_round_trip_witness :
  ∃ w w',
    Rpc_ctor (App := nat) 7 4 2 0 None (Some (mkNexus "server-host" 0 [2])) 0 5 1 0
    = Constructed w ∧
    session_vec w = [] ∧ mgmt_retryq w = [] ∧ in_event_loop w = false ∧
    endpoint_wf 2 w ∧
    rpc_id_exists 5 (nexus w) = true ∧
    Rpc_dtor 7 true w = Ret tt w' ∧
    huge_alloc w' = None ∧ transport w' = None ∧
    nexus w' = mkNexus "server-host" 0 [2].
Proof.
  apply (Rpc_ctor_dtor_round_trip 7 2 true 4 2 0 None
           (mkNexus "server-host" 0 [2]) 0 5 1 0).
  - reflexivity.
  - vm_compute. lia.
  - simpl. intros Hin. apply list_elem_of_singleton in Hin. lia.
  - lia.
  - lia.
  - reflexivity.
Defined.

Lemma handle_session_management_st_stops_witness :
  (7 ≠ creator_os_tid (sm_world ex_sm_state_self) ∧
   AssertionFailed "rpc.cc" 154 = AssertionFailed "rpc.cc" 146 ∧
   ex_sm_state_self_after = ex_sm_state_self)
  ∨ (7 = creator_os_tid (sm_world ex_sm_state_self) ∧
     mt_size (sm_pkt_list ex_sm_state_self) = 0 ∧
     AssertionFailed "rpc.cc" 154 = AssertionFailed "rpc.cc" 147 ∧
     ex_sm_state_self_after = ex_sm_state_self)
  ∨ (for_each (mt_list (sm_pkt_list ex_sm_state_self))
       (sm_handle_pkt ex_sm_handler 7 2 ex_connect_handler ex_connect_handler)
       (sm_world ex_sm_state_self)
     = Stop (AssertionFailed "rpc.cc" 154) (sm_world ex_sm_state_self_after) ∧
     sm_pkt_list ex_sm_state_self_after = mt_lock (sm_pkt_list ex_sm_state_self) ∧
     mt_list (sm_pkt_list ex_sm_state_self_after)
     = mt_list (sm_pkt_list ex_sm_state_self) ∧
     mt_locked (sm_pkt_list ex_sm_state_self_after) = true ∧
     ∃ k sm_pkt w_k,
       mt_list (sm_pkt_list ex_sm_state_self) !! k = Some sm_pkt ∧
       k < length (mt_list (sm_pkt_list ex_sm_state_self)) ∧
       for_each (take k (mt_list (sm_pkt_list ex_sm_state_self)))
         (sm_handle_pkt ex_sm_handler 7 2 ex_connect_handler ex_connect_handler)
         (sm_world ex_sm_state_self)
       = Ret tt w_k ∧
       sm_handle_pkt ex_sm_handler 7 2 ex_connect_handler ex_connect_handler sm_pkt w_k
       = Stop (AssertionFailed "rpc.cc" 154) (sm_world ex_sm_state_self_after) ∧
       sm_freed ex_sm_state_self_after
       = sm_freed ex_sm_state_self ++ take k (mt_list (sm_pkt_list ex_sm_state_self)) ∧
       length (sm_freed ex_sm_state_self_after)
       = length (sm_freed ex_sm_state_self) + k).
Proof.
  apply (handle_session_management_st_stops ex_sm_handler 7 2 ex_connect_handler
           ex_connect_handler ex_sm_state_self (AssertionFailed "rpc.cc" 154)
           ex_sm_state_self_after).
  vm_compute. reflexivity.
Defined.

Lemma handle_session_management_st_disconnect_responses_witness :
  ∃ st',
    handle_session_management_st ex_sm_handler 7 2 ex_connect_handler ex_connect_handler
                                 ex_sm_state = Ret tt st' ∧
    sm_callbacks (output (sm_world st'))
    = sm_callbacks (output (sm_world ex_sm_state)) ++
      (if sm_callbacks_disabled (client_info (ex_client_session false)) then []
       else [EvSmCallback (ep_session_num (client ex_disconnect_resp))
                          kDisconnected kNoError]) ∧
    sm_pkts_sent (output (sm_world st')) = sm_pkts_sent (output (sm_world ex_sm_state)) ∧
    session_vec (sm_world st') !! ep_session_num (client ex_disconnect_resp)
    = Some None ∧
    heap (sm_world st') !! 100 = None ∧
    (100 ∉ mgmt_retryq (sm_world st')) ∧
    endpoint_wf 2 (sm_world st') ∧
    sm_freed st' = sm_freed ex_sm_state ++ replicate 2 ex_disconnect_resp ∧
    sm_pkt_list st' = mkMtList [] 0 false.
Proof.
  apply (handle_session_management_st_disconnect_responses ex_sm_handler 7 2
           ex_connect_handler ex_connect_handler ex_sm_state ex_disconnect_resp 100
           (ex_client_session false) 1);
    try (vm_compute; reflexivity).
  - ex_table_wf.
  - intros [Hhost _]. vm_compute in Hhost. discriminate Hhost.
  - simpl. constructor.
Defined.

Lemma bg_run_work_item_checks_first_witness :
  (ex_bg_world_freed = ex_bg_world
   ∨ (∃ p ctx f,
        wi_type ex_req_item = kReq ∧ wi_sslot ex_req_item = Some p ∧
        wi_context ex_req_item = Some ctx ∧
        DanglingDeref "sslot" = DanglingDeref "sslot" ∧
        ex_bg_world_freed
        = with_mem (ex_run_req_func_free f p ctx (mem ex_bg_world))
                   (bg_emit (BgReqFunc f p ctx) ex_bg_world) ∧
        sslots (mem ex_bg_world_freed) !! p = None)) ∧
  (wi_type ex_req_item = kResp → ex_bg_world_freed = ex_bg_world) ∧
  bg_req_list ex_bg_world_freed = bg_req_list ex_bg_world.
Proof.
  apply (bg_run_work_item_checks_first ex_run_req_func_free ex_run_cont_func
           ex_debug_check ex_req_func_arr ex_req_item ex_bg_world ex_bg_world_freed
           (DanglingDeref "sslot")).
  vm_compute. reflexivity.
Defined.

Lemma bg_drain_stops_locked_witness :
  bg_req_list ex_bg_world_stopped = mt_lock (bg_req_list ex_bg_world_spawned) ∧
  mt_locked (bg_req_list ex_bg_world_stopped) = true ∧
  mt_list (bg_req_list ex_bg_world_stopped) = mt_list (bg_req_list ex_bg_world_spawned) ∧
  (mt_size (bg_req_list ex_bg_world_spawned) = 0 →
   AssertionFailed "nexus_bg_thread.cc" 43 = AssertionFailed "nexus_bg_thread.cc" 43) ∧
  ∃ evs, trace ex_bg_world_stopped = trace ex_bg_world_spawned ++ [BgLock] ++ evs ∧
         list_ops evs = [] ∧
         length (calls evs) ≤ length (mt_list (bg_req_list ex_bg_world_spawned)).
Proof.
  apply (bg_drain_stops_locked ex_run_req_func ex_run_cont_func ex_debug_check
           ex_req_func_arr ex_bg_world_spawned ex_bg_world_stopped
           (AssertionFailed "nexus_bg_thread.cc" 43)).
  vm_compute. reflexivity.
Defined.

Lemma bg_thread_func_returns_witness :
  2 = cur_tiny_tid ex_bg_world_spawned ∧
  tiny_tid ex_bg_world_exit = Some 2 ∧
  ∃ pre t post evs,
    ex_sched = pre ++ t :: post ∧
    Forall (λ t, kill t = false) pre ∧ kill t = true ∧
    trace ex_bg_world_exit
    = trace ex_bg_world_spawned ++
      [BgDprintf "eRPC Nexus: Background thread running."] ++ evs ++
      [BgDprintf "eRPC Nexus: Background thread exiting."] ∧
    Some <$> calls evs = item_call <$> concat (pushed <$> pre) ∧
    bg_req_list ex_bg_world_exit = mkMtList (pushed t) (length (pushed t)) false.
Proof.
  apply (bg_thread_func_returns ex_run_req_func ex_run_cont_func ex_debug_check 2
           ex_req_func_arr ex_sched ex_bg_world_spawned ex_bg_world_exit).
  - reflexivity.
  - vm_compute. reflexivity.
Defined.
